(** * Phone intelligence engine: risk scoring, online status and the
      analysis pipeline of [phone_intelligence.py]

    A shallow embedding of the class [PhoneIntelligence].  Python values
    are an inductive type of JSON-like data, dictionaries are association
    lists in insertion order, and a method is a computation in a small
    state-and-exception monad whose state records the calls made to the
    outside (library, logger, clock) and the methods entered. *)

From Stdlib Require Import String Ascii ZArith QArith DecimalString List Lia Bool Permutation.
Import ListNotations.
Open Scope string_scope.
Open Scope Z_scope.

Set Implicit Arguments.
Set Warnings "-register-all".

(** ** Python values *)

(** A float is NaN, an infinity or a finite rational (every finite double
    is one); comparisons with integer literals are exact in Python. *)
Inductive pyfloat : Type :=
| FNaN
| FInf (negative : bool)
| FFinite (q : Q).

Inductive PyVal : Type :=
| VNone
| VBool (b : bool)
| VInt (n : Z)
| VFloat (f : pyfloat)
| VStr (s : string)
| VList (l : list PyVal)
| VDict (d : list (string * PyVal)).

(** A dict with string keys, in insertion order. *)
Abbreviation pydict := (list (string * PyVal)).

Inductive exn_kind : Type :=
| TypeError | AttributeError | KeyError | ValueError | IndexError | LibraryError.

(** An exception: its class and [str(e)]. *)
Record exn : Type := Exn { e_kind : exn_kind; e_str : string }.

Inductive Result (A : Type) : Type :=
| Ok (a : A)
| Raise (e : exn).
Arguments Ok {A} a.
Arguments Raise {A} e.

(** ** Truthiness, [len], comparisons with integer literals *)

Definition float_truthy (f : pyfloat) : bool :=
  match f with
  | FFinite q => negb (Qnum q =? 0)
  | _ => true
  end.

Definition truthy (v : PyVal) : bool :=
  match v with
  | VNone => false
  | VBool b => b
  | VInt n => negb (n =? 0)
  | VFloat f => float_truthy f
  | VStr s => negb (String.eqb s "")
  | VList l => match l with [] => false | _ => true end
  | VDict d => match d with [] => false | _ => true end
  end.

Definition py_len (v : PyVal) : Result Z :=
  match v with
  | VStr s => Ok (Z.of_nat (String.length s))
  | VList l => Ok (Z.of_nat (List.length l))
  | VDict d => Ok (Z.of_nat (List.length d))
  | _ => Raise (Exn TypeError "object has no len()")
  end.

Definition float_lt_int (f : pyfloat) (n : Z) : bool :=
  match f with
  | FNaN => false
  | FInf negative => negative
  | FFinite q => Qnum q <? n * Zpos (Qden q)
  end.

Definition float_gt_int (f : pyfloat) (n : Z) : bool :=
  match f with
  | FNaN => false
  | FInf negative => negb negative
  | FFinite q => Qnum q >? n * Zpos (Qden q)
  end.

(** [v < n] for an int literal [n]: numbers compare, [bool] is an [int],
    everything else raises [TypeError]. *)
Definition py_lt_int (v : PyVal) (n : Z) : Result bool :=
  match v with
  | VBool b => Ok (Z.b2z b <? n)
  | VInt m => Ok (m <? n)
  | VFloat f => Ok (float_lt_int f n)
  | _ => Raise (Exn TypeError "'<' not supported between these instances")
  end.

Definition py_gt_int (v : PyVal) (n : Z) : Result bool :=
  match v with
  | VBool b => Ok (Z.b2z b >? n)
  | VInt m => Ok (m >? n)
  | VFloat f => Ok (float_gt_int f n)
  | _ => Raise (Exn TypeError "'>' not supported between these instances")
  end.

(** ** Dictionaries *)

Fixpoint dict_lookup (k : string) (d : pydict) : option PyVal :=
  match d with
  | [] => None
  | (k', v) :: d' => if String.eqb k k' then Some v else dict_lookup k d'
  end.

(** [d[k] = v]: replaces in place, a new key goes to the end. *)
Fixpoint dict_set (k : string) (v : PyVal) (d : pydict) : pydict :=
  match d with
  | [] => [(k, v)]
  | (k', v') :: d' =>
      if String.eqb k k' then (k', v) :: d' else (k', v') :: dict_set k v d'
  end.

(** [d.update(other)], and the dict display [{k1: v1, ..., **other}]. *)
Definition dict_update (d other : pydict) : pydict :=
  fold_left (fun acc kv => dict_set (fst kv) (snd kv) acc) other d.

Definition dict_of (entries : pydict) : pydict := dict_update [] entries.

Definition dict_keys (d : pydict) : list string := map fst d.
Definition dict_values (d : pydict) : list PyVal := map snd d.

(** [d.get(k, default)] on an arbitrary receiver. *)
Definition py_get (recv : PyVal) (k : string) (default : PyVal) : Result PyVal :=
  match recv with
  | VDict d => Ok (match dict_lookup k d with Some v => v | None => default end)
  | _ => Raise (Exn AttributeError "object has no attribute 'get'")
  end.

(** [recv.values()] *)
Definition py_values (recv : PyVal) : Result (list PyVal) :=
  match recv with
  | VDict d => Ok (dict_values d)
  | _ => Raise (Exn AttributeError "object has no attribute 'values'")
  end.

(** [recv[k]] for a string key. *)
Definition py_getitem (recv : PyVal) (k : string) : Result PyVal :=
  match recv with
  | VDict d =>
      match dict_lookup k d with
      | Some v => Ok v
      | None => Raise (Exn KeyError k)
      end
  | _ => Raise (Exn TypeError "object is not subscriptable by str")
  end.

(** [recv[k] = v] for a string key. *)
Definition py_setitem (recv : PyVal) (k : string) (v : PyVal) : Result PyVal :=
  match recv with
  | VDict d => Ok (VDict (dict_set k v d))
  | _ => Raise (Exn TypeError "object does not support item assignment")
  end.

(** [recv.append(v)] *)
Definition py_append (recv : PyVal) (v : PyVal) : Result PyVal :=
  match recv with
  | VList l => Ok (VList (l ++ [v]))
  | _ => Raise (Exn AttributeError "object has no attribute 'append'")
  end.

(** ** The world and the method monad *)

Inductive Event : Type :=
| EvCall (method : string)   (* a method of the class is entered *)
| EvLib (fn : string)        (* a function of the phonenumbers library *)
| EvHttp (url : string)      (* requests.get *)
| EvLog (msg : string)       (* self.logger.error *)
| EvClock.                   (* datetime.now() *)

(** The trace has the newest event first.  [w_rng] stands for the state of
    the [random] module the file imports. *)
Record World : Type := mkWorld {
  w_trace : list Event;
  w_ticks : nat;
  w_rng : N
}.

Definition M (A : Type) : Type := World -> Result A * World.

(** Code without effects lives in [Result], methods live in [M]; both
    share the sequencing notation. *)
Class Monad (m : Type -> Type) : Type := {
  ret : forall A, A -> m A;
  bind : forall A B, m A -> (A -> m B) -> m B
}.
Arguments ret {m _ A} a.
Arguments bind {m _ A B} c k.

#[global] Instance Result_Monad : Monad Result := {
  ret := fun A a => Ok a;
  bind := fun A B c k =>
    match c with
    | Ok a => k a
    | Raise e => Raise e
    end
}.

#[global] Instance M_Monad : Monad M := {
  ret := fun A a w => (Ok a, w);
  bind := fun A B c k w =>
    match c w with
    | (Ok a, w') => k a w'
    | (Raise e, w') => (Raise e, w')
    end
}.

Definition lift {A} (r : Result A) : M A := fun w => (r, w).

(** [try: body / except Exception as e: handler] *)
Definition try_except {A} (body : M A) (handler : exn -> M A) : M A :=
  fun w =>
    match body w with
    | (Ok a, w') => (Ok a, w')
    | (Raise e, w') => handler e w'
    end.

Definition emit (ev : Event) : M unit :=
  fun w => (Ok tt, mkWorld (ev :: w_trace w) (w_ticks w) (w_rng w)).

Declare Scope m_scope.
Delimit Scope m_scope with M.
Notation "x <- c ;; k" := (bind c (fun x => k))
  (at level 61, c at next level, right associativity) : m_scope.
Notation "c ;; k" := (bind c (fun _ => k))
  (at level 61, right associativity) : m_scope.
Open Scope m_scope.

(** A method body runs after its entry is recorded. *)
Definition method {A} (name : string) (body : M A) : M A :=
  emit (EvCall name) ;; body.

Definition logger_error (msg : string) : M unit := emit (EvLog msg).

(** The value a computation returns in a world. *)
Definition value {A} (m : M A) (w : World) : Result A := fst (m w).
Definition after {A} (m : M A) (w : World) : World := snd (m w).

(** ** Risk scoring: [_calculate_risk_score] *)

(** The [try] block of [_calculate_risk_score]. *)
Definition risk_score_body (security_analysis osint_data : PyVal) : Result Z :=
  let base_score := 20 in
  spam <- py_get security_analysis "is_spam_risk" VNone ;;
  let base_score := if truthy spam then base_score + 40 else base_score in
  voip <- py_get security_analysis "is_voip" VNone ;;
  let base_score := if truthy voip then base_score + 20 else base_score in
  breach <- py_get osint_data "breach_data" VNone ;;
  let base_score := if truthy breach then base_score + 30 else base_score in
  reputation <- py_get security_analysis "reputation_score" (VInt 50) ;;
  low <- py_lt_int reputation 30 ;;
  base_score <-
    (if low : bool then ret (base_score + 20)
     else
       high <- py_gt_int reputation 70 ;;
       if high : bool then ret (Z.max 0 (base_score - 10))
       else ret base_score) ;;
  ret (Z.min 100 base_score).

Definition _calculate_risk_score (security_analysis osint_data : PyVal) : M Z :=
  method "_calculate_risk_score"
    (try_except (lift (risk_score_body security_analysis osint_data))
       (fun e =>
          logger_error ("Risk calculation error: " ++ e_str e) ;;
          ret 50)).

(** ** The collaborators: number-format library, HTTP, clock, configuration *)

Record PhoneNumber : Type := mkPhoneNumber {
  country_code : Z;
  national_number : Z
}.

Inductive PhoneNumberType : Type :=
| FIXED_LINE | MOBILE | FIXED_LINE_OR_MOBILE | TOLL_FREE | PREMIUM_RATE
| SHARED_COST | VOIP | PERSONAL_NUMBER | PAGER | UAN | VOICEMAIL | UNKNOWN.

Inductive PhoneNumberFormat : Type := E164 | INTERNATIONAL | NATIONAL.

(** [config.py]: the four credentials the engine reads. *)
Record Config : Type := mkConfig {
  NUMVERIFY_API_KEY : string;
  TWILIO_ACCOUNT_SID : string;
  TWILIO_AUTH_TOKEN : string;
  HIBP_API_KEY : string
}.

(** What the engine calls and does not define: the [phonenumbers] package
    (any call may raise), [requests.get] (status code and the outcome of
    [response.json()]), the rendering of the [n]-th clock reading, and the
    configuration. *)
Record Env : Type := mkEnv {
  parse : string -> option string -> Result PhoneNumber;
  is_valid_number : PhoneNumber -> Result bool;
  number_type : PhoneNumber -> Result PhoneNumberType;
  description_for_number : PhoneNumber -> string -> Result string;
  name_for_number : PhoneNumber -> string -> Result string;
  time_zones_for_number : PhoneNumber -> Result (list string);
  format_number : PhoneNumber -> PhoneNumberFormat -> Result string;
  requests_get : string -> pydict -> Result (Z * Result PyVal);
  isoformat : nat -> string;
  config : Config
}.

Definition library_call {A} (fn : string) (r : Result A) : M A :=
  emit (EvLib fn) ;; lift r.

(** [datetime.now().isoformat()] *)
Definition datetime_now (env : Env) : M string :=
  fun w =>
    (Ok (isoformat env (w_ticks w)),
     mkWorld (EvClock :: w_trace w) (S (w_ticks w)) (w_rng w)).

Definition str_truthy (s : string) : bool := negb (String.eqb s "").

(** ** Number normalizer: [_parse_phone_number] *)

Definition regions_to_try : list (option string) :=
  [Some "US"; Some "GB"; Some "CA"; Some "AU"; None].

(** The [for region in regions_to_try] loop; the inner [try] swallows any
    exception of [parse] or [is_valid_number] and continues. *)
Fixpoint try_regions (env : Env) (phone_input : string)
    (regions : list (option string)) : M (option PhoneNumber) :=
  match regions with
  | [] => ret None
  | region :: rest =>
      found <- try_except
                 (parsed <- library_call "parse" (parse env phone_input region) ;;
                  valid <- library_call "is_valid_number" (is_valid_number env parsed) ;;
                  if valid : bool then ret (Some parsed) else ret None)
                 (fun _ => ret None) ;;
      match found with
      | Some parsed => ret (Some parsed)
      | None => try_regions env phone_input rest
      end
  end.

Definition _parse_phone_number (env : Env) (phone_input : string)
    : M (option PhoneNumber) :=
  method "_parse_phone_number"
    (try_except
       (try_regions env phone_input regions_to_try)
       (fun e =>
          logger_error ("Phone parsing error: " ++ e_str e) ;;
          ret None)).

(** ** Online-status engine *)

(** The loop over [status_data['messaging_apps'].values()]. *)
Fixpoint any_app_online (apps : list PyVal) : Result bool :=
  match apps with
  | [] => ret false
  | app_data :: rest =>
      if truthy app_data then
        online <- py_get app_data "online" VNone ;;
        if truthy online then ret true else any_app_online rest
      else any_app_online rest
  end.

(** The [try] block of [_determine_overall_status]. *)
Definition overall_status_body (status_data : PyVal) : Result string :=
  online_indicators <- py_get status_data "online_indicators" (VList []) ;;
  n <- py_len online_indicators ;;
  if n >=? 2 then ret "Online"
  else if n =? 1 then ret "Recently Online"
  else
    apps <- py_get status_data "messaging_apps" VNone ;;
    if truthy apps then
      apps <- py_getitem status_data "messaging_apps" ;;
      values <- py_values apps ;;
      online <- any_app_online values ;;
      if online : bool then ret "Online via messaging" else ret "Offline"
    else ret "Offline".

Definition _determine_overall_status (status_data : PyVal) : M string :=
  method "_determine_overall_status"
    (try_except (lift (overall_status_body status_data))
       (fun _ => ret "Unknown")).

(** The six presence probes [_detect_online_status] calls through [self];
    each returns a dict or raises. *)
Record PresenceSources : Type := mkSources {
  src_messaging : string -> M pydict;
  src_social : string -> M pydict;
  src_carrier : PhoneNumber -> M pydict;
  src_voip : string -> M pydict;
  src_business : string -> M pydict;
  src_probe : PhoneNumber -> M pydict
}.

(** [d[outer][inner] = v] *)
Definition setitem_in (d : pydict) (outer inner : string) (v : PyVal)
    : Result pydict :=
  target <- py_getitem (VDict d) outer ;;
  target <- py_setitem target inner v ;;
  ret (dict_set outer target d).

(** [d[outer].append(v)] *)
Definition append_in (d : pydict) (outer : string) (v : PyVal) : Result pydict :=
  target <- py_getitem (VDict d) outer ;;
  target <- py_append target v ;;
  ret (dict_set outer target d).

Definition dict_get (d : pydict) (k : string) (default : PyVal) : PyVal :=
  match dict_lookup k d with
  | Some v => v
  | None => default
  end.

Definition dict_truthy (d : pydict) : bool :=
  match d with [] => false | _ => true end.

(** The [try] block of [_detect_online_status]. *)
Definition detect_online_status_body (env : Env) (src : PresenceSources)
    (phone_input : string) (parsed_number : PhoneNumber) : M pydict :=
  let online_status : pydict :=
    [("network_status", VStr "Unknown");
     ("connection_status", VStr "Unknown");
     ("last_seen", VNone);
     ("online_indicators", VList []);
     ("real_time_ip", VNone);
     ("connection_quality", VStr "Unknown");
     ("device_activity", VDict []);
     ("network_changes", VList [])] in
  (* Method 1 *)
  messaging_status <- src_messaging src phone_input ;;
  let online_status :=
    if dict_truthy messaging_status
    then dict_update online_status messaging_status else online_status in
  (* Method 2 *)
  social_activity <- src_social src phone_input ;;
  online_status <-
    (if dict_truthy social_activity then
       online_status <- lift (setitem_in online_status "device_activity"
                                "social_media" (VDict social_activity)) ;;
       if truthy (dict_get social_activity "recent_activity" VNone) then
         let online_status :=
           dict_set "network_status" (VStr "Recently Online") online_status in
         ret (dict_set "last_seen"
                (dict_get social_activity "last_activity_time" VNone)
                online_status)
       else ret online_status
     else ret online_status) ;;
  (* Method 3 *)
  carrier_status <- src_carrier src parsed_number ;;
  let online_status :=
    if dict_truthy carrier_status
    then dict_update online_status carrier_status else online_status in
  (* Method 4 *)
  voip_status <- src_voip src phone_input ;;
  online_status <-
    (if dict_truthy voip_status then
       online_status <- lift (setitem_in online_status "device_activity"
                                "voip" (VDict voip_status)) ;;
       if truthy (dict_get voip_status "active" VNone) then
         lift (append_in online_status "online_indicators"
                 (VStr "VoIP service active"))
       else ret online_status
     else ret online_status) ;;
  (* Method 5 *)
  business_activity <- src_business src phone_input ;;
  online_status <-
    (if dict_truthy business_activity then
       lift (setitem_in online_status "device_activity"
               "business" (VDict business_activity))
     else ret online_status) ;;
  (* Method 6 *)
  network_probe <- src_probe src parsed_number ;;
  let online_status :=
    if dict_truthy network_probe
    then dict_update online_status network_probe else online_status in
  overall <- _determine_overall_status (VDict online_status) ;;
  let online_status := dict_set "network_status" (VStr overall) online_status in
  now <- datetime_now env ;;
  ret (dict_set "check_timestamp" (VStr now) online_status).

Definition _detect_online_status (env : Env) (src : PresenceSources)
    (phone_input : string) (parsed_number : PhoneNumber) : M pydict :=
  method "_detect_online_status"
    (try_except
       (detect_online_status_body env src phone_input parsed_number)
       (fun e =>
          logger_error ("Online status detection error: " ++ e_str e) ;;
          ret [("network_status", VStr "Error");
               ("connection_status", VStr "Unknown");
               ("error", VStr (e_str e))])).

(** ** Arithmetic on Python numbers with an int literal *)

(** Finite floats add exactly here (no rounding). *)
Definition float_add_int (f : pyfloat) (n : Z) : pyfloat :=
  match f with
  | FFinite q => FFinite (Qplus q (inject_Z n))
  | other => other
  end.

(** [v + n] *)
Definition py_add_int (v : PyVal) (n : Z) : Result PyVal :=
  match v with
  | VBool b => Ok (VInt (Z.b2z b + n))
  | VInt m => Ok (VInt (m + n))
  | VFloat f => Ok (VFloat (float_add_int f n))
  | _ => Raise (Exn TypeError "unsupported operand type(s) for +")
  end.

(** [v - n] *)
Definition py_sub_int (v : PyVal) (n : Z) : Result PyVal := py_add_int v (- n).

(** [min(n, v)]: the first argument wins ties. *)
Definition py_min_int (n : Z) (v : PyVal) : Result PyVal :=
  smaller <- py_lt_int v n ;;
  if smaller : bool then ret v else ret (VInt n).

(** [max(n, v)] *)
Definition py_max_int (n : Z) (v : PyVal) : Result PyVal :=
  larger <- py_gt_int v n ;;
  if larger : bool then ret v else ret (VInt n).

Definition float_gt (f g : pyfloat) : bool :=
  match f, g with
  | FNaN, _ | _, FNaN => false
  | FInf nf, FInf ng => negb nf && ng
  | FInf nf, FFinite _ => negb nf
  | FFinite _, FInf ng => ng
  | FFinite p, FFinite q => Qnum q * Zpos (Qden p) <? Qnum p * Zpos (Qden q)
  end.

(** [a > b] for the timestamps the engine compares: numbers or strings. *)
Definition py_gt (a b : PyVal) : Result bool :=
  match a, b with
  | VStr s, VStr t =>
      Ok (match String.compare s t with Gt => true | _ => false end)
  | VFloat f, VFloat g => Ok (float_gt f g)
  | VFloat f, VInt n => Ok (float_gt_int f n)
  | VFloat f, VBool c => Ok (float_gt_int f (Z.b2z c))
  | VInt m, VFloat g => Ok (float_lt_int g m)
  | VBool c, VFloat g => Ok (float_lt_int g (Z.b2z c))
  | VInt m, VInt n => Ok (m >? n)
  | VInt m, VBool c => Ok (m >? Z.b2z c)
  | VBool c, VInt n => Ok (Z.b2z c >? n)
  | VBool c, VBool c' => Ok (Z.b2z c >? Z.b2z c')
  | _, _ => Raise (Exn TypeError "'>' not supported between these instances")
  end.

(** [d[k] = f(d[k])], as in [d[k] -= 10]. *)
Definition update_in (d : pydict) (k : string) (f : PyVal -> Result PyVal)
    : Result pydict :=
  old <- py_getitem (VDict d) k ;;
  new <- f old ;;
  ret (dict_set k new d).

(** [str(n)] for an int. *)
Definition py_str_int (n : Z) : string := NilZero.string_of_int (Z.to_int n).

(** [s or "Unknown"] *)
Definition or_unknown (s : string) : string :=
  if str_truthy s then s else "Unknown".

Definition VStrs (l : list string) : PyVal := VList (map VStr l).

(** ** Placeholder probes *)

(** A method whose [try] block only returns a constant. *)
Definition stub {A} (name : string) (a : A) : M A := method name (ret a).

Definition _check_whatsapp_status (phone_input : string) : M pydict :=
  stub "_check_whatsapp_status"
    [("registered", VBool false); ("business_account", VBool false);
     ("last_seen", VNone); ("online", VBool false)].

Definition _check_telegram_status (phone_input : string) : M pydict :=
  stub "_check_telegram_status"
    [("public_profile", VBool false); ("username", VNone);
     ("last_seen", VNone); ("online", VBool false)].

Definition _check_signal_status (phone_input : string) : M pydict :=
  stub "_check_signal_status"
    [("registered", VBool false); ("online", VBool false)].

Definition _check_viber_status (phone_input : string) : M pydict :=
  stub "_check_viber_status"
    [("public_account", VBool false); ("business_profile", VBool false);
     ("online", VBool false)].

(** [status and status.get('online')] *)
Definition reports_online (status : PyVal) : Result bool :=
  if truthy status then
    online <- py_get status "online" VNone ;;
    ret (truthy online)
  else ret false.

(** The loop collecting [online_apps] over [messaging_status.items()]. *)
Fixpoint online_apps_of (items : pydict) : Result (list string) :=
  match items with
  | [] => ret []
  | (app, status) :: rest =>
      online <- reports_online status ;;
      apps <- online_apps_of rest ;;
      ret (if online : bool then app :: apps else apps)
  end.

Definition _check_messaging_app_status (phone_input : string) : M pydict :=
  method "_check_messaging_app_status"
    (try_except
       (whatsapp <- _check_whatsapp_status phone_input ;;
        telegram <- _check_telegram_status phone_input ;;
        signal <- _check_signal_status phone_input ;;
        viber <- _check_viber_status phone_input ;;
        let messaging_status : pydict :=
          [("whatsapp", VDict whatsapp); ("telegram", VDict telegram);
           ("signal", VDict signal); ("viber", VDict viber)] in
        online_apps <- lift (online_apps_of messaging_status) ;;
        match online_apps with
        | _ :: _ =>
            ret [("connection_status", VStr "Online via messaging");
                 ("online_indicators",
                  VStrs (map (fun app => app ++ " active") online_apps));
                 ("messaging_apps", VDict messaging_status)]
        | [] => ret [("messaging_apps", VDict messaging_status)]
        end)
       (fun e =>
          logger_error ("Messaging app status error: " ++ e_str e) ;;
          ret [])).

Definition _check_platform_activity (phone_input platform : string) : M pydict :=
  stub "_check_platform_activity"
    [("recent", VBool false); ("timestamp", VNone); ("activity_type", VNone)].

(** The [for platform in platforms] loop of [_check_recent_social_activity]. *)
Fixpoint social_platform_loop (phone_input : string) (platforms : list string)
    (activity_data : pydict) : M pydict :=
  match platforms with
  | [] => ret activity_data
  | platform :: rest =>
      platform_activity <- _check_platform_activity phone_input platform ;;
      activity_data <-
        (if dict_truthy platform_activity
            && truthy (dict_get platform_activity "recent" VNone)
         then
           activity_data <- lift (append_in activity_data "platforms_active"
                                    (VStr platform)) ;;
           let activity_data := dict_set "recent_activity" (VBool true) activity_data in
           activity_data <- lift (update_in activity_data "activity_score"
                                    (fun v => py_add_int v 1)) ;;
           if truthy (dict_get platform_activity "timestamp" VNone) then
             last <- lift (py_getitem (VDict activity_data) "last_activity_time") ;;
             stamp <- lift (py_getitem (VDict platform_activity) "timestamp") ;;
             newer <- (if negb (truthy last) then ret true
                       else lift (py_gt stamp last)) ;;
             if newer : bool
             then ret (dict_set "last_activity_time" stamp activity_data)
             else ret activity_data
           else ret activity_data
         else ret activity_data) ;;
      social_platform_loop phone_input rest activity_data
  end.

Definition _check_recent_social_activity (phone_input : string) : M pydict :=
  method "_check_recent_social_activity"
    (try_except
       (let activity_data : pydict :=
          [("recent_activity", VBool false); ("last_activity_time", VNone);
           ("platforms_active", VList []); ("activity_score", VInt 0)] in
        let platforms := ["facebook"; "twitter"; "instagram"; "linkedin"; "tiktok"] in
        social_platform_loop phone_input platforms activity_data)
       (fun e =>
          logger_error ("Social activity check error: " ++ e_str e) ;;
          ret [])).

Definition _check_carrier_network_status (env : Env) (parsed_number : PhoneNumber)
    : M pydict :=
  method "_check_carrier_network_status"
    (try_except
       (carrier_name <- library_call "name_for_number"
                          (name_for_number env parsed_number "en") ;;
        ret [("carrier_status", VStr "Unknown");
             ("network_available", VBool true);
             ("roaming_status", VStr "Unknown")])
       (fun e =>
          logger_error ("Carrier status check error: " ++ e_str e) ;;
          ret [])).

Definition _check_skype_status (phone_input : string) : M pydict :=
  stub "_check_skype_status" [("online", VBool false); ("username", VNone)].

Definition _check_google_voice_status (phone_input : string) : M pydict :=
  stub "_check_google_voice_status" [("active", VBool false)].

Definition _check_discord_voice_status (phone_input : string) : M pydict :=
  stub "_check_discord_voice_status" [("online", VBool false); ("servers", VList [])].

Definition _check_zoom_status (phone_input : string) : M pydict :=
  stub "_check_zoom_status" [("in_meeting", VBool false); ("public_meetings", VList [])].

(** The loop over [voip_data.items()]: the entry ['active'] is skipped, the
    first service reporting online sets it. *)
Fixpoint any_service_online (items : pydict) : Result bool :=
  match items with
  | [] => ret false
  | (service, status) :: rest =>
      if String.eqb service "active" then any_service_online rest
      else
        online <- reports_online status ;;
        if online : bool then ret true else any_service_online rest
  end.

Definition _check_voip_services (phone_input : string) : M pydict :=
  method "_check_voip_services"
    (try_except
       (skype <- _check_skype_status phone_input ;;
        google_voice <- _check_google_voice_status phone_input ;;
        discord <- _check_discord_voice_status phone_input ;;
        zoom <- _check_zoom_status phone_input ;;
        let voip_data : pydict :=
          [("skype", VDict skype); ("google_voice", VDict google_voice);
           ("discord", VDict discord); ("zoom", VDict zoom);
           ("active", VBool false)] in
        active <- lift (any_service_online voip_data) ;;
        ret (if active : bool
             then dict_set "active" (VBool true) voip_data else voip_data))
       (fun e =>
          logger_error ("VoIP services check error: " ++ e_str e) ;;
          ret [])).

Definition _check_google_business (phone_input : string) : M pydict :=
  stub "_check_google_business" [("listed", VBool false); ("recent_updates", VBool false)].

Definition _check_yelp_activity (phone_input : string) : M pydict :=
  stub "_check_yelp_activity"
    [("business_profile", VBool false); ("recent_activity", VBool false)].

Definition _check_website_activity (phone_input : string) : M pydict :=
  stub "_check_website_activity"
    [("websites_found", VList []); ("recent_updates", VBool false)].

Definition _check_recent_reviews (phone_input : string) : M pydict :=
  stub "_check_recent_reviews" [("recent_reviews", VBool false); ("platforms", VList [])].

Definition _check_business_activity (phone_input : string) : M pydict :=
  method "_check_business_activity"
    (try_except
       (google <- _check_google_business phone_input ;;
        yelp <- _check_yelp_activity phone_input ;;
        website <- _check_website_activity phone_input ;;
        reviews <- _check_recent_reviews phone_input ;;
        ret [("google_my_business", VDict google); ("yelp_activity", VDict yelp);
             ("website_activity", VDict website); ("recent_reviews", VDict reviews)])
       (fun e =>
          logger_error ("Business activity check error: " ++ e_str e) ;;
          ret [])).

Definition _perform_network_probe (parsed_number : PhoneNumber) : M pydict :=
  method "_perform_network_probe"
    (try_except
       (ret [("ping_response", VBool false); ("port_scan_results", VDict []);
             ("network_latency", VNone); ("connection_quality", VStr "Unknown")])
       (fun e =>
          logger_error ("Network probe error: " ++ e_str e) ;;
          ret [])).

(** The probes as the class defines them. *)
Definition class_sources (env : Env) : PresenceSources :=
  {| src_messaging := _check_messaging_app_status;
     src_social := _check_recent_social_activity;
     src_carrier := _check_carrier_network_status env;
     src_voip := _check_voip_services;
     src_business := _check_business_activity;
     src_probe := _perform_network_probe |}.

(** ** Basic information and carrier *)

(** [type_map.get(number_type, "Unknown")] *)
Definition type_map (number_type : PhoneNumberType) : string :=
  match number_type with
  | MOBILE => "Mobile"
  | FIXED_LINE => "Landline"
  | FIXED_LINE_OR_MOBILE => "Fixed Line or Mobile"
  | TOLL_FREE => "Toll Free"
  | PREMIUM_RATE => "Premium Rate"
  | SHARED_COST => "Shared Cost"
  | VOIP => "VoIP"
  | PERSONAL_NUMBER => "Personal Number"
  | PAGER => "Pager"
  | UAN => "Universal Access Number"
  | VOICEMAIL => "Voicemail"
  | UNKNOWN => "Unknown"
  end.

Definition _get_line_type_description (number_type : PhoneNumberType) : M string :=
  method "_get_line_type_description" (ret (type_map number_type)).

Definition _extract_basic_info (env : Env) (parsed_number : PhoneNumber) : M pydict :=
  method "_extract_basic_info"
    (try_except
       (country <- library_call "description_for_number"
                     (description_for_number env parsed_number "en") ;;
        region <- library_call "description_for_number"
                    (description_for_number env parsed_number "en") ;;
        carrier_name <- library_call "name_for_number"
                          (name_for_number env parsed_number "en") ;;
        timezones <- library_call "time_zones_for_number"
                       (time_zones_for_number env parsed_number) ;;
        let timezone_str :=
          match timezones with
          | first :: _ => first
          | [] => "Unknown"
          end in
        number_type <- library_call "number_type" (number_type env parsed_number) ;;
        line_type <- _get_line_type_description number_type ;;
        ret [("country", VStr (or_unknown country));
             ("region", VStr (or_unknown region));
             ("carrier", VStr (or_unknown carrier_name));
             ("line_type", VStr line_type);
             ("timezone", VStr timezone_str);
             ("country_code", VInt (country_code parsed_number))])
       (fun e =>
          logger_error ("Basic info extraction error: " ++ e_str e) ;;
          ret [])).

Definition _query_numverify_api (env : Env) (parsed_number : PhoneNumber)
    : M (option pydict) :=
  method "_query_numverify_api"
    (try_except
       (if negb (str_truthy (NUMVERIFY_API_KEY (config env))) then ret None
        else
          phone_str <- library_call "format_number"
                         (format_number env parsed_number E164) ;;
          let url := "http://apilayer.net/api/validate" in
          let params : pydict :=
            [("access_key", VStr (NUMVERIFY_API_KEY (config env)));
             ("number", VStr phone_str);
             ("country_code", VStr "");
             ("format", VInt 1)] in
          emit (EvHttp url) ;;
          response <- lift (requests_get env url params) ;;
          if fst response =? 200 then
            data <- lift (snd response) ;;
            valid <- lift (py_get data "valid" VNone) ;;
            if truthy valid then
              carrier <- lift (py_get data "carrier" (VStr "Unknown")) ;;
              line_type <- lift (py_get data "line_type" (VStr "Unknown")) ;;
              location <- lift (py_get data "location" (VStr "Unknown")) ;;
              ret (Some [("carrier", carrier); ("line_type", line_type);
                         ("location", location)])
            else ret None
          else ret None)
       (fun e =>
          logger_error ("Numverify API error: " ++ e_str e) ;;
          ret None)).

Definition _get_carrier_info (env : Env) (parsed_number : PhoneNumber) : M pydict :=
  method "_get_carrier_info"
    (try_except
       (carrier_name <- library_call "name_for_number"
                          (name_for_number env parsed_number "en") ;;
        number_type <- library_call "number_type" (number_type env parsed_number) ;;
        type <- _get_line_type_description number_type ;;
        country <- library_call "description_for_number"
                     (description_for_number env parsed_number "en") ;;
        let carrier_info : pydict :=
          [("name", VStr (or_unknown carrier_name));
           ("type", VStr type);
           ("country", VStr country);
           ("mobile_country_code", VStr (py_str_int (country_code parsed_number)));
           ("mobile_network_code", VStr "Unknown")] in
        if str_truthy (NUMVERIFY_API_KEY (config env)) then
          numverify_data <- _query_numverify_api env parsed_number ;;
          match numverify_data with
          | Some data =>
              ret (if dict_truthy data then dict_update carrier_info data
                   else carrier_info)
          | None => ret carrier_info
          end
        else ret carrier_info)
       (fun e =>
          logger_error ("Carrier info error: " ++ e_str e) ;;
          ret [])).

(** ** Security analysis *)

Definition _query_twilio_lookup (env : Env) (parsed_number : PhoneNumber)
    : M (option pydict) :=
  method "_query_twilio_lookup"
    (try_except
       (if negb (str_truthy (TWILIO_ACCOUNT_SID (config env))
                 && str_truthy (TWILIO_AUTH_TOKEN (config env)))
        then ret None
        else ret (Some [("reputation_score", VInt 60); ("spam_risk", VBool false)]))
       (fun e =>
          logger_error ("Twilio lookup error: " ++ e_str e) ;;
          ret None)).

Definition _check_spam_databases (phone_input : string) : M bool :=
  stub "_check_spam_databases" false.

Definition _perform_security_analysis (env : Env) (parsed_number : PhoneNumber)
    (phone_input : string) : M pydict :=
  method "_perform_security_analysis"
    (try_except
       (let analysis : pydict :=
          [("is_spam_risk", VBool false); ("is_voip", VBool false);
           ("reputation_score", VInt 50); ("risk_indicators", VList [])] in
        number_type <- library_call "number_type" (number_type env parsed_number) ;;
        analysis <-
          match number_type with
          | VOIP =>
              lift (append_in (dict_set "is_voip" (VBool true) analysis)
                      "risk_indicators" (VStr "VoIP number"))
          | _ => ret analysis
          end ;;
        analysis <-
          (if str_truthy (TWILIO_ACCOUNT_SID (config env))
              && str_truthy (TWILIO_AUTH_TOKEN (config env))
           then
             twilio_data <- _query_twilio_lookup env parsed_number ;;
             match twilio_data with
             | Some data =>
                 ret (if dict_truthy data then dict_update analysis data
                      else analysis)
             | None => ret analysis
             end
           else ret analysis) ;;
        spam_check <- _check_spam_databases phone_input ;;
        if spam_check : bool then
          let analysis := dict_set "is_spam_risk" (VBool true) analysis in
          analysis <- lift (append_in analysis "risk_indicators"
                              (VStr "Found in spam database")) ;;
          lift (update_in analysis "reputation_score"
                  (fun v => lowered <- py_sub_int v 30 ;; py_max_int 0 lowered))
        else ret analysis)
       (fun e =>
          logger_error ("Security analysis error: " ++ e_str e) ;;
          ret [])).

(** ** Technical details *)

Definition _extract_technical_details (env : Env) (parsed_number : PhoneNumber)
    : M pydict :=
  method "_extract_technical_details"
    (try_except
       (international <- library_call "format_number"
                           (format_number env parsed_number INTERNATIONAL) ;;
        national <- library_call "format_number"
                      (format_number env parsed_number NATIONAL) ;;
        e164 <- library_call "format_number" (format_number env parsed_number E164) ;;
        number_type <- library_call "number_type" (number_type env parsed_number) ;;
        description <- _get_line_type_description number_type ;;
        ret [("international_format", VStr international);
             ("national_format", VStr national);
             ("e164_format", VStr e164);
             ("country_code", VInt (country_code parsed_number));
             ("national_number", VInt (national_number parsed_number));
             ("number_type", VStr description)])
       (fun e =>
          logger_error ("Technical details error: " ++ e_str e) ;;
          ret [])).

(** ** Network intelligence *)

Definition _detect_network_technology (env : Env) (parsed_number : PhoneNumber)
    : M string :=
  method "_detect_network_technology"
    (try_except
       (number_type <- library_call "number_type" (number_type env parsed_number) ;;
        ret (match number_type with
             | MOBILE => "4G/5G (estimated)"
             | VOIP => "Internet/VoIP"
             | _ => "Unknown"
             end))
       (fun _ => ret "Unknown")).

Definition _get_roaming_partners (carrier_name : string) : M (list string) :=
  stub "_get_roaming_partners" ["International roaming available"].

Definition _get_network_coverage (carrier_name country : string) : M string :=
  stub "_get_network_coverage" ("Coverage in " ++ country).

Definition _get_carrier_network_info (env : Env) (parsed_number : PhoneNumber)
    : M pydict :=
  method "_get_carrier_network_info"
    (try_except
       (carrier_name <- library_call "name_for_number"
                          (name_for_number env parsed_number "en") ;;
        country <- library_call "description_for_number"
                     (description_for_number env parsed_number "en") ;;
        number_type <- library_call "number_type" (number_type env parsed_number) ;;
        network_type <- _get_line_type_description number_type ;;
        network_technology <- _detect_network_technology env parsed_number ;;
        roaming_partners <- _get_roaming_partners carrier_name ;;
        network_coverage <- _get_network_coverage carrier_name country ;;
        ret [("carrier_name", VStr (or_unknown carrier_name));
             ("network_type", VStr network_type);
             ("country", VStr (or_unknown country));
             ("mcc", VStr (py_str_int (country_code parsed_number)));
             ("mnc", VStr "Unknown");
             ("network_technology", VStr network_technology);
             ("roaming_partners", VStrs roaming_partners);
             ("network_coverage", VStr network_coverage)])
       (fun e =>
          logger_error ("Carrier network info error: " ++ e_str e) ;;
          ret [])).

Definition _get_country_mobile_ranges (country : string) : M (list string) :=
  method "_get_country_mobile_ranges"
    (ret (if String.eqb country "United States" then ["10.0.0.0/8"; "172.16.0.0/12"]
          else if String.eqb country "United Kingdom" then ["192.168.0.0/16"]
          else if String.eqb country "Canada" then ["10.0.0.0/8"]
          else [])).

Definition carrier_ip_map : list (string * list string) :=
  [("Verizon", ["74.192.0.0/10"; "108.160.0.0/11"]);
   ("AT&T", ["12.0.0.0/8"; "135.0.0.0/8"]);
   ("T-Mobile", ["208.54.0.0/16"; "66.94.0.0/16"]);
   ("Sprint", ["72.52.0.0/15"; "173.199.0.0/16"])].

Fixpoint assoc_lookup {A} (k : string) (l : list (string * A)) : option A :=
  match l with
  | [] => None
  | (k', v) :: rest => if String.eqb k k' then Some v else assoc_lookup k rest
  end.

Definition _get_carrier_ip_ranges (env : Env) (parsed_number : PhoneNumber)
    : M (list string) :=
  method "_get_carrier_ip_ranges"
    (try_except
       (carrier_name <- library_call "name_for_number"
                          (name_for_number env parsed_number "en") ;;
        country <- library_call "description_for_number"
                     (description_for_number env parsed_number "en") ;;
        match assoc_lookup carrier_name carrier_ip_map with
        | Some ranges => ret ranges
        | None =>
            country_ranges <- _get_country_mobile_ranges country ;;
            ret (match country_ranges with
                 | _ :: _ => country_ranges
                 | [] => []
                 end)
        end)
       (fun e =>
          logger_error ("Carrier IP ranges error: " ++ e_str e) ;;
          ret [])).

Definition _get_carrier_security_rating (carrier_name : string) : M pydict :=
  stub "_get_carrier_security_rating"
    [("encryption_support", VStr "Standard");
     ("security_features", VStrs ["Network encryption"; "Authentication"]);
     ("security_score", VInt 60)].

Definition _check_known_security_issues (parsed_number : PhoneNumber)
    : M (list string) :=
  stub "_check_known_security_issues" [].

(** [recv.extend(items)] *)
Definition py_extend (items : list PyVal) (recv : PyVal) : Result PyVal :=
  match recv with
  | VList l => Ok (VList (l ++ items))
  | _ => Raise (Exn AttributeError "object has no attribute 'extend'")
  end.

Definition _assess_network_security (env : Env) (parsed_number : PhoneNumber)
    : M pydict :=
  method "_assess_network_security"
    (try_except
       (let security_assessment : pydict :=
          [("encryption_support", VStr "Unknown");
           ("network_security_level", VStr "Standard");
           ("vulnerability_indicators", VList []);
           ("security_score", VInt 50);
           ("security_features", VList [])] in
        number_type <- library_call "number_type" (number_type env parsed_number) ;;
        carrier_name <- library_call "name_for_number"
                          (name_for_number env parsed_number "en") ;;
        security_assessment <-
          match number_type with
          | VOIP =>
              sa <- lift (append_in security_assessment "vulnerability_indicators"
                            (VStr "VoIP - potential for spoofing")) ;;
              lift (update_in sa "security_score" (fun v => py_sub_int v 10))
          | MOBILE =>
              sa <- lift (append_in security_assessment "security_features"
                            (VStr "Mobile network encryption")) ;;
              lift (update_in sa "security_score" (fun v => py_add_int v 10))
          | _ => ret security_assessment
          end ;;
        security_assessment <-
          (if str_truthy carrier_name then
             carrier_security <- _get_carrier_security_rating carrier_name ;;
             ret (dict_update security_assessment carrier_security)
           else ret security_assessment) ;;
        security_issues <- _check_known_security_issues parsed_number ;;
        security_assessment <-
          match security_issues with
          | _ :: _ =>
              sa <- lift (update_in security_assessment "vulnerability_indicators"
                            (py_extend (map VStr security_issues))) ;;
              lift (update_in sa "security_score"
                      (fun v => py_sub_int v (Z.of_nat (List.length security_issues) * 5)))
          | [] => ret security_assessment
          end ;;
        lift (update_in security_assessment "security_score"
                (fun v => capped <- py_min_int 100 v ;; py_max_int 0 capped)))
       (fun e =>
          logger_error ("Network security assessment error: " ++ e_str e) ;;
          ret [])).

Definition _get_network_intelligence (env : Env) (src : PresenceSources)
    (parsed_number : PhoneNumber) (phone_input : string) : M pydict :=
  method "_get_network_intelligence"
    (try_except
       (let network_data : pydict :=
          [("carrier_network_info", VDict []);
           ("potential_ip_ranges", VList []);
           ("network_status", VStr "Offline");
           ("online_indicators", VList []);
           ("network_security", VDict []);
           ("real_time_ip", VNone);
           ("connection_status", VStr "Unknown");
           ("last_seen", VNone)] in
        carrier_network <- _get_carrier_network_info env parsed_number ;;
        let network_data :=
          if dict_truthy carrier_network
          then dict_set "carrier_network_info" (VDict carrier_network) network_data
          else network_data in
        ip_ranges <- _get_carrier_ip_ranges env parsed_number ;;
        let network_data :=
          match ip_ranges with
          | _ :: _ => dict_set "potential_ip_ranges" (VStrs ip_ranges) network_data
          | [] => network_data
          end in
        online_status <- _detect_online_status env src phone_input parsed_number ;;
        let network_data :=
          if dict_truthy online_status
          then dict_update network_data online_status else network_data in
        network_security <- _assess_network_security env parsed_number ;;
        let network_data :=
          if dict_truthy network_security
          then dict_set "network_security" (VDict network_security) network_data
          else network_data in
        ret network_data)
       (fun e =>
          logger_error ("Network intelligence error: " ++ e_str e) ;;
          ret [])).

(** ** OSINT enrichment *)

Definition _check_hibp_breaches (env : Env) (phone_input : string) : M (list PyVal) :=
  method "_check_hibp_breaches"
    (try_except
       (if negb (str_truthy (HIBP_API_KEY (config env))) then ret []
        else ret [])
       (fun e =>
          logger_error ("HIBP check error: " ++ e_str e) ;;
          ret [])).

Definition _check_social_media_presence (phone_input : string) : M pydict :=
  method "_check_social_media_presence"
    (try_except (ret [])
       (fun e =>
          logger_error ("Social media check error: " ++ e_str e) ;;
          ret [])).

Definition _search_engines_lookup (phone_input : string) : M pydict :=
  stub "_search_engines_lookup"
    [("google_results", VInt 0); ("bing_results", VInt 0);
     ("duckduckgo_results", VInt 0)].

Definition _check_public_records (phone_input : string) : M pydict :=
  stub "_check_public_records" [("found", VBool false); ("records", VList [])].

Definition _check_business_listings (phone_input : string) : M pydict :=
  stub "_check_business_listings" [("found", VBool false); ("listings", VList [])].

Definition _check_online_directories (phone_input : string) : M pydict :=
  stub "_check_online_directories" [("found", VBool false); ("directories", VList [])].

Definition _check_data_brokers (phone_input : string) : M pydict :=
  stub "_check_data_brokers" [("found", VBool false); ("brokers", VList [])].

Definition _reverse_phone_lookup (phone_input : string) : M pydict :=
  stub "_reverse_phone_lookup" [("found", VBool false); ("results", VList [])].

Definition _get_digital_footprint (phone_input : string) : M pydict :=
  method "_get_digital_footprint"
    (try_except
       (search_engines <- _search_engines_lookup phone_input ;;
        public_records <- _check_public_records phone_input ;;
        business_listings <- _check_business_listings phone_input ;;
        online_directories <- _check_online_directories phone_input ;;
        data_brokers <- _check_data_brokers phone_input ;;
        reverse_lookup <- _reverse_phone_lookup phone_input ;;
        ret [("search_engines", VDict search_engines);
             ("public_records", VDict public_records);
             ("business_listings", VDict business_listings);
             ("online_directories", VDict online_directories);
             ("data_brokers", VDict data_brokers);
             ("reverse_lookup_results", VDict reverse_lookup)])
       (fun e =>
          logger_error ("Digital footprint error: " ++ e_str e) ;;
          ret [])).

Definition _find_emails_from_breaches (phone_input : string) : M (list string) :=
  stub "_find_emails_from_breaches" [].
Definition _find_emails_from_social_media (phone_input : string) : M (list string) :=
  stub "_find_emails_from_social_media" [].
Definition _find_emails_from_public_records (phone_input : string) : M (list string) :=
  stub "_find_emails_from_public_records" [].
Definition _find_emails_from_business_listings (phone_input : string) : M (list string) :=
  stub "_find_emails_from_business_listings" [].

Definition _calculate_email_confidence (email phone_input : string) : M Z :=
  stub "_calculate_email_confidence" 50.
Definition _calculate_website_confidence (website phone_input : string) : M Z :=
  stub "_calculate_website_confidence" 50.
Definition _calculate_social_confidence (platform : string) (results : pydict)
    (phone_input : string) : M Z :=
  stub "_calculate_social_confidence" 50.
Definition _identify_email_sources (email phone_input : string) : M (list string) :=
  stub "_identify_email_sources" ["Public records"].
Definition _verify_email_phone_association (email phone_input : string) : M string :=
  stub "_verify_email_phone_association" "Unverified".

(** The [for email in unique_emails] loop. *)
Fixpoint email_loop (phone_input : string) (emails : list string)
    (associated_emails : pydict) : M pydict :=
  match emails with
  | [] => ret associated_emails
  | email :: rest =>
      ae <- lift (append_in associated_emails "found_emails" (VStr email)) ;;
      confidence <- _calculate_email_confidence email phone_input ;;
      ae <- lift (setitem_in ae "confidence_scores" email (VInt confidence)) ;;
      sources <- _identify_email_sources email phone_input ;;
      ae <- lift (setitem_in ae "sources" email (VStrs sources)) ;;
      status <- _verify_email_phone_association email phone_input ;;
      ae <- lift (setitem_in ae "verification_status" email (VStr status)) ;;
      email_loop phone_input rest ae
  end.

(** [list(set(all_emails))] keeps one copy of each address; Python fixes no
    order for it, the model keeps the order of [nodup]. *)
Definition _find_associated_emails (phone_input : string) : M pydict :=
  method "_find_associated_emails"
    (try_except
       (let associated_emails : pydict :=
          [("found_emails", VList []); ("confidence_scores", VDict []);
           ("sources", VDict []); ("verification_status", VDict [])] in
        emails_from_breaches <- _find_emails_from_breaches phone_input ;;
        emails_from_social <- _find_emails_from_social_media phone_input ;;
        emails_from_public_records <- _find_emails_from_public_records phone_input ;;
        emails_from_business <- _find_emails_from_business_listings phone_input ;;
        let all_emails :=
          (emails_from_breaches ++ emails_from_social
           ++ emails_from_public_records ++ emails_from_business)%list in
        let unique_emails := nodup string_dec all_emails in
        email_loop phone_input unique_emails associated_emails)
       (fun e =>
          logger_error ("Email association error: " ++ e_str e) ;;
          ret [])).

Definition _search_business_websites (phone_input : string) : M (list string) :=
  stub "_search_business_websites" [].
Definition _search_professional_networks (phone_input : string) : M (list string) :=
  stub "_search_professional_networks" [].
Definition _search_ecommerce_platforms (phone_input : string) : M (list string) :=
  stub "_search_ecommerce_platforms" [].
Definition _search_personal_websites (phone_input : string) : M (list string) :=
  stub "_search_personal_websites" [].

(** The [for website in all_websites] loop. *)
Fixpoint website_loop (phone_input : string) (websites : list string)
    (associated_websites : pydict) : M pydict :=
  match websites with
  | [] => ret associated_websites
  | website :: rest =>
      confidence <- _calculate_website_confidence website phone_input ;;
      aw <- lift (setitem_in associated_websites "confidence_scores"
                    website (VInt confidence)) ;;
      website_loop phone_input rest aw
  end.

Definition _find_associated_websites (phone_input : string) : M pydict :=
  method "_find_associated_websites"
    (try_except
       (let associated_websites : pydict :=
          [("business_websites", VList []); ("personal_websites", VList []);
           ("social_profiles", VList []); ("e_commerce_profiles", VList []);
           ("professional_profiles", VList []); ("confidence_scores", VDict [])] in
        business_sites <- _search_business_websites phone_input ;;
        aw <- lift (update_in associated_websites "business_websites"
                      (py_extend (map VStr business_sites))) ;;
        professional_sites <- _search_professional_networks phone_input ;;
        aw <- lift (update_in aw "professional_profiles"
                      (py_extend (map VStr professional_sites))) ;;
        ecommerce_profiles <- _search_ecommerce_platforms phone_input ;;
        aw <- lift (update_in aw "e_commerce_profiles"
                      (py_extend (map VStr ecommerce_profiles))) ;;
        personal_sites <- _search_personal_websites phone_input ;;
        aw <- lift (update_in aw "personal_websites"
                      (py_extend (map VStr personal_sites))) ;;
        let all_websites :=
          (business_sites ++ professional_sites
           ++ ecommerce_profiles ++ personal_sites)%list in
        website_loop phone_input all_websites aw)
       (fun e =>
          logger_error ("Website association error: " ++ e_str e) ;;
          ret [])).

(** The twelve [_search_<platform>] placeholders differ in the name of
    the method and in the ['method'] entry only. *)
Definition social_search (name how : string) (phone_input : string) : M pydict :=
  stub name [("found", VBool false); ("profiles", VList []); ("method", VStr how)].

Definition _search_facebook := social_search "_search_facebook" "Public search".
Definition _search_twitter := social_search "_search_twitter" "API search".
Definition _search_instagram := social_search "_search_instagram" "Public search".
Definition _search_linkedin := social_search "_search_linkedin" "Public search".
Definition _search_tiktok := social_search "_search_tiktok" "Public search".
Definition _search_snapchat := social_search "_search_snapchat" "Public search".
Definition _search_telegram := social_search "_search_telegram" "Public search".
Definition _search_whatsapp_business :=
  social_search "_search_whatsapp_business" "Business directory".
Definition _search_youtube := social_search "_search_youtube" "Public search".
Definition _search_pinterest := social_search "_search_pinterest" "Public search".
Definition _search_reddit := social_search "_search_reddit" "Public search".
Definition _search_discord := social_search "_search_discord" "Public search".

(** The loop over [social_accounts.items()] keeping the found ones. *)
Fixpoint social_accounts_loop (env : Env) (phone_input : string)
    (items : list (string * pydict)) (filtered_accounts : pydict) : M pydict :=
  match items with
  | [] => ret filtered_accounts
  | (platform, results) :: rest =>
      filtered_accounts <-
        (if dict_truthy results && truthy (dict_get results "found" VNone) then
           confidence <- _calculate_social_confidence platform results phone_input ;;
           now <- datetime_now env ;;
           let entry :=
             dict_of (results
                      ++ [("confidence", VInt confidence);
                          ("last_updated", VStr now);
                          ("verification_method",
                           dict_get results "method" (VStr "Public search"))])%list in
           ret (dict_set platform (VDict entry) filtered_accounts)
         else ret filtered_accounts) ;;
      social_accounts_loop env phone_input rest filtered_accounts
  end.

Definition _find_social_media_accounts (env : Env) (phone_input : string) : M pydict :=
  method "_find_social_media_accounts"
    (try_except
       (facebook <- _search_facebook phone_input ;;
        twitter <- _search_twitter phone_input ;;
        instagram <- _search_instagram phone_input ;;
        linkedin <- _search_linkedin phone_input ;;
        tiktok <- _search_tiktok phone_input ;;
        snapchat <- _search_snapchat phone_input ;;
        telegram <- _search_telegram phone_input ;;
        whatsapp <- _search_whatsapp_business phone_input ;;
        youtube <- _search_youtube phone_input ;;
        pinterest <- _search_pinterest phone_input ;;
        reddit <- _search_reddit phone_input ;;
        discord <- _search_discord phone_input ;;
        let social_accounts :=
          [("facebook", facebook); ("twitter", twitter); ("instagram", instagram);
           ("linkedin", linkedin); ("tiktok", tiktok); ("snapchat", snapchat);
           ("telegram", telegram); ("whatsapp", whatsapp); ("youtube", youtube);
           ("pinterest", pinterest); ("reddit", reddit); ("discord", discord)] in
        social_accounts_loop env phone_input social_accounts [])
       (fun e =>
          logger_error ("Social media search error: " ++ e_str e) ;;
          ret [])).

Definition _perform_osint_enrichment (env : Env) (src : PresenceSources)
    (parsed_number : PhoneNumber) (phone_input : string) : M pydict :=
  method "_perform_osint_enrichment"
    (try_except
       (network_intelligence <-
          _get_network_intelligence env src parsed_number phone_input ;;
        digital_footprint <- _get_digital_footprint phone_input ;;
        associated_emails <- _find_associated_emails phone_input ;;
        websites <- _find_associated_websites phone_input ;;
        social_accounts <- _find_social_media_accounts env phone_input ;;
        let osint_data : pydict :=
          [("breach_data", VList []);
           ("social_media_presence", VDict []);
           ("additional_intel", VDict []);
           ("network_intelligence", VDict network_intelligence);
           ("digital_footprint", VDict digital_footprint);
           ("associated_emails", VDict associated_emails);
           ("websites", VDict websites);
           ("social_accounts", VDict social_accounts)] in
        osint_data <-
          (if str_truthy (HIBP_API_KEY (config env)) then
             breach_data <- _check_hibp_breaches env phone_input ;;
             ret (match breach_data with
                  | _ :: _ => dict_set "breach_data" (VList breach_data) osint_data
                  | [] => osint_data
                  end)
           else ret osint_data) ;;
        social_data <- _check_social_media_presence phone_input ;;
        ret (if dict_truthy social_data
             then dict_set "social_media_presence" (VDict social_data) osint_data
             else osint_data))
       (fun e =>
          logger_error ("OSINT enrichment error: " ++ e_str e) ;;
          ret [])).

(** ** The entry point: [analyze_phone_number] *)

Definition analyze_phone_number (env : Env) (src : PresenceSources)
    (phone_input : string) : M pydict :=
  method "analyze_phone_number"
    (try_except
       (parsed_number <- _parse_phone_number env phone_input ;;
        match parsed_number with
        | None => ret [("error", VStr "Invalid phone number format")]
        | Some parsed_number =>
            basic_info <- _extract_basic_info env parsed_number ;;
            carrier_info <- _get_carrier_info env parsed_number ;;
            security_analysis <-
              _perform_security_analysis env parsed_number phone_input ;;
            osint_data <-
              _perform_osint_enrichment env src parsed_number phone_input ;;
            technical_details <- _extract_technical_details env parsed_number ;;
            network_intelligence <-
              _get_network_intelligence env src parsed_number phone_input ;;
            risk_score <-
              _calculate_risk_score (VDict security_analysis) (VDict osint_data) ;;
            now <- datetime_now env ;;
            ret (dict_of
                   ([("timestamp", VStr now);
                     ("input_number", VStr phone_input);
                     ("risk_score", VInt risk_score)]
                    ++ basic_info
                    ++ [("carrier_info", VDict carrier_info);
                        ("security_analysis", VDict security_analysis);
                        ("osint_data", VDict osint_data);
                        ("technical_details", VDict technical_details);
                        ("network_intelligence", VDict network_intelligence)])%list)
        end)
       (fun e =>
          logger_error ("Analysis error: " ++ e_str e) ;;
          ret [("error", VStr ("Analysis failed: " ++ e_str e))])).

(** ** A sample environment

    A library that accepts exactly one number, under every region hint,
    and no credentials.  It stands in for the library in the examples; a
    library for which 555 is no area code rejects this text, see
    [unassigned_code_env] below. *)

Definition no_credentials : Config := mkConfig "" "" "" "".

Definition sample_number : PhoneNumber := mkPhoneNumber 1 5551234567.

Definition sample_parse (text : string) (region : option string) : Result PhoneNumber :=
  if String.eqb text "+1-555-123-4567" then Ok sample_number
  else Raise (Exn LibraryError "The string supplied did not seem to be a phone number.").

Definition sample_format (p : PhoneNumber) (f : PhoneNumberFormat) : Result string :=
  Ok (match f with
      | E164 => "+15551234567"
      | INTERNATIONAL => "+1 555-123-4567"
      | NATIONAL => "(555) 123-4567"
      end).

Definition sample_env : Env :=
  {| parse := sample_parse;
     is_valid_number := fun _ => Ok true;
     number_type := fun _ => Ok FIXED_LINE_OR_MOBILE;
     description_for_number := fun _ _ => Ok "";
     name_for_number := fun _ _ => Ok "";
     time_zones_for_number := fun _ => Ok ["America/New_York"];
     format_number := sample_format;
     requests_get := fun _ _ => Raise (Exn LibraryError "connection refused");
     isoformat := fun _ => "2024-01-01T00:00:00";
     config := no_credentials |}.

Definition empty_world : World := mkWorld [] 0 0.

Unset Implicit Arguments.

(** * Vocabulary of the statements *)

(** The world in which the body of a method starts. *)
Definition enter (name : string) (w : World) : World :=
  mkWorld (EvCall name :: w_trace w) (w_ticks w) (w_rng w).

(** A computation that returns normally in every world. *)
Definition total {A} (m : M A) : Prop :=
  forall w, exists a w', m w = (Ok a, w').

(** The record [_perform_security_analysis] starts from and the OSINT
    record without breaches. *)
Definition default_analysis : pydict :=
  [("is_spam_risk", VBool false); ("is_voip", VBool false);
   ("reputation_score", VInt 50); ("risk_indicators", VList [])].

Definition no_breaches : pydict := [("breach_data", VList [])].

(** The labels [_determine_overall_status] can return. *)
Definition presence_labels : list string :=
  ["Online"; "Recently Online"; "Online via messaging"; "Offline"; "Unknown"].

(** An entry of [messaging_apps] the loop can read: a dict, or a falsy value. *)
Definition is_app_record (v : PyVal) : bool :=
  match v with
  | VDict _ => true
  | _ => negb (truthy v)
  end.

(** The entry is a non-empty dict whose ['online'] is truthy. *)
Definition app_online (v : PyVal) : bool :=
  match v with
  | VDict f => truthy v && truthy (dict_get f "online" VNone)
  | _ => false
  end.

(** A probe that raises in whatever world it is called. *)
Definition always_raises {A} (m : M A) : Prop :=
  forall w, exists e w', m w = (Raise e, w').

(** One of the six probes raises whenever it is called. *)
Definition some_source_fails (src : PresenceSources) (phone : string)
    (p : PhoneNumber) : Prop :=
  always_raises (src_messaging src phone)
  \/ always_raises (src_social src phone)
  \/ always_raises (src_carrier src p)
  \/ always_raises (src_voip src phone)
  \/ always_raises (src_business src phone)
  \/ always_raises (src_probe src p).

(** A probe that always raises, for the examples. *)
Definition failing_probe {A} (msg : string) : M A :=
  fun w => (Raise (Exn LibraryError msg), w).

(** The probes of the class, the VoIP one replaced by a failing one. *)
Definition sources_with_failing_voip (env : Env) : PresenceSources :=
  {| src_messaging := _check_messaging_app_status;
     src_social := _check_recent_social_activity;
     src_carrier := _check_carrier_network_status env;
     src_voip := fun _ => failing_probe "voip lookup timed out";
     src_business := _check_business_activity;
     src_probe := _perform_network_probe |}.

(** What one region hint yields: the parsed number when [parse] returns
    and [is_valid_number] says yes, nothing otherwise. *)
Definition accepted (env : Env) (text : string) (region : option string)
    : option PhoneNumber :=
  match parse env text region with
  | Ok parsed =>
      match is_valid_number env parsed with
      | Ok true => Some parsed
      | _ => None
      end
  | Raise _ => None
  end.

(** The first number in the order of the hints. *)
Fixpoint first_accepted (env : Env) (text : string)
    (regions : list (option string)) : option PhoneNumber :=
  match regions with
  | [] => None
  | region :: rest =>
      match accepted env text region with
      | Some parsed => Some parsed
      | None => first_accepted env text rest
      end
  end.

(** [t'] is [t] with newer events in front, all of them satisfying [P]. *)
Inductive trace_extends (P : Event -> Prop) (t : list Event) : list Event -> Prop :=
| te_same : trace_extends P t t
| te_more : forall ev t', P ev -> trace_extends P t t' -> trace_extends P t (ev :: t').

(** From [w] to [w'] only events satisfying [P] happened; clock and random
    state were not touched. *)
Definition only_events (P : Event -> Prop) (w w' : World) : Prop :=
  trace_extends P (w_trace w) (w_trace w')
  /\ w_ticks w' = w_ticks w /\ w_rng w' = w_rng w.

(** The events of parsing: entering the two methods and the two library
    functions. *)
Definition parse_event (ev : Event) : Prop :=
  In ev [EvCall "analyze_phone_number"; EvCall "_parse_phone_number";
         EvLib "parse"; EvLib "is_valid_number"].

(** A library for which one text is a number of two regions: a US number
    under the hints US, CA and AU, a British one under GB. *)
Definition two_region_parse (text : string) (region : option string)
    : Result PhoneNumber :=
  if String.eqb text "2079460958" then
    match region with
    | Some "GB" => Ok (mkPhoneNumber 44 2079460958)
    | Some _ => Ok (mkPhoneNumber 1 2079460958)
    | None => Raise (Exn LibraryError "Missing or invalid default region.")
    end
  else Raise (Exn LibraryError "The string supplied did not seem to be a phone number.").

Definition two_region_env : Env :=
  {| parse := two_region_parse;
     is_valid_number := fun _ => Ok true;
     number_type := fun _ => Ok FIXED_LINE_OR_MOBILE;
     description_for_number := fun _ _ => Ok "";
     name_for_number := fun _ _ => Ok "";
     time_zones_for_number := fun _ => Ok [];
     format_number := sample_format;
     requests_get := fun _ _ => Raise (Exn LibraryError "connection refused");
     isoformat := fun _ => "2024-01-01T00:00:00";
     config := no_credentials |}.

(** The entries of a report around those of [basic_info]. *)
Definition report_of (now text : string) (risk_score : Z)
    (basic_info carrier_info security_analysis osint_data technical_details
       network_intelligence : pydict) : pydict :=
  dict_of
    ([("timestamp", VStr now);
      ("input_number", VStr text);
      ("risk_score", VInt risk_score)]
     ++ basic_info
     ++ [("carrier_info", VDict carrier_info);
         ("security_analysis", VDict security_analysis);
         ("osint_data", VDict osint_data);
         ("technical_details", VDict technical_details);
         ("network_intelligence", VDict network_intelligence)])%list.

(** What [_extract_basic_info] returns: the six entries when the four
    library lookups return, the empty dict as soon as one raises. *)
Definition basic_info_of (env : Env) (p : PhoneNumber) : pydict :=
  match description_for_number env p "en", name_for_number env p "en",
        time_zones_for_number env p, number_type env p with
  | Ok country, Ok carrier_name, Ok timezones, Ok t =>
      [("country", VStr (or_unknown country));
       ("region", VStr (or_unknown country));
       ("carrier", VStr (or_unknown carrier_name));
       ("line_type", VStr (type_map t));
       ("timezone", VStr (match timezones with
                          | first :: _ => first
                          | [] => "Unknown"
                          end));
       ("country_code", VInt (country_code p))]
  | _, _, _, _ => []
  end.

(** Do the four lookups of [_extract_basic_info] return? *)
Definition basic_info_available (env : Env) (p : PhoneNumber) : bool :=
  match description_for_number env p "en", name_for_number env p "en",
        time_zones_for_number env p, number_type env p with
  | Ok _, Ok _, Ok _, Ok _ => true
  | _, _, _, _ => false
  end.

(** The keys of a report, in the order of the dict display. *)
Definition head_keys : list string := ["timestamp"; "input_number"; "risk_score"].

Definition basic_keys : list string :=
  ["country"; "region"; "carrier"; "line_type"; "timezone"; "country_code"].

Definition section_keys : list string :=
  ["carrier_info"; "security_analysis"; "osint_data"; "technical_details";
   "network_intelligence"].

(** The library answers, but its geocoder raises. *)
Definition geocoder_down_env : Env :=
  {| parse := sample_parse;
     is_valid_number := fun _ => Ok true;
     number_type := fun _ => Ok FIXED_LINE_OR_MOBILE;
     description_for_number :=
       fun _ _ => Raise (Exn LibraryError "geocoding data unavailable");
     name_for_number := fun _ _ => Ok "";
     time_zones_for_number := fun _ => Ok ["America/New_York"];
     format_number := sample_format;
     requests_get := fun _ _ => Raise (Exn LibraryError "connection refused");
     isoformat := fun _ => "2024-01-01T00:00:00";
     config := no_credentials |}.

(** The library on a number whose area code is not assigned, as 555 in
    ["+1-555-123-4567"]: the text parses under every hint (the leading [+]
    fixes the country), and the number parsed is not a valid one. *)
Definition unassigned_code_env : Env :=
  {| parse := sample_parse;
     is_valid_number := fun _ => Ok false;
     number_type := fun _ => Ok UNKNOWN;
     description_for_number := fun _ _ => Ok "";
     name_for_number := fun _ _ => Ok "";
     time_zones_for_number := fun _ => Ok ["Etc/Unknown"];
     format_number := sample_format;
     requests_get := fun _ _ => Raise (Exn LibraryError "connection refused");
     isoformat := fun _ => "2024-01-01T00:00:00";
     config := no_credentials |}.

(** Keys and entries of the report a run returned. *)
Definition top_level_keys (r : Result pydict) : list string :=
  match r with
  | Ok report => dict_keys report
  | Raise _ => []
  end.

Definition report_lookup (k : string) (r : Result pydict) : option PyVal :=
  match r with
  | Ok report => dict_lookup k report
  | Raise _ => None
  end.

(** No key occurs twice. *)
Fixpoint distinct (keys : list string) : bool :=
  match keys with
  | [] => true
  | k :: rest => negb (existsb (String.eqb k) rest) && distinct rest
  end.

(** [report[outer][inner]] *)
Definition nested_lookup (outer inner : string) (r : Result pydict) : option PyVal :=
  match report_lookup outer r with
  | Some (VDict section) => dict_lookup inner section
  | _ => None
  end.

(** The rule table as the specification words it (base, spam, VoIP line
    type, breach data, reputation adjustment), each applied rule giving a
    factor and its delta, in this order. *)
Definition spec_contributing_factors (sa od : pydict) : list (string * Z) :=
  let reputation := dict_get sa "reputation_score" (VInt 50) in
  ([("base", 20)]
   ++ (if truthy (dict_get sa "is_spam_risk" VNone) then [("spam_risk", 40)] else [])
   ++ (if truthy (dict_get sa "is_voip" VNone) then [("voip", 20)] else [])
   ++ (if truthy (dict_get od "breach_data" VNone) then [("breach_data", 30)] else [])
   ++ match py_lt_int reputation 30, py_gt_int reputation 70 with
      | Ok true, _ => [("reputation", 20)]
      | Ok false, Ok true => [("reputation", -10)]
      | _, _ => []
      end)%list.

(** The score the specification derives from the factors: their sum,
    clamped to the interval from 0 to 100. *)
Definition spec_score (factors : list (string * Z)) : Z :=
  Z.max 0 (Z.min 100 (fold_left Z.add (map snd factors) 0)).

(** Where a Python value could hold a sequence of contributing factors. *)
Definition carried_factors (result : PyVal) : option (list PyVal) :=
  match result with
  | VDict d =>
      match dict_lookup "contributingFactors" d,
            dict_lookup "contributing_factors" d with
      | Some (VList factors), _ => Some factors
      | _, Some (VList factors) => Some factors
      | _, _ => None
      end
  | _ => None
  end.

(** The report a run returned, as a Python value. *)
Definition report_value (r : Result pydict) : PyVal :=
  match r with
  | Ok report => VDict report
  | Raise _ => VNone
  end.

(** ** Vocabulary of the further properties *)

(** A value [v < 30] raises on. *)
Definition non_numeric (v : PyVal) : bool :=
  match v with
  | VBool _ | VInt _ | VFloat _ => false
  | _ => true
  end.

Definition is_dict (v : PyVal) : bool :=
  match v with
  | VDict _ => true
  | _ => false
  end.

(** The score of two dicts, 50 when the body raises. *)
Definition score_of (sa od : pydict) : Z :=
  match risk_score_body (VDict sa) (VDict od) with
  | Ok n => n
  | Raise _ => 50
  end.

Definition is_voip_type (t : PhoneNumberType) : bool :=
  match t with
  | VOIP => true
  | _ => false
  end.

Definition twilio_configured (env : Env) : bool :=
  str_truthy (TWILIO_ACCOUNT_SID (config env))
  && str_truthy (TWILIO_AUTH_TOKEN (config env)).

(** The record [_perform_security_analysis] returns. *)
Definition security_record (env : Env) (p : PhoneNumber) : pydict :=
  match number_type env p with
  | Raise _ => []
  | Ok t =>
      ([("is_spam_risk", VBool false);
        ("is_voip", VBool (is_voip_type t));
        ("reputation_score", VInt (if twilio_configured env then 60 else 50));
        ("risk_indicators",
         VStrs (if is_voip_type t then ["VoIP number"] else []))]
       ++ (if twilio_configured env then [("spam_risk", VBool false)] else []))%list
  end.

(** A library like the sample one, that classifies the number as VoIP. *)
Definition voip_env : Env :=
  {| parse := sample_parse;
     is_valid_number := fun _ => Ok true;
     number_type := fun _ => Ok VOIP;
     description_for_number := fun _ _ => Ok "United States";
     name_for_number := fun _ _ => Ok "Verizon";
     time_zones_for_number := fun _ => Ok ["America/New_York"];
     format_number := sample_format;
     requests_get := fun _ _ => Raise (Exn LibraryError "connection refused");
     isoformat := fun _ => "2024-01-01T00:00:00";
     config := mkConfig "" "AC123" "token" "" |}.

(** The score the pipeline gives a number: 40 for a VoIP classification,
    20 otherwise. *)
Definition pipeline_score (env : Env) (p : PhoneNumber) : Z :=
  match number_type env p with
  | Ok VOIP => 40
  | _ => 20
  end.


Definition carrier_features : list string := ["Network encryption"; "Authentication"].

(** The record [_assess_network_security] returns. *)
Definition network_security_record (env : Env) (p : PhoneNumber) : pydict :=
  match number_type env p, name_for_number env p "en" with
  | Ok t, Ok name =>
      let known := str_truthy name in
      [("encryption_support", VStr (if known then "Standard" else "Unknown"));
       ("network_security_level", VStr "Standard");
       ("vulnerability_indicators",
        VStrs (if is_voip_type t then ["VoIP - potential for spoofing"] else []));
       ("security_score",
        VInt (if known then 60
              else match t with
                   | VOIP => 40
                   | MOBILE => 60
                   | _ => 50
                   end));
       ("security_features",
        VStrs (if known then carrier_features
               else match t with
                    | MOBILE => ["Mobile network encryption"]
                    | _ => []
                    end))]
  | _, _ => []
  end.

Definition numverify_url : string := "http://apilayer.net/api/validate".

Definition numverify_params (env : Env) (phone_str : string) : pydict :=
  [("access_key", VStr (NUMVERIFY_API_KEY (config env)));
   ("number", VStr phone_str);
   ("country_code", VStr "");
   ("format", VInt 1)].

(** What the lookup makes of a JSON object with a truthy ['valid']. *)
Definition numverify_fields (data : pydict) : pydict :=
  [("carrier", dict_get data "carrier" (VStr "Unknown"));
   ("line_type", dict_get data "line_type" (VStr "Unknown"));
   ("location", dict_get data "location" (VStr "Unknown"))].

(** The answer of [_query_numverify_api]. *)
Definition numverify_answer (env : Env) (p : PhoneNumber) : option pydict :=
  if str_truthy (NUMVERIFY_API_KEY (config env)) then
    match format_number env p E164 with
    | Ok phone_str =>
        match requests_get env numverify_url (numverify_params env phone_str) with
        | Ok (status, Ok (VDict data)) =>
            if (status =? 200) && truthy (dict_get data "valid" VNone)
            then Some (numverify_fields data) else None
        | _ => None
        end
    | Raise _ => None
    end
  else None.

(** A library with a Numverify key whose request is answered. *)
Definition numverify_env : Env :=
  {| parse := sample_parse;
     is_valid_number := fun _ => Ok true;
     number_type := fun _ => Ok MOBILE;
     description_for_number := fun _ _ => Ok "";
     name_for_number := fun _ _ => Ok "";
     time_zones_for_number := fun _ => Ok [];
     format_number := sample_format;
     requests_get :=
       fun _ _ => Ok (200, Ok (VDict [("valid", VBool true);
                                     ("carrier", VStr "Example Wireless")]));
     isoformat := fun _ => "2024-01-01T00:00:00";
     config := mkConfig "key" "" "" "" |}.

(** The five entries [_get_carrier_info] builds from the library. *)
Definition carrier_base (p : PhoneNumber) (name country : string)
    (t : PhoneNumberType) : pydict :=
  [("name", VStr (or_unknown name));
   ("type", VStr (type_map t));
   ("country", VStr country);
   ("mobile_country_code", VStr (py_str_int (country_code p)));
   ("mobile_network_code", VStr "Unknown")].

(** The record [_get_carrier_info] returns. *)
Definition carrier_record (env : Env) (p : PhoneNumber) : pydict :=
  match name_for_number env p "en", number_type env p,
        description_for_number env p "en" with
  | Ok name, Ok t, Ok country =>
      match numverify_answer env p with
      | Some fields => dict_update (carrier_base p name country t) fields
      | None => carrier_base p name country t
      end
  | _, _, _ => []
  end.

Definition is_http (ev : Event) : bool :=
  match ev with
  | EvHttp _ => true
  | _ => false
  end.

(** The record [_extract_technical_details] returns. *)
Definition technical_record (env : Env) (p : PhoneNumber) : pydict :=
  match format_number env p INTERNATIONAL, format_number env p NATIONAL,
        format_number env p E164, number_type env p with
  | Ok international, Ok national, Ok e164, Ok t =>
      [("international_format", VStr international);
       ("national_format", VStr national);
       ("e164_format", VStr e164);
       ("country_code", VInt (country_code p));
       ("national_number", VInt (national_number p));
       ("number_type", VStr (type_map t))]
  | _, _, _, _ => []
  end.

(** An entry of a section of a report. *)
Definition section_entry (section key : string) (report : pydict) : option PyVal :=
  match dict_lookup section report with
  | Some (VDict d) => dict_lookup key d
  | _ => None
  end.

(** A probe that returns [a] in whatever world it is called. *)
Definition returns {A} (m : M A) (a : A) : Prop :=
  forall w, exists w', m w = (Ok a, w').

(** Probes that return fixed dicts. *)
Definition constant_sources (messaging social carrier voip business probe : pydict)
    : PresenceSources :=
  {| src_messaging := fun _ => ret messaging;
     src_social := fun _ => ret social;
     src_carrier := fun _ => ret carrier;
     src_voip := fun _ => ret voip;
     src_business := fun _ => ret business;
     src_probe := fun _ => ret probe |}.

(** The dict [_check_messaging_app_status] returns for the apps found online. *)
Definition messaging_result (online_apps : list string) (messaging_status : pydict)
    : pydict :=
  match online_apps with
  | _ :: _ =>
      [("connection_status", VStr "Online via messaging");
       ("online_indicators",
        VStrs (map (fun app => app ++ " active") online_apps));
       ("messaging_apps", VDict messaging_status)]
  | [] => [("messaging_apps", VDict messaging_status)]
  end.

(** The label for a number of indicators. *)
Definition status_for_count (n : nat) : string :=
  match n with
  | O => "Offline"
  | S O => "Recently Online"
  | _ => "Online"
  end.

(** Calls of the library function [fn] in a trace. *)
Definition count_lib (fn : string) (t : list Event) : nat :=
  List.length (filter (fun ev => match ev with
                                 | EvLib f => String.eqb f fn
                                 | _ => false
                                 end) t).

(** The hints tried: up to and including the first accepting one. *)
Fixpoint attempts (env : Env) (text : string) (regions : list (option string)) : nat :=
  match regions with
  | [] => O
  | region :: rest =>
      S (match accepted env text region with
         | Some _ => O
         | None => attempts env text rest
         end)
  end.

(** [results and results.get('found')] *)
Definition found (results : pydict) : bool :=
  dict_truthy results && truthy (dict_get results "found" VNone).

(** * Properties *)

(** ** Running computations *)

Lemma method_run {A} (name : string) (body : M A) (w : World) :
  method name body w = body (enter name w).
Proof. reflexivity. Qed.

Lemma try_lift_run {A} (r : Result A) (handler : exn -> M A) (w : World) :
  try_except (lift r) handler w =
  match r with
  | Ok a => (Ok a, w)
  | Raise e => handler e w
  end.
Proof. unfold try_except, lift. destruct r; reflexivity. Qed.

Lemma try_except_total {A} (body : M A) (handler : exn -> M A) :
  (forall e, total (handler e)) -> total (try_except body handler).
Proof.
  intros Hh w. unfold try_except.
  destruct (body w) as [[a | e] w'].
  - exists a, w'. reflexivity.
  - apply Hh.
Qed.

Lemma method_total {A} (name : string) (body : M A) :
  total body -> total (method name body).
Proof. intros Hb w. rewrite method_run. apply Hb. Qed.

Lemma log_ret_total {A} (msg : string) (a : A) :
  total (logger_error msg ;; ret a).
Proof. intros w. eexists _, _. reflexivity. Qed.

(** ** Risk scoring *)

Lemma risk_score_body_range (sa od : PyVal) (n : Z) :
  risk_score_body sa od = Ok n -> 0 <= n <= 100.
Proof.
  unfold risk_score_body.
  destruct sa as [| | | | | |sa]; cbn; try discriminate.
  destruct od as [| | | | | |od]; cbn; try discriminate.
  destruct (truthy _), (truthy _), (truthy _);
    destruct (py_lt_int _ 30) as [[|] |]; cbn; try discriminate;
    try (intros [= <-]; lia);
    destruct (py_gt_int _ 70) as [[|] |]; cbn; try discriminate;
    intros [= <-]; lia.
Qed.

Lemma risk_score_run (sa od : PyVal) (w : World) :
  value (_calculate_risk_score sa od) w =
  Ok (match risk_score_body sa od with
      | Ok n => n
      | Raise _ => 50
      end).
Proof.
  unfold value, _calculate_risk_score.
  rewrite method_run, try_lift_run.
  destruct (risk_score_body sa od); reflexivity.
Qed.

(** C1. Whatever the two records are, the risk score is an integer
    between 0 and 100; for the empty records, and for the default
    analysis record with an empty breach list, it is 20. *)
Theorem risk_score_in_range :
  forall (security_analysis osint_data : PyVal) (w : World),
    (exists score,
        value (_calculate_risk_score security_analysis osint_data) w = Ok score
        /\ 0 <= score <= 100)
    /\ value (_calculate_risk_score (VDict []) (VDict [])) w = Ok 20
    /\ value (_calculate_risk_score (VDict default_analysis) (VDict no_breaches)) w
       = Ok 20.
Proof.
  intros sa od w. split; [| split; reflexivity].
  rewrite risk_score_run.
  destruct (risk_score_body sa od) as [n | e] eqn:Hbody.
  - exists n. split; [reflexivity |]. eapply risk_score_body_range; eassumption.
  - exists 50. split; [reflexivity | lia].
Qed.

(** C6. Spam risk, a VoIP line, a non-empty breach list and reputation 20
    add up to 130, and the score returned is 100. *)
Theorem risk_score_clamped_at_100 :
  forall (sa od : pydict) (x : PyVal) (rest : list PyVal) (w : World),
    dict_lookup "is_spam_risk" sa = Some (VBool true) ->
    dict_lookup "is_voip" sa = Some (VBool true) ->
    dict_lookup "reputation_score" sa = Some (VInt 20) ->
    dict_lookup "breach_data" od = Some (VList (x :: rest)) ->
    value (_calculate_risk_score (VDict sa) (VDict od)) w = Ok 100
    /\ 20 + 40 + 20 + 30 + 20 = 130.
Proof.
  intros sa od x rest w Hspam Hvoip Hrep Hbreach. split; [| reflexivity].
  rewrite risk_score_run. unfold risk_score_body. cbn.
  rewrite Hspam, Hvoip, Hrep, Hbreach. reflexivity.
Qed.

Lemma risk_score_clamped_at_100_witness :
  value (_calculate_risk_score
           (VDict [("is_spam_risk", VBool true); ("is_voip", VBool true);
                   ("reputation_score", VInt 20);
                   ("risk_indicators", VStrs ["VoIP number"; "Found in spam database"])])
           (VDict [("breach_data", VList [VStr "x"])])) empty_world = Ok 100
  /\ 20 + 40 + 20 + 30 + 20 = 130.
Proof.
  apply (risk_score_clamped_at_100
           [("is_spam_risk", VBool true); ("is_voip", VBool true);
            ("reputation_score", VInt 20);
            ("risk_indicators", VStrs ["VoIP number"; "Found in spam database"])]
           [("breach_data", VList [VStr "x"])] (VStr "x") [] empty_world);
    reflexivity.
Defined.

(** C9. The score does not depend on the world the method runs in (random
    state, clock, trace), and the method leaves the random state and the
    clock as they were: two runs on the same records return the same. *)
Theorem risk_score_deterministic :
  forall (security_analysis osint_data : PyVal) (w1 w2 : World),
    value (_calculate_risk_score security_analysis osint_data) w1
    = value (_calculate_risk_score security_analysis osint_data) w2
    /\ w_rng (after (_calculate_risk_score security_analysis osint_data) w1) = w_rng w1
    /\ w_ticks (after (_calculate_risk_score security_analysis osint_data) w1)
       = w_ticks w1.
Proof.
  intros sa od w1 w2. split.
  - rewrite !risk_score_run. reflexivity.
  - unfold after, _calculate_risk_score.
    rewrite method_run, try_lift_run.
    destruct (risk_score_body sa od); split; reflexivity.
Qed.

(** ** Dictionary lemmas *)

Lemma dict_lookup_set (k k' : string) (v : PyVal) (d : pydict) :
  dict_lookup k (dict_set k' v d) =
  if String.eqb k k' then Some v else dict_lookup k d.
Proof.
  induction d as [| [k0 v0] d IH]; cbn.
  - reflexivity.
  - destruct (String.eqb k' k0) eqn:Hk'; cbn.
    + apply String.eqb_eq in Hk'. subst k0.
      destruct (String.eqb k k'); reflexivity.
    + rewrite IH. destruct (String.eqb k k0) eqn:Hk; [| reflexivity].
      apply String.eqb_eq in Hk. subst k0.
      rewrite String.eqb_sym, Hk'. reflexivity.
Qed.

Lemma py_get_dict (d : pydict) (k : string) (default : PyVal) :
  py_get (VDict d) k default = Ok (dict_get d k default).
Proof. reflexivity. Qed.

(** ** Inverting runs in the method monad *)

Lemma bind_ok_inv {A B} (c : M A) (k : A -> M B) (w w2 : World) (b : B) :
  bind c k w = (Ok b, w2) ->
  exists a w1, c w = (Ok a, w1) /\ k a w1 = (Ok b, w2).
Proof.
  cbn. destruct (c w) as [[a | e] w1]; intros H.
  - exists a, w1. split; [reflexivity | exact H].
  - discriminate H.
Qed.

Lemma bind_run_ok {A B} (c : M A) (k : A -> M B) (w w1 : World) (a : A) :
  c w = (Ok a, w1) -> bind c k w = k a w1.
Proof. cbn. intros ->. reflexivity. Qed.

(** ** The overall-status classifier *)

Lemma any_app_online_records (apps : list PyVal) :
  Forall (fun v => is_app_record v = true) apps ->
  any_app_online apps = Ok (existsb app_online apps).
Proof.
  induction 1 as [| v apps Hv _ IH]; [reflexivity |].
  cbn [any_app_online existsb].
  destruct v as [| b | n | f | s | l | f]; cbn in Hv |- *;
    try (apply negb_true_iff in Hv; cbn in Hv; rewrite ?Hv; exact IH);
    try exact IH.
  destruct f as [| entry f]; [exact IH |].
  cbn. destruct (truthy _); [reflexivity | exact IH].
Qed.

Lemma overall_status_body_labels (status_data : PyVal) (s : string) :
  overall_status_body status_data = Ok s ->
  In s ["Online"; "Recently Online"; "Online via messaging"; "Offline"].
Proof.
  unfold overall_status_body.
  destruct status_data as [| | | | | |d]; cbn; try discriminate.
  destruct (py_len _) as [n |]; cbn; try discriminate.
  destruct (n >=? 2); [intros [= <-]; cbn; tauto |].
  destruct (n =? 1); [intros [= <-]; cbn; tauto |].
  destruct (truthy _); [| intros [= <-]; cbn; tauto].
  destruct (dict_lookup "messaging_apps" d) as [apps |]; cbn; try discriminate.
  destruct (py_values apps) as [values |]; cbn; try discriminate.
  destruct (any_app_online values) as [[|] |]; cbn; try discriminate;
    intros [= <-]; cbn; tauto.
Qed.

Lemma overall_status_run (status_data : PyVal) (w : World) :
  _determine_overall_status status_data w =
  (Ok (match overall_status_body status_data with
       | Ok s => s
       | Raise _ => "Unknown"
       end),
   enter "_determine_overall_status" w).
Proof.
  unfold _determine_overall_status.
  rewrite method_run, try_lift_run.
  destruct (overall_status_body status_data); reflexivity.
Qed.

Lemma overall_status_in_labels (status_data : PyVal) (w : World) :
  exists s, value (_determine_overall_status status_data) w = Ok s
            /\ In s presence_labels /\ s <> "Error".
Proof.
  unfold value. rewrite overall_status_run. cbn [fst].
  destruct (overall_status_body status_data) as [s | e] eqn:Hbody.
  - exists s. split; [reflexivity |].
    apply overall_status_body_labels in Hbody.
    cbn in Hbody |- *.
    destruct Hbody as [<- | [<- | [<- | [<- | []]]]];
      (split; [tauto | discriminate]).
  - exists "Unknown". split; [reflexivity |].
    split; [cbn; tauto | discriminate].
Qed.

(** ** Online-status detection *)

(** What a normal run of the [try] block of [_detect_online_status] tells:
    each probe returned, and the status stored is the classifier's. *)
Lemma detect_body_ok_inv (env : Env) (src : PresenceSources) (phone : string)
    (p : PhoneNumber) (w w' : World) (d : pydict) :
  detect_online_status_body env src phone p w = (Ok d, w') ->
  (exists a w1, src_messaging src phone w = (Ok a, w1))
  /\ (exists w0 a w1, src_social src phone w0 = (Ok a, w1))
  /\ (exists w0 a w1, src_carrier src p w0 = (Ok a, w1))
  /\ (exists w0 a w1, src_voip src phone w0 = (Ok a, w1))
  /\ (exists w0 a w1, src_business src phone w0 = (Ok a, w1))
  /\ (exists w0 a w1, src_probe src p w0 = (Ok a, w1))
  /\ exists s, In s presence_labels /\ s <> "Error"
               /\ dict_lookup "network_status" d = Some (VStr s).
Proof.
  unfold detect_online_status_body. intros H.
  apply bind_ok_inv in H as (m & w1 & Hm & H); cbv beta zeta in H.
  apply bind_ok_inv in H as (so & w2 & Hs & H); cbv beta zeta in H.
  apply bind_ok_inv in H as (os1 & w3 & _ & H); cbv beta zeta in H.
  apply bind_ok_inv in H as (ca & w4 & Hc & H); cbv beta zeta in H.
  apply bind_ok_inv in H as (vo & w5 & Hv & H); cbv beta zeta in H.
  apply bind_ok_inv in H as (os2 & w6 & _ & H); cbv beta zeta in H.
  apply bind_ok_inv in H as (bu & w7 & Hb & H); cbv beta zeta in H.
  apply bind_ok_inv in H as (os3 & w8 & _ & H); cbv beta zeta in H.
  apply bind_ok_inv in H as (pr & w9 & Hp & H); cbv beta zeta in H.
  apply bind_ok_inv in H as (overall & w10 & Ho & H); cbv beta zeta in H.
  apply bind_ok_inv in H as (now & w11 & _ & H); cbv beta zeta in H.
  injection H as <- _.
  repeat (split; [eauto |]).
  exists overall.
  match type of Ho with
  | _determine_overall_status ?sd _ = _ =>
      destruct (overall_status_in_labels sd w9) as (s & Hs' & Hin & Hne);
      unfold value in Hs'; rewrite Ho in Hs'; cbn in Hs'
  end.
  injection Hs' as ->.
  split; [exact Hin |]. split; [exact Hne |].
  rewrite !dict_lookup_set. reflexivity.
Qed.

Lemma detect_online_status_run (env : Env) (src : PresenceSources)
    (phone : string) (p : PhoneNumber) (w : World) :
  value (_detect_online_status env src phone p) w =
  match value (detect_online_status_body env src phone p)
          (enter "_detect_online_status" w) with
  | Ok d => Ok d
  | Raise e => Ok [("network_status", VStr "Error");
                   ("connection_status", VStr "Unknown");
                   ("error", VStr (e_str e))]
  end.
Proof.
  unfold value, _detect_online_status.
  rewrite method_run. unfold try_except.
  destruct (detect_online_status_body env src phone p _) as [[d | e] w'];
    reflexivity.
Qed.

(** C10. The classifier returns in every case, one of the five labels and
    never ['Error']; when its body raises the label is ['Unknown']; and the
    status of [_detect_online_status] is ['Error'] exactly when the [try]
    block around the collection raised. *)
Theorem overall_status_total_never_error :
  forall (status_data : PyVal) (w : World),
    (exists s, value (_determine_overall_status status_data) w = Ok s
               /\ In s presence_labels /\ s <> "Error")
    /\ (forall e, overall_status_body status_data = Raise e ->
                  value (_determine_overall_status status_data) w = Ok "Unknown")
    /\ (forall (env : Env) (src : PresenceSources) (phone : string)
               (p : PhoneNumber),
          exists d, value (_detect_online_status env src phone p) w = Ok d
                    /\ (dict_lookup "network_status" d = Some (VStr "Error")
                        <-> exists e,
                              value (detect_online_status_body env src phone p)
                                (enter "_detect_online_status" w) = Raise e)).
Proof.
  intros status_data w. split; [apply overall_status_in_labels |]. split.
  - intros e He. unfold value. rewrite overall_status_run, He. reflexivity.
  - intros env src phone p. rewrite detect_online_status_run.
    unfold value.
    destruct (detect_online_status_body env src phone p _) as [[d | e] w'] eqn:Hb;
      cbn [fst].
    + exists d. split; [reflexivity |]. split.
      * intros Herr.
        apply detect_body_ok_inv in Hb.
        destruct Hb as (_ & _ & _ & _ & _ & _ & s & _ & Hne & Hs).
        rewrite Hs in Herr. injection Herr as ->. contradiction Hne. reflexivity.
      * intros [e He]. discriminate He.
    + eexists. split; [reflexivity |]. split.
      * intros _. exists e. reflexivity.
      * intros _. reflexivity.
Qed.

Lemma overall_status_total_never_error_witness :
  value (_determine_overall_status VNone) empty_world = Ok "Unknown".
Proof.
  destruct (overall_status_total_never_error VNone empty_world) as (_ & H & _).
  apply (H (Exn AttributeError "object has no attribute 'get'")).
  reflexivity.
Defined.

Lemma always_raises_not_ok {A} (m : M A) (w w' : World) (a : A) :
  always_raises m -> m w = (Ok a, w') -> False.
Proof.
  intros Hr Hok. destruct (Hr w) as (e & w1 & He).
  rewrite He in Hok. discriminate Hok.
Qed.

Lemma source_failure_gives_error (env : Env) (src : PresenceSources)
    (phone : string) (p : PhoneNumber) (w : World) :
  some_source_fails src phone p ->
  exists e,
    value (_detect_online_status env src phone p) w =
    Ok [("network_status", VStr "Error");
        ("connection_status", VStr "Unknown");
        ("error", VStr (e_str e))].
Proof.
  intros Hfail. rewrite detect_online_status_run. unfold value.
  destruct (detect_online_status_body env src phone p _) as [[d | e] w'] eqn:Hb;
    cbn [fst].
  - exfalso. apply detect_body_ok_inv in Hb.
    destruct Hb as ((a1 & w1 & H1) & (v2 & a2 & w2 & H2) & (v3 & a3 & w3 & H3)
                    & (v4 & a4 & w4 & H4) & (v5 & a5 & w5 & H5)
                    & (v6 & a6 & w6 & H6) & _).
    destruct Hfail as [F | [F | [F | [F | [F | F]]]]];
      eapply always_raises_not_ok; eassumption.
  - exists e. reflexivity.
Qed.

Lemma status_of_indicators (d : pydict) (inds : list PyVal) :
  dict_get d "online_indicators" (VList []) = VList inds ->
  overall_status_body (VDict d) =
  if Z.of_nat (List.length inds) >=? 2 then Ok "Online"
  else if Z.of_nat (List.length inds) =? 1 then Ok "Recently Online"
  else
    (apps <- py_get (VDict d) "messaging_apps" VNone ;;
     if truthy apps then
       apps <- py_getitem (VDict d) "messaging_apps" ;;
       values <- py_values apps ;;
       online <- any_app_online values ;;
       if online : bool then ret "Online via messaging" else ret "Offline"
     else ret "Offline").
Proof.
  intros Hinds. unfold overall_status_body.
  rewrite py_get_dict, Hinds. reflexivity.
Qed.

Lemma status_of_apps (d apps : pydict) :
  dict_get d "online_indicators" (VList []) = VList [] ->
  dict_lookup "messaging_apps" d = Some (VDict apps) ->
  Forall (fun v => is_app_record v = true) (dict_values apps) ->
  overall_status_body (VDict d) =
  Ok (if existsb app_online (dict_values apps)
      then "Online via messaging" else "Offline").
Proof.
  intros Hinds Happs Hrec.
  rewrite (status_of_indicators d [] Hinds). cbn.
  unfold dict_get. rewrite Happs. cbn.
  destruct apps as [| entry apps]; [reflexivity |].
  cbn [truthy]. rewrite (any_app_online_records _ Hrec).
  generalize (existsb app_online (dict_values (entry :: apps))).
  intros [|]; reflexivity.
Qed.

(** C2. The classifier follows the priority order: two or more indicators
    give ['Online']; exactly one gives ['Recently Online']; none, with a
    messaging app whose record reports online, gives ['Online via
    messaging']; none and no app online gives ['Offline']; and when a probe
    raises during the collection the status is ['Error'], whatever had been
    collected. *)
Theorem online_status_priority_order :
  (forall (d : pydict) (inds : list PyVal) (w : World),
      dict_get d "online_indicators" (VList []) = VList inds ->
      (2 <= List.length inds)%nat ->
      value (_determine_overall_status (VDict d)) w = Ok "Online")
  /\ (forall (d : pydict) (ind : PyVal) (w : World),
         dict_get d "online_indicators" (VList []) = VList [ind] ->
         value (_determine_overall_status (VDict d)) w = Ok "Recently Online")
  /\ (forall (d apps : pydict) (app : PyVal) (w : World),
         dict_get d "online_indicators" (VList []) = VList [] ->
         dict_lookup "messaging_apps" d = Some (VDict apps) ->
         Forall (fun v => is_app_record v = true) (dict_values apps) ->
         In app (dict_values apps) -> app_online app = true ->
         value (_determine_overall_status (VDict d)) w = Ok "Online via messaging")
  /\ (forall (d : pydict) (w : World),
         dict_get d "online_indicators" (VList []) = VList [] ->
         (truthy (dict_get d "messaging_apps" VNone) = false
          \/ exists apps,
               dict_lookup "messaging_apps" d = Some (VDict apps)
               /\ Forall (fun v => is_app_record v = true) (dict_values apps)
               /\ forall app, In app (dict_values apps) -> app_online app = false) ->
         value (_determine_overall_status (VDict d)) w = Ok "Offline")
  /\ (forall (env : Env) (src : PresenceSources) (phone : string)
             (p : PhoneNumber) (w : World),
         some_source_fails src phone p ->
         exists d,
           value (_detect_online_status env src phone p) w = Ok d
           /\ dict_lookup "network_status" d = Some (VStr "Error")).
Proof.
  repeat split.
  - intros d inds w Hinds Hlen. unfold value.
    rewrite overall_status_run, (status_of_indicators d inds Hinds). cbn [fst].
    replace (Z.of_nat (List.length inds) >=? 2) with true; [reflexivity |].
    symmetry. apply Z.geb_le. lia.
  - intros d ind w Hinds. unfold value.
    rewrite overall_status_run, (status_of_indicators d [ind] Hinds).
    reflexivity.
  - intros d apps app w Hinds Happs Hrec Hin Hon. unfold value.
    rewrite overall_status_run, (status_of_apps d apps Hinds Happs Hrec).
    cbn [fst].
    replace (existsb app_online (dict_values apps)) with true; [reflexivity |].
    symmetry. apply existsb_exists. exists app. split; assumption.
  - intros d w Hinds [Hfalsy | (apps & Happs & Hrec & Hoff)]; unfold value;
      rewrite overall_status_run.
    + rewrite (status_of_indicators d [] Hinds).
      unfold dict_get in Hfalsy. cbn. rewrite Hfalsy. reflexivity.
    + rewrite (status_of_apps d apps Hinds Happs Hrec). cbn [fst].
      replace (existsb app_online (dict_values apps)) with false; [reflexivity |].
      symmetry. apply not_true_is_false. intros Hex.
      apply existsb_exists in Hex. destruct Hex as (app & Hin & Hon).
      rewrite (Hoff app Hin) in Hon. discriminate Hon.
  - intros env src phone p w Hfail.
    destruct (source_failure_gives_error env src phone p w Hfail) as [e He].
    eexists. split; [exact He | reflexivity].
Qed.

Lemma online_status_priority_order_witness :
  value (_determine_overall_status
           (VDict [("online_indicators",
                    VStrs ["whatsapp active"; "VoIP service active"])]))
    empty_world = Ok "Online"
  /\ value (_determine_overall_status
              (VDict [("online_indicators", VStrs ["VoIP service active"])]))
       empty_world = Ok "Recently Online"
  /\ value (_determine_overall_status
              (VDict [("online_indicators", VList []);
                      ("messaging_apps",
                       VDict [("signal", VDict [("online", VBool false)]);
                              ("whatsapp", VDict [("online", VBool true)])])]))
       empty_world = Ok "Online via messaging"
  /\ value (_determine_overall_status (VDict [("online_indicators", VList [])]))
       empty_world = Ok "Offline"
  /\ exists d,
       value (_detect_online_status sample_env
                (sources_with_failing_voip sample_env)
                "+1-555-123-4567" sample_number) empty_world = Ok d
       /\ dict_lookup "network_status" d = Some (VStr "Error").
Proof.
  destruct online_status_priority_order as (H1 & H2 & H3 & H4 & H5).
  split; [| split; [| split; [| split]]].
  - apply (H1 _ [VStr "whatsapp active"; VStr "VoIP service active"]);
      [reflexivity | cbn; lia].
  - apply (H2 _ (VStr "VoIP service active")). reflexivity.
  - apply (H3 _ [("signal", VDict [("online", VBool false)]);
                 ("whatsapp", VDict [("online", VBool true)])]
              (VDict [("online", VBool true)]));
      [reflexivity | reflexivity | repeat constructor | cbn; tauto | reflexivity].
  - apply H4; [reflexivity | left; reflexivity].
  - apply H5. unfold some_source_fails.
    right. right. right. left.
    intros w. eexists _, _. reflexivity.
Defined.

(** ** The normalizer *)

Lemma trace_extends_trans (P : Event -> Prop) (t1 t2 t3 : list Event) :
  trace_extends P t1 t2 -> trace_extends P t2 t3 -> trace_extends P t1 t3.
Proof.
  intros H12 H23. induction H23 as [| ev t' Hev _ IH].
  - exact H12.
  - apply te_more; assumption.
Qed.

Lemma only_events_trans (P : Event -> Prop) (w1 w2 w3 : World) :
  only_events P w1 w2 -> only_events P w2 w3 -> only_events P w1 w3.
Proof.
  intros (Ht & Hc & Hr) (Ht' & Hc' & Hr'). repeat split.
  - eapply trace_extends_trans; eassumption.
  - congruence.
  - congruence.
Qed.

Lemma try_regions_run (env : Env) (text : string) (regions : list (option string)) :
  forall w, exists w',
    try_regions env text regions w = (Ok (first_accepted env text regions), w')
    /\ only_events parse_event w w'.
Proof.
  induction regions as [| region rest IH]; intros w.
  - exists w. split; [reflexivity |]. repeat split. constructor.
  - cbn [try_regions first_accepted]. unfold accepted.
    unfold try_except, library_call.
    destruct (parse env text region) as [parsed | e] eqn:Hparse; cbn;
      rewrite ?Hparse; cbn.
    + destruct (is_valid_number env parsed) as [[|] | e] eqn:Hvalid; cbn;
        rewrite ?Hvalid; cbn.
      * eexists. split; [reflexivity |].
        repeat split; cbn.
        apply te_more; [cbn; tauto |]. apply te_more; [cbn; tauto |].
        constructor.
      * match goal with
        | |- context [try_regions env text rest ?w0] =>
            destruct (IH w0) as (w' & Hrun & Hev)
        end.
        exists w'. split; [exact Hrun |].
        eapply only_events_trans; [| exact Hev].
        repeat split; cbn.
        apply te_more; [cbn; tauto |]. apply te_more; [cbn; tauto |].
        constructor.
      * match goal with
        | |- context [try_regions env text rest ?w0] =>
            destruct (IH w0) as (w' & Hrun & Hev)
        end.
        exists w'. split; [exact Hrun |].
        eapply only_events_trans; [| exact Hev].
        repeat split; cbn.
        apply te_more; [cbn; tauto |]. apply te_more; [cbn; tauto |].
        constructor.
    + match goal with
      | |- context [try_regions env text rest ?w0] =>
          destruct (IH w0) as (w' & Hrun & Hev)
      end.
      exists w'. split; [exact Hrun |].
      eapply only_events_trans; [| exact Hev].
      repeat split; cbn.
      apply te_more; [cbn; tauto |]. constructor.
Qed.

Lemma parse_phone_number_run (env : Env) (text : string) (w : World) :
  exists w',
    _parse_phone_number env text w
    = (Ok (first_accepted env text regions_to_try), w')
    /\ only_events parse_event w w'.
Proof.
  unfold _parse_phone_number. rewrite method_run. unfold try_except.
  destruct (try_regions_run env text regions_to_try (enter "_parse_phone_number" w))
    as (w' & Hrun & Hev).
  rewrite Hrun. exists w'. split; [reflexivity |].
  eapply only_events_trans; [| exact Hev].
  repeat split; cbn. apply te_more; [cbn; tauto | constructor].
Qed.

Lemma first_accepted_some (env : Env) (text : string)
    (regions : list (option string)) (p : PhoneNumber) :
  first_accepted env text regions = Some p <->
  exists before region rest,
    regions = (before ++ region :: rest)%list
    /\ accepted env text region = Some p
    /\ Forall (fun r => accepted env text r = None) before.
Proof.
  induction regions as [| r regions IH]; cbn.
  - split; [discriminate |].
    intros (before & region & rest & Heq & _). destruct before; discriminate Heq.
  - destruct (accepted env text r) as [q |] eqn:Hr.
    + split.
      * intros [= ->]. exists [], r, regions. repeat split; [exact Hr | constructor].
      * intros (before & region & rest & Heq & Hacc & Hnone).
        destruct before as [| b before]; cbn in Heq; injection Heq as -> ->.
        -- congruence.
        -- inversion Hnone; subst. congruence.
    + rewrite IH. split.
      * intros (before & region & rest & -> & Hacc & Hnone).
        exists (r :: before), region, rest.
        repeat split; [exact Hacc | constructor; assumption].
      * intros (before & region & rest & Heq & Hacc & Hnone).
        destruct before as [| b before]; cbn in Heq; injection Heq as -> ->.
        -- congruence.
        -- inversion Hnone; subst. exists before, region, rest. auto.
Qed.

Lemma first_accepted_none (env : Env) (text : string)
    (regions : list (option string)) :
  first_accepted env text regions = None <->
  Forall (fun r => accepted env text r = None) regions.
Proof.
  induction regions as [| r regions IH]; cbn.
  - split; [constructor | reflexivity].
  - destruct (accepted env text r) as [q |] eqn:Hr.
    + split; [discriminate |]. intros H. inversion H; subst. congruence.
    + rewrite IH. split.
      * intros H. constructor; assumption.
      * intros H. inversion H; subst. assumption.
Qed.

(** C4. The hints are tried in the order US, GB, CA, AU, no hint; the
    number returned is the one of the first hint under which the text parses
    and is valid; when no hint passes the result is [None] (reported as
    ['Invalid phone number format']).  So when two hints accept, the
    earlier one decides. *)
Theorem parse_first_accepting_region :
  forall (env : Env) (text : string) (w : World),
    regions_to_try = [Some "US"; Some "GB"; Some "CA"; Some "AU"; None]
    /\ value (_parse_phone_number env text) w
       = Ok (first_accepted env text regions_to_try)
    /\ (forall p,
          value (_parse_phone_number env text) w = Ok (Some p) <->
          exists before region rest,
            regions_to_try = (before ++ region :: rest)%list
            /\ accepted env text region = Some p
            /\ Forall (fun r => accepted env text r = None) before)
    /\ (value (_parse_phone_number env text) w = Ok None <->
        Forall (fun r => accepted env text r = None) regions_to_try).
Proof.
  intros env text w.
  destruct (parse_phone_number_run env text w) as (w' & Hrun & _).
  assert (Hval : value (_parse_phone_number env text) w
                 = Ok (first_accepted env text regions_to_try)).
  { unfold value. rewrite Hrun. reflexivity. }
  split; [reflexivity |]. split; [exact Hval |]. split.
  - intros p. rewrite Hval. rewrite <- first_accepted_some.
    split; [intros [= H]; exact H | intros ->; reflexivity].
  - rewrite Hval. rewrite <- first_accepted_none.
    split; [intros [= H]; exact H | intros ->; reflexivity].
Qed.

Lemma parse_first_accepting_region_witness :
  accepted two_region_env "2079460958" (Some "US") = Some (mkPhoneNumber 1 2079460958)
  /\ accepted two_region_env "2079460958" (Some "GB") = Some (mkPhoneNumber 44 2079460958)
  /\ value (_parse_phone_number two_region_env "2079460958") empty_world
     = Ok (Some (mkPhoneNumber 1 2079460958))
  /\ value (_parse_phone_number two_region_env "not a number") empty_world = Ok None.
Proof.
  split; [reflexivity |]. split; [reflexivity |]. split.
  - destruct (parse_first_accepting_region two_region_env "2079460958" empty_world)
      as (_ & _ & H & _).
    apply H. exists [], (Some "US"), [Some "GB"; Some "CA"; Some "AU"; None].
    split; [reflexivity |]. split; [reflexivity | constructor].
  - destruct (parse_first_accepting_region two_region_env "not a number" empty_world)
      as (_ & _ & _ & H).
    apply H. repeat constructor.
Defined.

(** ** The entry point on invalid input *)

Lemma analyze_invalid_run (env : Env) (src : PresenceSources) (text : string)
    (w : World) :
  first_accepted env text regions_to_try = None ->
  analyze_phone_number env src text w
  = (Ok [("error", VStr "Invalid phone number format")],
     after (_parse_phone_number env text) (enter "analyze_phone_number" w)).
Proof.
  intros Hnone. unfold analyze_phone_number, after.
  rewrite method_run. unfold try_except.
  destruct (parse_phone_number_run env text (enter "analyze_phone_number" w))
    as (w' & Hrun & _).
  rewrite Hnone in Hrun.
  erewrite bind_run_ok by exact Hrun.
  rewrite Hrun. reflexivity.
Qed.

(** C7. When no region hint accepts the text, the entry point returns the
    error ['Invalid phone number format'] and stops there: the world it
    leaves is the one the parser left, so nothing but the entry point, the
    parser and the two library functions of parsing ran, the clock was not
    read, and the presence probes passed in play no part. *)
Theorem invalid_input_short_circuits :
  forall (env : Env) (src : PresenceSources) (text : string) (w : World),
    Forall (fun r => accepted env text r = None) regions_to_try ->
    value (analyze_phone_number env src text) w
    = Ok [("error", VStr "Invalid phone number format")]
    /\ after (analyze_phone_number env src text) w
       = after (_parse_phone_number env text) (enter "analyze_phone_number" w)
    /\ only_events parse_event w (after (analyze_phone_number env src text) w)
    /\ forall src', analyze_phone_number env src' text w
                    = analyze_phone_number env src text w.
Proof.
  intros env src text w Hrej.
  apply first_accepted_none in Hrej.
  pose proof (analyze_invalid_run env src text w Hrej) as Hrun.
  unfold value, after at 1 3. rewrite Hrun. cbn [fst snd].
  split; [reflexivity |]. split; [reflexivity |]. split.
  - unfold after.
    destruct (parse_phone_number_run env text (enter "analyze_phone_number" w))
      as (w' & Hp & Hev).
    rewrite Hp. cbn [snd].
    eapply only_events_trans; [| exact Hev].
    repeat split; cbn. apply te_more; [cbn; tauto | constructor].
  - intros src'. rewrite (analyze_invalid_run env src' text w Hrej).
    reflexivity.
Qed.

Lemma invalid_input_short_circuits_witness :
  value (analyze_phone_number sample_env (class_sources sample_env) "hello")
    empty_world
  = Ok [("error", VStr "Invalid phone number format")].
Proof.
  apply (invalid_input_short_circuits sample_env (class_sources sample_env)
           "hello" empty_world).
  repeat constructor.
Defined.

(** ** The stages of a successful analysis *)

Ltac guarded_method :=
  apply method_total, try_except_total; intro; apply log_ret_total.

Lemma extract_basic_info_total (env : Env) (p : PhoneNumber) :
  total (_extract_basic_info env p).
Proof. unfold _extract_basic_info. guarded_method. Qed.

Lemma get_carrier_info_total (env : Env) (p : PhoneNumber) :
  total (_get_carrier_info env p).
Proof. unfold _get_carrier_info. guarded_method. Qed.

Lemma perform_security_analysis_total (env : Env) (p : PhoneNumber) (text : string) :
  total (_perform_security_analysis env p text).
Proof. unfold _perform_security_analysis. guarded_method. Qed.

Lemma perform_osint_enrichment_total (env : Env) (src : PresenceSources)
    (p : PhoneNumber) (text : string) :
  total (_perform_osint_enrichment env src p text).
Proof. unfold _perform_osint_enrichment. guarded_method. Qed.

Lemma extract_technical_details_total (env : Env) (p : PhoneNumber) :
  total (_extract_technical_details env p).
Proof. unfold _extract_technical_details. guarded_method. Qed.

Lemma get_network_intelligence_total (env : Env) (src : PresenceSources)
    (p : PhoneNumber) (text : string) :
  total (_get_network_intelligence env src p text).
Proof. unfold _get_network_intelligence. guarded_method. Qed.

Lemma risk_score_full_run (sa od : PyVal) (w : World) :
  exists w',
    _calculate_risk_score sa od w
    = (Ok (match risk_score_body sa od with
           | Ok n => n
           | Raise _ => 50
           end), w').
Proof.
  unfold _calculate_risk_score. rewrite method_run, try_lift_run.
  destruct (risk_score_body sa od); eexists; reflexivity.
Qed.

Lemma analyze_success_run (env : Env) (src : PresenceSources) (text : string)
    (w : World) (p : PhoneNumber) :
  first_accepted env text regions_to_try = Some p ->
  exists now basic carrier security osint technical network (w1 w3 w4 w6 : World),
    value (analyze_phone_number env src text) w
    = Ok (report_of now text
            (match risk_score_body (VDict security) (VDict osint) with
             | Ok n => n
             | Raise _ => 50
             end)
            basic carrier security osint technical network)
    /\ value (_extract_basic_info env p) w1 = Ok basic
    /\ value (_perform_security_analysis env p text) w3 = Ok security
    /\ value (_perform_osint_enrichment env src p text) w4 = Ok osint
    /\ value (_get_network_intelligence env src p text) w6 = Ok network.
Proof.
  intros Hsome. unfold analyze_phone_number, value.
  rewrite method_run. unfold try_except.
  destruct (parse_phone_number_run env text (enter "analyze_phone_number" w))
    as (w1 & Hp & _).
  rewrite Hsome in Hp.
  erewrite bind_run_ok by exact Hp. cbv beta iota.
  destruct (extract_basic_info_total env p w1) as (basic & w2 & Hb).
  erewrite bind_run_ok by exact Hb.
  destruct (get_carrier_info_total env p w2) as (carrier & w3 & Hc).
  erewrite bind_run_ok by exact Hc.
  destruct (perform_security_analysis_total env p text w3) as (security & w4 & Hs).
  erewrite bind_run_ok by exact Hs.
  destruct (perform_osint_enrichment_total env src p text w4) as (osint & w5 & Ho).
  erewrite bind_run_ok by exact Ho.
  destruct (extract_technical_details_total env p w5) as (technical & w6 & Ht).
  erewrite bind_run_ok by exact Ht.
  destruct (get_network_intelligence_total env src p text w6) as (network & w7 & Hn).
  erewrite bind_run_ok by exact Hn.
  destruct (risk_score_full_run (VDict security) (VDict osint) w7) as (w8 & Hr).
  erewrite bind_run_ok by exact Hr.
  exists (isoformat env (w_ticks w8)), basic, carrier, security, osint, technical,
    network, w1, w3, w4, w6.
  split; [reflexivity |].
  rewrite Hb, Hs, Ho, Hn. repeat split; reflexivity.
Qed.

(** ** The basic information *)

Lemma extract_basic_info_value (env : Env) (p : PhoneNumber) (w : World) :
  value (_extract_basic_info env p) w = Ok (basic_info_of env p).
Proof.
  unfold value, _extract_basic_info, basic_info_of.
  rewrite method_run. unfold try_except, library_call.
  destruct (description_for_number env p "en") as [country |] eqn:Hd; cbn;
    rewrite ?Hd; cbn; [| reflexivity].
  destruct (name_for_number env p "en") as [name |] eqn:Hn; cbn;
    rewrite ?Hn; cbn; [| reflexivity].
  destruct (time_zones_for_number env p) as [zones |] eqn:Hz; cbn;
    rewrite ?Hz; cbn; [| reflexivity].
  destruct (number_type env p) as [t |] eqn:Ht; cbn;
    rewrite ?Ht; cbn; reflexivity.
Qed.

Lemma or_unknown_not_empty (s : string) : or_unknown s <> "".
Proof.
  unfold or_unknown, str_truthy.
  destruct (String.eqb s "") eqn:Hs; cbn.
  - discriminate.
  - apply String.eqb_neq. exact Hs.
Qed.

(** ** Lookups through [update] *)

Lemma dict_lookup_not_key (k : string) (d : pydict) :
  existsb (String.eqb k) (dict_keys d) = false -> dict_lookup k d = None.
Proof.
  induction d as [| [k0 v0] d IH]; cbn; [reflexivity |].
  intros H. apply orb_false_iff in H. destruct H as [Hk Hrest].
  rewrite Hk. apply IH. exact Hrest.
Qed.

Lemma dict_lookup_update_none (k : string) (other : pydict) :
  forall d, dict_lookup k other = None ->
            dict_lookup k (dict_update d other) = dict_lookup k d.
Proof.
  unfold dict_update.
  induction other as [| [k0 v0] other IH]; intros d; cbn; [reflexivity |].
  destruct (String.eqb k k0) eqn:Hk; [discriminate |].
  intros Hnone. rewrite (IH _ Hnone), dict_lookup_set, Hk. reflexivity.
Qed.

Lemma dict_lookup_update_some (k : string) (v : PyVal) (other : pydict) :
  forall d, distinct (dict_keys other) = true ->
            dict_lookup k other = Some v ->
            dict_lookup k (dict_update d other) = Some v.
Proof.
  induction other as [| [k0 v0] other IH]; intros d; cbn; [discriminate |].
  intros Hd. apply andb_true_iff in Hd. destruct Hd as [Hfresh Hd].
  apply negb_true_iff in Hfresh.
  destruct (String.eqb k k0) eqn:Hk.
  - intros [= ->]. apply String.eqb_eq in Hk. subst k0.
    change (dict_lookup k (dict_update (dict_set k v d) other) = Some v).
    rewrite dict_lookup_update_none by (apply dict_lookup_not_key; exact Hfresh).
    rewrite dict_lookup_set, String.eqb_refl. reflexivity.
  - intros Hsome.
    change (dict_lookup k (dict_update (dict_set k0 v0 d) other) = Some v).
    apply IH; assumption.
Qed.

(** ** The scenario without providers *)

Lemma security_analysis_not_voip (env : Env) (p : PhoneNumber) (text : string)
    (w : World) (t : PhoneNumberType) :
  number_type env p = Ok t -> t <> VOIP ->
  exists sa,
    value (_perform_security_analysis env p text) w = Ok sa
    /\ dict_lookup "is_spam_risk" sa = Some (VBool false)
    /\ dict_lookup "is_voip" sa = Some (VBool false)
    /\ (dict_lookup "reputation_score" sa = Some (VInt 50)
        \/ dict_lookup "reputation_score" sa = Some (VInt 60)).
Proof.
  intros Ht Hne.
  unfold value, _perform_security_analysis, _query_twilio_lookup.
  rewrite method_run. unfold try_except, library_call.
  cbn. rewrite Ht. cbn.
  destruct t; try (contradiction Hne; reflexivity);
    destruct (str_truthy (TWILIO_ACCOUNT_SID (config env)));
    destruct (str_truthy (TWILIO_AUTH_TOKEN (config env)));
    cbn; eexists; (split; [reflexivity |]); cbn; auto.
Qed.

Lemma risk_score_twenty (sa od : pydict) :
  dict_lookup "is_spam_risk" sa = Some (VBool false) ->
  dict_lookup "is_voip" sa = Some (VBool false) ->
  (dict_lookup "reputation_score" sa = Some (VInt 50)
   \/ dict_lookup "reputation_score" sa = Some (VInt 60)) ->
  truthy (dict_get od "breach_data" VNone) = false ->
  risk_score_body (VDict sa) (VDict od) = Ok 20.
Proof.
  intros Hspam Hvoip Hrep Hbreach.
  unfold risk_score_body. rewrite !py_get_dict.
  unfold dict_get in *. rewrite Hspam, Hvoip. cbn.
  rewrite Hbreach.
  destruct Hrep as [-> | ->]; reflexivity.
Qed.

Lemma osint_without_breaches (env : Env) (src : PresenceSources)
    (p : PhoneNumber) (text : string) (w : World) :
  exists od,
    value (_perform_osint_enrichment env src p text) w = Ok od
    /\ truthy (dict_get od "breach_data" VNone) = false.
Proof.
  unfold value, _perform_osint_enrichment.
  rewrite method_run. unfold try_except.
  match goal with
  | |- context [match ?body ?w0 with _ => _ end] =>
      destruct (body w0) as [[od | e] w'] eqn:Hbody
  end.
  - exists od. split; [reflexivity |].
    apply bind_ok_inv in Hbody as (ni & w1 & _ & H); cbv beta zeta in H.
    apply bind_ok_inv in H as (df & w2 & _ & H); cbv beta zeta in H.
    apply bind_ok_inv in H as (ae & w3 & _ & H); cbv beta zeta in H.
    apply bind_ok_inv in H as (ws & w4 & _ & H); cbv beta zeta in H.
    apply bind_ok_inv in H as (so & w5 & _ & H); cbv beta zeta in H.
    apply bind_ok_inv in H as (od1 & w6 & Hh & H); cbv beta zeta in H.
    apply bind_ok_inv in H as (sd & w7 & Hsd & H); cbv beta zeta in H.
    unfold _check_social_media_presence in Hsd. cbn in Hsd.
    injection Hsd as <- _. cbn in H. injection H as <- _.
    unfold _check_hibp_breaches in Hh.
    destruct (str_truthy (HIBP_API_KEY (config env))); cbn in Hh;
      injection Hh as <- _; reflexivity.
  - eexists. split; [reflexivity | reflexivity].
Qed.

Lemma class_detect_online_status (env : Env) (text : string) (p : PhoneNumber)
    (w : World) :
  exists os w',
    _detect_online_status env (class_sources env) text p w = (Ok os, w')
    /\ distinct (dict_keys os) = true
    /\ dict_truthy os = true
    /\ dict_lookup "network_status" os = Some (VStr "Offline")
    /\ dict_lookup "connection_status" os = Some (VStr "Unknown").
Proof.
  unfold _detect_online_status, detect_online_status_body, class_sources,
    _check_carrier_network_status, library_call.
  rewrite method_run. unfold try_except. cbn.
  destruct (name_for_number env p "en") as [name | e]; cbn;
    eexists _, _; (split; [reflexivity |]); vm_compute; repeat split.
Qed.

Lemma get_carrier_network_info_total (env : Env) (p : PhoneNumber) :
  total (_get_carrier_network_info env p).
Proof. unfold _get_carrier_network_info. guarded_method. Qed.

Lemma get_carrier_ip_ranges_total (env : Env) (p : PhoneNumber) :
  total (_get_carrier_ip_ranges env p).
Proof. unfold _get_carrier_ip_ranges. guarded_method. Qed.

Lemma assess_network_security_total (env : Env) (p : PhoneNumber) :
  total (_assess_network_security env p).
Proof. unfold _assess_network_security. guarded_method. Qed.

Lemma class_network_status (env : Env) (p : PhoneNumber) (text : string)
    (w : World) :
  exists nd,
    value (_get_network_intelligence env (class_sources env) p text) w = Ok nd
    /\ dict_lookup "network_status" nd = Some (VStr "Offline")
    /\ dict_lookup "connection_status" nd = Some (VStr "Unknown").
Proof.
  unfold value, _get_network_intelligence.
  rewrite method_run. unfold try_except.
  destruct (get_carrier_network_info_total env p
              (enter "_get_network_intelligence" w)) as (cn & w1 & Hcn).
  erewrite bind_run_ok by exact Hcn.
  destruct (get_carrier_ip_ranges_total env p w1) as (ip & w2 & Hip).
  erewrite bind_run_ok by exact Hip.
  destruct (class_detect_online_status env text p w2)
    as (os & w3 & Hos & Hdistinct & Htruthy & Hstatus & Hconn).
  erewrite bind_run_ok by exact Hos.
  destruct (assess_network_security_total env p w3) as (ns & w4 & Hns).
  erewrite bind_run_ok by exact Hns.
  rewrite Htruthy.
  eexists. split; [reflexivity |].
  destruct (dict_truthy ns); rewrite ?dict_lookup_set; cbn [String.eqb Ascii.eqb Bool.eqb];
    split; apply dict_lookup_update_some; assumption.
Qed.

Lemma report_of_network (now text : string) (score : Z)
    (env : Env) (p : PhoneNumber)
    (carrier security osint technical network : pydict) :
  dict_lookup "network_intelligence"
    (report_of now text score (basic_info_of env p) carrier security osint
       technical network)
  = Some (VDict network).
Proof.
  unfold report_of, basic_info_of.
  destruct (description_for_number env p "en");
    [destruct (name_for_number env p "en");
       [destruct (time_zones_for_number env p);
          [destruct (number_type env p) |] |] |];
    reflexivity.
Qed.

(** With the probes of the class no report has the network status
    ['Unknown']: a rejected text gives the error record, which has no
    network section, and an accepted one gives ['Offline']. *)
Lemma class_status_not_unknown (env : Env) (text : string) (w : World) :
  nested_lookup "network_intelligence" "network_status"
    (value (analyze_phone_number env (class_sources env) text) w)
  <> Some (VStr "Unknown").
Proof.
  destruct (first_accepted env text regions_to_try) as [p |] eqn:Hfirst.
  - destruct (analyze_success_run env (class_sources env) text w p Hfirst)
      as (now & basic & carrier & security & osint & technical & network
          & w1 & w3 & w4 & w6 & Hrun & Hb & _ & _ & Hn).
    rewrite extract_basic_info_value in Hb. injection Hb as <-.
    destruct (class_network_status env p text w6) as (nd & Hnd & Hstatus & _).
    rewrite Hnd in Hn. injection Hn as ->.
    rewrite Hrun. unfold nested_lookup, report_lookup.
    rewrite report_of_network, Hstatus. discriminate.
  - unfold value. rewrite (analyze_invalid_run env (class_sources env) text w Hfirst).
    cbn. discriminate.
Qed.

(** C5, as stated, fails.  For a library that finds ["+1-555-123-4567"]
    not valid, 555 being no assigned area code, the analysis without
    credentials returns the format error alone: the report has no line
    type, no risk score and no network section.  And whatever the library
    answers for this text, under whatever credentials, the network status of
    the report is not ['Unknown']. *)
Lemma scenario_status_is_never_unknown :
  config unassigned_code_env = no_credentials
  /\ value (analyze_phone_number unassigned_code_env
              (class_sources unassigned_code_env) "+1-555-123-4567") empty_world
     = Ok [("error", VStr "Invalid phone number format")]
  /\ report_lookup "line_type"
       (value (analyze_phone_number unassigned_code_env
                 (class_sources unassigned_code_env) "+1-555-123-4567")
          empty_world)
     = None
  /\ report_lookup "risk_score"
       (value (analyze_phone_number unassigned_code_env
                 (class_sources unassigned_code_env) "+1-555-123-4567")
          empty_world)
     = None
  /\ report_lookup "network_intelligence"
       (value (analyze_phone_number unassigned_code_env
                 (class_sources unassigned_code_env) "+1-555-123-4567")
          empty_world)
     = None
  /\ ~ (exists (env : Env) (w : World),
           nested_lookup "network_intelligence" "network_status"
             (value (analyze_phone_number env (class_sources env)
                       "+1-555-123-4567") w)
           = Some (VStr "Unknown")).
Proof.
  split; [reflexivity |].
  split; [vm_compute; reflexivity |].
  split; [vm_compute; reflexivity |].
  split; [vm_compute; reflexivity |].
  split; [vm_compute; reflexivity |].
  intros (env & w & Hunknown).
  exact (class_status_not_unknown env "+1-555-123-4567" w Hunknown).
Qed.

(** C5, amended.  What the analysis of ["+1-555-123-4567"] gives is
    decided by the library, with or without credentials.  When no region
    hint yields a valid number, the result is the format error alone.  For
    any text the library accepts, when it answers the lookups of the basic
    information and classifies the number as something else than VoIP, the
    report made with the probes of the class has the line type the
    library's classification maps to, risk score 20, network status
    ['Offline'] and connection status ['Unknown'].  In no case is the network
    status ['Unknown']. *)
Theorem scenario_without_providers :
  forall (env : Env) (w : World),
    (Forall (fun r => accepted env "+1-555-123-4567" r = None) regions_to_try ->
     value (analyze_phone_number env (class_sources env) "+1-555-123-4567") w
     = Ok [("error", VStr "Invalid phone number format")])
    /\ (forall (text : string) (p : PhoneNumber) (t : PhoneNumberType),
          first_accepted env text regions_to_try = Some p ->
          basic_info_available env p = true ->
          number_type env p = Ok t ->
          t <> VOIP ->
          exists report network,
            value (analyze_phone_number env (class_sources env) text) w
            = Ok report
            /\ dict_lookup "line_type" report = Some (VStr (type_map t))
            /\ dict_lookup "risk_score" report = Some (VInt 20)
            /\ dict_lookup "network_intelligence" report = Some (VDict network)
            /\ dict_lookup "network_status" network = Some (VStr "Offline")
            /\ dict_lookup "connection_status" network = Some (VStr "Unknown"))
    /\ (forall text : string,
          nested_lookup "network_intelligence" "network_status"
            (value (analyze_phone_number env (class_sources env) text) w)
          <> Some (VStr "Unknown")).
Proof.
  intros env w. split; [| split].
  - intros Hrej. apply first_accepted_none in Hrej.
    unfold value.
    rewrite (analyze_invalid_run env (class_sources env) _ w Hrej).
    reflexivity.
  - intros text p t Hsome Havail Ht Hne.
    destruct (analyze_success_run env (class_sources env) text w p Hsome)
      as (now & basic & carrier & security & osint & technical & network
          & w1 & w3 & w4 & w6 & Hrun & Hb & Hs & Ho & Hn).
    rewrite extract_basic_info_value in Hb. injection Hb as <-.
    destruct (security_analysis_not_voip env p text w3 t Ht Hne)
      as (sa & Hsa & Hspam & Hvoip & Hrep).
    rewrite Hsa in Hs. injection Hs as ->.
    destruct (osint_without_breaches env (class_sources env) p text w4)
      as (od & Hod & Hbreach).
    rewrite Hod in Ho. injection Ho as ->.
    destruct (class_network_status env p text w6)
      as (nd & Hnd & Hstatus & Hconn).
    rewrite Hnd in Hn. injection Hn as ->.
    rewrite (risk_score_twenty security osint Hspam Hvoip Hrep Hbreach) in Hrun.
    eexists _, network. split; [exact Hrun |].
    unfold report_of, basic_info_of.
    unfold basic_info_available in Havail. rewrite Ht in Havail |- *.
    destruct (description_for_number env p "en") as [country |];
      [| discriminate Havail].
    destruct (name_for_number env p "en") as [name |]; [| discriminate Havail].
    destruct (time_zones_for_number env p) as [zones |]; [| discriminate Havail].
    cbn. repeat split; assumption.
  - intros text. apply class_status_not_unknown.
Qed.

Lemma scenario_without_providers_witness :
  Forall (fun r => accepted unassigned_code_env "+1-555-123-4567" r = None)
    regions_to_try
  /\ value (analyze_phone_number unassigned_code_env
              (class_sources unassigned_code_env) "+1-555-123-4567") empty_world
     = Ok [("error", VStr "Invalid phone number format")]
  /\ exists report network,
       value (analyze_phone_number two_region_env (class_sources two_region_env)
                "2079460958") empty_world = Ok report
       /\ dict_lookup "line_type" report = Some (VStr "Fixed Line or Mobile")
       /\ dict_lookup "risk_score" report = Some (VInt 20)
       /\ dict_lookup "network_intelligence" report = Some (VDict network)
       /\ dict_lookup "network_status" network = Some (VStr "Offline")
       /\ dict_lookup "connection_status" network = Some (VStr "Unknown").
Proof.
  split; [repeat constructor |]. split.
  - apply (scenario_without_providers unassigned_code_env empty_world).
    repeat constructor.
  - destruct (scenario_without_providers two_region_env empty_world)
      as (_ & Haccepted & _).
    apply (Haccepted "2079460958" (mkPhoneNumber 1 2079460958)
             FIXED_LINE_OR_MOBILE);
      [reflexivity | reflexivity | reflexivity | discriminate].
Defined.

(** ** Contributing factors *)

(** C3, as stated, fails: the scoring method returns the integer alone,
    and neither it nor the report holds a sequence of factors, although one
    rule at least (the base score) is applied. *)
Lemma risk_result_has_no_factors :
  value (_calculate_risk_score (VDict default_analysis) (VDict no_breaches))
    empty_world = Ok 20
  /\ spec_contributing_factors default_analysis no_breaches = [("base", 20)]
  /\ carried_factors (VInt 20) = None
  /\ report_lookup "risk_score"
       (value (analyze_phone_number sample_env (class_sources sample_env)
                 "+1-555-123-4567") empty_world)
     = Some (VInt 20)
  /\ carried_factors
       (report_value
          (value (analyze_phone_number sample_env (class_sources sample_env)
                    "+1-555-123-4567") empty_world))
     = None.
Proof.
  repeat split; vm_compute; reflexivity.
Qed.

Lemma dict_lookup_perm (k : string) (d d' : pydict) :
  Permutation d d' -> NoDup (dict_keys d) ->
  dict_lookup k d = dict_lookup k d'.
Proof.
  induction 1 as [| [k0 v0] l l' Hperm IH
                  | [k1 v1] [k2 v2] l
                  | l l' l'' H1 IH1 H2 IH2]; intros Hnd.
  - reflexivity.
  - cbn. destruct (String.eqb k k0); [reflexivity |].
    apply IH. cbn in Hnd. inversion Hnd; assumption.
  - cbn. cbn in Hnd. inversion Hnd as [| ? ? Hnotin _]; subst.
    destruct (String.eqb k k1) eqn:E1, (String.eqb k k2) eqn:E2; try reflexivity.
    apply String.eqb_eq in E1, E2. subst k1 k2.
    contradiction Hnotin. left. reflexivity.
  - rewrite IH1 by exact Hnd. apply IH2.
    unfold dict_keys in *.
    eapply Permutation_NoDup; [apply Permutation_map; exact H1 | exact Hnd].
Qed.

Lemma risk_score_body_perm (sa sa' od od' : pydict) :
  Permutation sa sa' -> Permutation od od' ->
  NoDup (dict_keys sa) -> NoDup (dict_keys od) ->
  risk_score_body (VDict sa') (VDict od') = risk_score_body (VDict sa) (VDict od).
Proof.
  intros Hsa Hod Hnsa Hnod.
  unfold risk_score_body. rewrite !py_get_dict. unfold dict_get.
  rewrite <- (dict_lookup_perm "is_spam_risk" sa sa' Hsa Hnsa).
  rewrite <- (dict_lookup_perm "is_voip" sa sa' Hsa Hnsa).
  rewrite <- (dict_lookup_perm "reputation_score" sa sa' Hsa Hnsa).
  rewrite <- (dict_lookup_perm "breach_data" od od' Hod Hnod).
  reflexivity.
Qed.

Lemma risk_score_body_spec (sa od : pydict) (low : bool) :
  py_lt_int (dict_get sa "reputation_score" (VInt 50)) 30 = Ok low ->
  risk_score_body (VDict sa) (VDict od)
  = Ok (spec_score (spec_contributing_factors sa od)).
Proof.
  unfold risk_score_body, spec_contributing_factors.
  rewrite !py_get_dict. cbn [bind Result_Monad]. cbv beta zeta.
  generalize (dict_get sa "reputation_score" (VInt 50)) as reputation.
  generalize (truthy (dict_get sa "is_spam_risk" VNone)) as spam.
  generalize (truthy (dict_get sa "is_voip" VNone)) as voip.
  generalize (truthy (dict_get od "breach_data" VNone)) as breach.
  intros breach voip spam reputation Hlow.
  destruct reputation as [| b | n | f | s | l | d]; cbn in Hlow; try discriminate;
    cbn [bind Result_Monad py_lt_int py_gt_int ret].
  - destruct (Z.b2z b <? 30), (Z.b2z b >? 70), spam, voip, breach; reflexivity.
  - destruct (n <? 30), (n >? 70), spam, voip, breach; reflexivity.
  - destruct (float_lt_int f 30), (float_gt_int f 70), spam, voip, breach;
      reflexivity.
Qed.

(** Whatever the library, the probes and the text, what the entry point
    returns carries no sequence of factors, under either spelling of the
    key. *)
Lemma report_carries_no_factors (env : Env) (src : PresenceSources)
    (text : string) (w : World) :
  carried_factors (report_value (value (analyze_phone_number env src text) w))
  = None.
Proof.
  destruct (first_accepted env text regions_to_try) as [p |] eqn:Hfirst.
  - destruct (analyze_success_run env src text w p Hfirst)
      as (now & basic & carrier & security & osint & technical & network
          & w1 & w3 & w4 & w6 & Hrun & Hb & _).
    rewrite extract_basic_info_value in Hb. injection Hb as <-.
    rewrite Hrun. unfold report_value, carried_factors, report_of, basic_info_of.
    destruct (description_for_number env p "en");
      [destruct (name_for_number env p "en");
         [destruct (time_zones_for_number env p);
            [destruct (number_type env p) |] |] |];
      reflexivity.
  - unfold value. rewrite (analyze_invalid_run env src text w Hfirst).
    reflexivity.
Qed.

(** C3, amended.  The scoring method returns the score alone, and no
    report of the entry point carries a sequence of factors.  For records
    whose reputation is a number (or absent), that score is the clamped
    sum of the deltas of the rules applied in the order base, spam, VoIP
    line type, breach data, reputation adjustment; and it does not depend
    on the order of the entries of the two records. *)
Theorem risk_score_follows_rule_order :
  forall (sa od sa' od' : pydict) (low : bool) (w : World),
    py_lt_int (dict_get sa "reputation_score" (VInt 50)) 30 = Ok low ->
    NoDup (dict_keys sa) -> NoDup (dict_keys od) ->
    Permutation sa sa' -> Permutation od od' ->
    value (_calculate_risk_score (VDict sa) (VDict od)) w
    = Ok (spec_score (spec_contributing_factors sa od))
    /\ value (_calculate_risk_score (VDict sa') (VDict od')) w
       = value (_calculate_risk_score (VDict sa) (VDict od)) w
    /\ carried_factors
         (VInt (spec_score (spec_contributing_factors sa od))) = None
    /\ (forall (env : Env) (src : PresenceSources) (text : string) (w0 : World),
          carried_factors
            (report_value (value (analyze_phone_number env src text) w0))
          = None).
Proof.
  intros sa od sa' od' low w Hlow Hnsa Hnod Hsa Hod.
  rewrite !risk_score_run.
  rewrite (risk_score_body_perm sa sa' od od' Hsa Hod Hnsa Hnod).
  rewrite (risk_score_body_spec sa od low Hlow).
  split; [reflexivity |]. split; [reflexivity |]. split; [reflexivity |].
  intros env src text w0. apply report_carries_no_factors.
Qed.

Lemma risk_score_follows_rule_order_witness :
  value (_calculate_risk_score
           (VDict [("is_spam_risk", VBool true); ("is_voip", VBool false);
                   ("reputation_score", VInt 90)])
           (VDict [("breach_data", VList [VStr "x"]); ("websites", VDict [])]))
    empty_world
  = Ok (spec_score [("base", 20); ("spam_risk", 40); ("breach_data", 30);
                    ("reputation", -10)])
  /\ value (_calculate_risk_score
              (VDict [("reputation_score", VInt 90); ("is_voip", VBool false);
                      ("is_spam_risk", VBool true)])
              (VDict [("websites", VDict []); ("breach_data", VList [VStr "x"])]))
       empty_world
     = value (_calculate_risk_score
                (VDict [("is_spam_risk", VBool true); ("is_voip", VBool false);
                        ("reputation_score", VInt 90)])
                (VDict [("breach_data", VList [VStr "x"]); ("websites", VDict [])]))
         empty_world.
Proof.
  destruct (risk_score_follows_rule_order
              [("is_spam_risk", VBool true); ("is_voip", VBool false);
               ("reputation_score", VInt 90)]
              [("breach_data", VList [VStr "x"]); ("websites", VDict [])]
              [("reputation_score", VInt 90); ("is_voip", VBool false);
               ("is_spam_risk", VBool true)]
              [("websites", VDict []); ("breach_data", VList [VStr "x"])]
              false empty_world) as (Hscore & Hperm & _).
  - reflexivity.
  - repeat constructor; cbn; intuition discriminate.
  - repeat constructor; cbn; intuition discriminate.
  - apply Permutation_rev.
  - apply Permutation_rev.
  - split; [exact Hscore | exact Hperm].
Defined.

(** * Further properties of the engine *)

(** ** Risk scoring: values, fallback, monotonicity *)

Lemma risk_score_body_values (sa od : PyVal) (n : Z) :
  risk_score_body sa od = Ok n -> 10 <= n <= 100 /\ n mod 10 = 0.
Proof.
  unfold risk_score_body.
  destruct sa as [| | | | | |sa]; cbn; try discriminate.
  destruct od as [| | | | | |od]; cbn; try discriminate.
  destruct (truthy _), (truthy _), (truthy _);
    destruct (py_lt_int _ 30) as [[|] |]; cbn; try discriminate;
    try (intros [= <-]; split; [lia | reflexivity]);
    destruct (py_gt_int _ 70) as [[|] |]; cbn; try discriminate;
    intros [= <-]; split; try lia; reflexivity.
Qed.

(** X1. Whatever the two records are, the score is a multiple of 10
    between 10 and 100: the floor [max(0, ...)] of the reputation bonus is
    never reached, and the fallback of the handler is 50. *)
Theorem risk_score_multiple_of_ten :
  forall (security_analysis osint_data : PyVal) (w : World),
    exists score,
      value (_calculate_risk_score security_analysis osint_data) w = Ok score
      /\ 10 <= score <= 100 /\ score mod 10 = 0.
Proof.
  intros sa od w. rewrite risk_score_run.
  destruct (risk_score_body sa od) as [n | e] eqn:Hbody.
  - exists n. split; [reflexivity |]. eapply risk_score_body_values; eassumption.
  - exists 50. split; [reflexivity |]. split; [lia | reflexivity].
Qed.

Lemma risk_score_fallback_run (sa od : PyVal) (w : World) (e : exn) :
  risk_score_body sa od = Raise e ->
  _calculate_risk_score sa od w
  = (Ok 50,
     mkWorld (EvLog ("Risk calculation error: " ++ e_str e)
              :: EvCall "_calculate_risk_score" :: w_trace w)
       (w_ticks w) (w_rng w)).
Proof.
  intros Hbody. unfold _calculate_risk_score.
  rewrite method_run, try_lift_run, Hbody. reflexivity.
Qed.

(** X2. The score falls back to 50, with one error logged, whatever the
    other signals say, when the security record is not a dict, when the
    OSINT record is not a dict, or when the reputation entry is present
    and is not a number (None, a string, a list, a dict). *)
Theorem risk_score_fallback_on_bad_records :
  forall (security_analysis osint_data : PyVal) (w : World),
    is_dict security_analysis = false
    \/ is_dict osint_data = false
    \/ (exists sa v, security_analysis = VDict sa
                     /\ dict_lookup "reputation_score" sa = Some v
                     /\ non_numeric v = true) ->
    exists msg,
      value (_calculate_risk_score security_analysis osint_data) w = Ok 50
      /\ w_trace (after (_calculate_risk_score security_analysis osint_data) w)
         = EvLog msg :: EvCall "_calculate_risk_score" :: w_trace w.
Proof.
  intros sa od w Hbad.
  assert (Hraise : exists e, risk_score_body sa od = Raise e).
  { unfold risk_score_body.
    destruct Hbad as [Hsa | [Hod | (d & v & -> & Hv & Hnn)]].
    - destruct sa; try discriminate Hsa; eexists; reflexivity.
    - destruct sa as [| | | | | |d]; try (eexists; reflexivity).
      destruct od; try discriminate Hod; eexists; reflexivity.
    - destruct od as [| | | | | |o]; try (eexists; reflexivity).
      cbn. rewrite Hv.
      destruct v; try discriminate Hnn; eexists; reflexivity. }
  destruct Hraise as [e He].
  exists ("Risk calculation error: " ++ e_str e).
  unfold value, after. rewrite (risk_score_fallback_run sa od w e He).
  split; reflexivity.
Qed.

Lemma risk_score_fallback_on_bad_records_witness :
  (exists msg,
      value (_calculate_risk_score VNone (VDict no_breaches)) empty_world = Ok 50
      /\ w_trace (after (_calculate_risk_score VNone (VDict no_breaches)) empty_world)
         = EvLog msg :: EvCall "_calculate_risk_score" :: w_trace empty_world)
  /\ (exists msg,
         value (_calculate_risk_score
                  (VDict [("is_spam_risk", VBool true); ("reputation_score", VNone)])
                  (VDict [("breach_data", VList [VStr "x"])])) empty_world = Ok 50
         /\ w_trace (after (_calculate_risk_score
                              (VDict [("is_spam_risk", VBool true);
                                      ("reputation_score", VNone)])
                              (VDict [("breach_data", VList [VStr "x"])]))
                       empty_world)
            = EvLog msg :: EvCall "_calculate_risk_score" :: w_trace empty_world).
Proof.
  split.
  - apply risk_score_fallback_on_bad_records. left. reflexivity.
  - apply risk_score_fallback_on_bad_records. right. right.
    exists [("is_spam_risk", VBool true); ("reputation_score", VNone)], VNone.
    repeat split; reflexivity.
Defined.

Lemma score_of_run (sa od : pydict) (w : World) :
  value (_calculate_risk_score (VDict sa) (VDict od)) w = Ok (score_of sa od).
Proof. apply risk_score_run. Qed.

Ltac score_cases :=
  repeat match goal with
         | |- context [truthy ?v] =>
             let b := fresh "b" in
             generalize (truthy v); intros b; destruct b
         end.

Lemma score_of_flags (sa od : pydict) :
  score_of sa od =
  match py_lt_int (dict_get sa "reputation_score" (VInt 50)) 30,
        py_gt_int (dict_get sa "reputation_score" (VInt 50)) 70 with
  | Ok low, Ok high =>
      let base :=
        20 + (if truthy (dict_get sa "is_spam_risk" VNone) then 40 else 0)
        + (if truthy (dict_get sa "is_voip" VNone) then 20 else 0)
        + (if truthy (dict_get od "breach_data" VNone) then 30 else 0) in
      Z.min 100 (if low then base + 20 else if high then base - 10 else base)
  | _, _ => 50
  end.
Proof.
  unfold score_of, risk_score_body. rewrite !py_get_dict.
  cbn [bind Result_Monad]. cbv beta zeta.
  generalize (dict_get sa "reputation_score" (VInt 50)) as reputation.
  generalize (truthy (dict_get sa "is_spam_risk" VNone)) as spam.
  generalize (truthy (dict_get sa "is_voip" VNone)) as voip.
  generalize (truthy (dict_get od "breach_data" VNone)) as breach.
  intros breach voip spam reputation.
  destruct reputation as [| b | n | f | s | l | d]; cbn; try reflexivity.
  - destruct (Z.b2z b <? 30), (Z.b2z b >? 70), spam, voip, breach; reflexivity.
  - destruct (n <? 30), (n >? 70), spam, voip, breach; reflexivity.
  - destruct (float_lt_int f 30), (float_gt_int f 70), spam, voip, breach;
      reflexivity.
Qed.

Lemma dict_get_set_same (k : string) (v default : PyVal) (d : pydict) :
  dict_get (dict_set k v d) k default = v.
Proof. unfold dict_get. rewrite dict_lookup_set, String.eqb_refl. reflexivity. Qed.

Lemma dict_get_set_other (k k' : string) (v default : PyVal) (d : pydict) :
  String.eqb k k' = false ->
  dict_get (dict_set k' v d) k default = dict_get d k default.
Proof. intros H. unfold dict_get. rewrite dict_lookup_set, H. reflexivity. Qed.

(** X3. Raising a signal never lowers the score: marking the number as
    spam risk, as VoIP, or giving it a non-empty breach list yields a score
    at least as high as before, whatever else the records hold. *)
Theorem risk_score_monotone_in_signals :
  forall (sa od : pydict) (x : PyVal) (w : World),
    exists before spam voip breach,
      value (_calculate_risk_score (VDict sa) (VDict od)) w = Ok before
      /\ value (_calculate_risk_score
                  (VDict (dict_set "is_spam_risk" (VBool true) sa)) (VDict od)) w
         = Ok spam
      /\ value (_calculate_risk_score
                  (VDict (dict_set "is_voip" (VBool true) sa)) (VDict od)) w
         = Ok voip
      /\ value (_calculate_risk_score
                  (VDict sa) (VDict (dict_set "breach_data" (VList [x]) od))) w
         = Ok breach
      /\ before <= spam /\ before <= voip /\ before <= breach.
Proof.
  intros sa od x w. rewrite !score_of_run.
  eexists _, _, _, _. repeat (split; [reflexivity |]).
  rewrite !score_of_flags.
  rewrite !dict_get_set_same.
  rewrite !dict_get_set_other by reflexivity.
  cbn [truthy].
  generalize (dict_get sa "reputation_score" (VInt 50)) as reputation.
  intros reputation.
  destruct (py_lt_int reputation 30) as [[|] |];
    destruct (py_gt_int reputation 70) as [[|] |];
    cbv zeta; score_cases; lia.
Qed.

(** ** The security record and the score of the pipeline *)

Lemma security_analysis_value (env : Env) (p : PhoneNumber) (text : string)
    (w : World) :
  value (_perform_security_analysis env p text) w = Ok (security_record env p).
Proof.
  unfold value, _perform_security_analysis, _query_twilio_lookup, twilio_configured,
    security_record, twilio_configured.
  rewrite method_run. unfold try_except, library_call.
  cbn.
  destruct (number_type env p) as [t | e]; cbn; [| reflexivity].
  destruct t;
    destruct (str_truthy (TWILIO_ACCOUNT_SID (config env)));
    destruct (str_truthy (TWILIO_AUTH_TOKEN (config env)));
    reflexivity.
Qed.

(** X4. What [_perform_security_analysis] returns: the empty record when
    the type lookup raises; otherwise the spam flag is off (the spam
    database is a placeholder), the VoIP flag is on exactly for a VoIP
    classification, with the indicator ['VoIP number'], and the reputation
    is 60 when both Twilio credentials are set, 50 otherwise. *)
Theorem security_analysis_record :
  forall (env : Env) (p : PhoneNumber) (text : string) (w : World),
    exists sa,
      value (_perform_security_analysis env p text) w = Ok sa
      /\ ((exists e, number_type env p = Raise e) -> sa = [])
      /\ (forall t, number_type env p = Ok t ->
            dict_lookup "is_spam_risk" sa = Some (VBool false)
            /\ dict_lookup "is_voip" sa = Some (VBool (is_voip_type t))
            /\ dict_lookup "risk_indicators" sa
               = Some (VStrs (if is_voip_type t then ["VoIP number"] else []))
            /\ dict_lookup "reputation_score" sa
               = Some (VInt (if twilio_configured env then 60 else 50))).
Proof.
  intros env p text w. eexists. split; [apply security_analysis_value |].
  unfold security_record. split.
  - intros [e ->]. reflexivity.
  - intros t ->. repeat split; reflexivity.
Qed.

Lemma security_analysis_record_witness :
  exists sa,
    value (_perform_security_analysis voip_env sample_number "+1-555-123-4567")
      empty_world = Ok sa
    /\ dict_lookup "is_voip" sa = Some (VBool true)
    /\ dict_lookup "reputation_score" sa = Some (VInt 60).
Proof.
  destruct (security_analysis_record voip_env sample_number "+1-555-123-4567"
              empty_world) as (sa & Hrun & _ & Hok).
  destruct (Hok VOIP eq_refl) as (_ & Hvoip & _ & Hrep).
  exists sa. repeat split; assumption.
Defined.

Lemma pipeline_score_body (env : Env) (p : PhoneNumber) (od : pydict) :
  truthy (dict_get od "breach_data" VNone) = false ->
  risk_score_body (VDict (security_record env p)) (VDict od)
  = Ok (pipeline_score env p).
Proof.
  intros Hbreach. unfold risk_score_body, pipeline_score, security_record.
  rewrite !py_get_dict. unfold dict_get in *.
  destruct (number_type env p) as [t | e]; cbn; rewrite Hbreach.
  - destruct t, (twilio_configured env); reflexivity.
  - reflexivity.
Qed.

Lemma report_of_risk_score (now text : string) (score : Z)
    (env : Env) (p : PhoneNumber)
    (carrier security osint technical network : pydict) :
  dict_lookup "risk_score"
    (report_of now text score (basic_info_of env p) carrier security osint
       technical network)
  = Some (VInt score)
  /\ dict_lookup "error"
       (report_of now text score (basic_info_of env p) carrier security osint
          technical network)
     = None.
Proof.
  unfold report_of, basic_info_of.
  destruct (description_for_number env p "en");
    [destruct (name_for_number env p "en");
       [destruct (time_zones_for_number env p);
          [destruct (number_type env p) |] |] |];
    split; reflexivity.
Qed.

(** What a run of the entry point gives on an accepted number. *)
Lemma analyze_accepted_run (env : Env) (src : PresenceSources) (text : string)
    (w : World) (p : PhoneNumber) :
  first_accepted env text regions_to_try = Some p ->
  exists now carrier security osint technical network,
    value (analyze_phone_number env src text) w
    = Ok (report_of now text (pipeline_score env p) (basic_info_of env p)
            carrier security osint technical network).
Proof.
  intros Hsome.
  destruct (analyze_success_run env src text w p Hsome)
    as (now & basic & carrier & security & osint & technical & network
        & w1 & w3 & w4 & w6 & Hrun & Hb & Hs & Ho & _).
  rewrite extract_basic_info_value in Hb. injection Hb as <-.
  rewrite security_analysis_value in Hs. injection Hs as <-.
  destruct (osint_without_breaches env src p text w4) as (od & Hod & Hbreach).
  rewrite Hod in Ho. injection Ho as ->.
  rewrite (pipeline_score_body env p osint Hbreach) in Hrun.
  eexists _, _, _, _, _, _. exact Hrun.
Qed.

(** X5. The score of a whole analysis depends on the line type only: for
    every accepted number, whatever the probes and the credentials, the
    report carries 40 when the library classifies the number as VoIP and 20
    otherwise (also when the type lookup raises). *)
Theorem pipeline_risk_score_is_20_or_40 :
  forall (env : Env) (src : PresenceSources) (text : string) (w : World)
         (p : PhoneNumber),
    first_accepted env text regions_to_try = Some p ->
    exists report,
      value (analyze_phone_number env src text) w = Ok report
      /\ dict_lookup "risk_score" report
         = Some (VInt (match number_type env p with
                       | Ok VOIP => 40
                       | _ => 20
                       end)).
Proof.
  intros env src text w p Hsome.
  destruct (analyze_accepted_run env src text w p Hsome)
    as (now & carrier & security & osint & technical & network & Hrun).
  eexists. split; [exact Hrun |].
  apply report_of_risk_score.
Qed.

Lemma pipeline_risk_score_is_20_or_40_witness :
  exists report,
    value (analyze_phone_number voip_env (class_sources voip_env) "+1-555-123-4567")
      empty_world = Ok report
    /\ dict_lookup "risk_score" report = Some (VInt 40).
Proof.
  apply (pipeline_risk_score_is_20_or_40 voip_env (class_sources voip_env)
           "+1-555-123-4567" empty_world sample_number).
  reflexivity.
Defined.

(** X6. The entry point always returns a dict and never the error
    ['Analysis failed: ...']: the result has an ['error'] entry exactly
    when no region hint accepts the text, and it is then ['Invalid phone
    number format']. *)
Theorem analyze_never_fails :
  forall (env : Env) (src : PresenceSources) (text : string) (w : World),
    exists report,
      value (analyze_phone_number env src text) w = Ok report
      /\ (first_accepted env text regions_to_try = None ->
            report = [("error", VStr "Invalid phone number format")])
      /\ (first_accepted env text regions_to_try <> None ->
            dict_lookup "error" report = None).
Proof.
  intros env src text w.
  destruct (first_accepted env text regions_to_try) as [p |] eqn:Hfirst.
  - destruct (analyze_accepted_run env src text w p Hfirst)
      as (now & carrier & security & osint & technical & network & Hrun).
    eexists. split; [exact Hrun |]. split.
    + discriminate.
    + intros _. apply report_of_risk_score.
  - eexists. split.
    + unfold value. rewrite (analyze_invalid_run env src text w Hfirst). reflexivity.
    + split; [reflexivity | intros H; contradiction H; reflexivity].
Qed.

Lemma analyze_never_fails_witness :
  (exists report,
      value (analyze_phone_number geocoder_down_env
               (sources_with_failing_voip geocoder_down_env) "+1-555-123-4567")
        empty_world = Ok report
      /\ dict_lookup "error" report = None)
  /\ exists report,
       value (analyze_phone_number geocoder_down_env
                (sources_with_failing_voip geocoder_down_env) "")
         empty_world = Ok report
       /\ report = [("error", VStr "Invalid phone number format")].
Proof.
  split.
  - destruct (analyze_never_fails geocoder_down_env
                (sources_with_failing_voip geocoder_down_env) "+1-555-123-4567"
                empty_world) as (report & Hrun & _ & Hok).
    exists report. split; [exact Hrun |]. apply Hok. discriminate.
  - destruct (analyze_never_fails geocoder_down_env
                (sources_with_failing_voip geocoder_down_env) "" empty_world)
      as (report & Hrun & Hnone & _).
    exists report. split; [exact Hrun |]. apply Hnone. reflexivity.
Defined.

(** ** The dashboard's reading of a report *)


(** ** Network security assessment *)

Lemma assess_network_security_value (env : Env) (p : PhoneNumber) (w : World) :
  value (_assess_network_security env p) w = Ok (network_security_record env p).
Proof.
  unfold value, _assess_network_security, network_security_record.
  rewrite method_run. unfold try_except, library_call. cbn.
  destruct (number_type env p) as [t | e]; cbn; [| reflexivity].
  destruct (name_for_number env p "en") as [name | e]; cbn;
    [| destruct t; reflexivity].
  destruct t, (str_truthy name); reflexivity.
Qed.

(** X8. The security score of the network assessment lies between 0 and
    100 and takes three values only.  With a carrier name the carrier's
    rating replaces what the line type had set: the score is 60 and the
    features are the carrier's two, for every line type (so a mobile line
    loses ['Mobile network encryption'] and a VoIP line its penalty).
    Without a carrier name the score is 40 for VoIP, 60 for mobile and 50
    otherwise.  When the type or the carrier lookup raises the record is
    empty. *)
Theorem network_security_score :
  forall (env : Env) (p : PhoneNumber) (w : World),
    exists record,
      value (_assess_network_security env p) w = Ok record
      /\ (forall t name,
            number_type env p = Ok t -> name_for_number env p "en" = Ok name ->
            exists score,
              dict_lookup "security_score" record = Some (VInt score)
              /\ 0 <= score <= 100
              /\ (name <> "" ->
                    score = 60
                    /\ dict_lookup "security_features" record
                       = Some (VStrs carrier_features))
              /\ (name = "" ->
                    score = match t with
                            | VOIP => 40
                            | MOBILE => 60
                            | _ => 50
                            end))
      /\ ((exists e, number_type env p = Raise e)
          \/ (exists e, name_for_number env p "en" = Raise e) -> record = []).
Proof.
  intros env p w. eexists. split; [apply assess_network_security_value |].
  unfold network_security_record. split.
  - intros t name -> ->. eexists. split; [reflexivity |].
    unfold str_truthy.
    destruct (String.eqb name "") eqn:Hname; cbn.
    + apply String.eqb_eq in Hname. subst name.
      split; [destruct t; lia |]. split; [intros H; contradiction H; reflexivity |].
      intros _. reflexivity.
    + apply String.eqb_neq in Hname.
      split; [lia |]. split; [intros _; split; reflexivity |].
      intros H. contradiction (Hname H).
  - intros [[e ->] | [e ->]]; [reflexivity |].
    destruct (number_type env p); reflexivity.
Qed.

Lemma network_security_score_witness :
  exists record,
    value (_assess_network_security voip_env sample_number) empty_world = Ok record
    /\ dict_lookup "security_score" record = Some (VInt 60)
    /\ dict_lookup "security_features" record = Some (VStrs carrier_features).
Proof.
  destruct (network_security_score voip_env sample_number empty_world)
    as (record & Hrun & Hok & _).
  destruct (Hok VOIP "Verizon" eq_refl eq_refl) as (score & Hscore & _ & Hknown & _).
  destruct Hknown as (-> & Hfeatures); [discriminate |].
  exists record. repeat split; assumption.
Defined.

(** ** The Numverify lookup and the carrier record *)

Lemma query_numverify_value (env : Env) (p : PhoneNumber) (w : World) :
  value (_query_numverify_api env p) w = Ok (numverify_answer env p).
Proof.
  unfold value, _query_numverify_api, numverify_answer, numverify_params,
    numverify_url, numverify_fields.
  rewrite method_run. unfold try_except, library_call.
  destruct (str_truthy (NUMVERIFY_API_KEY (config env))); cbn; [| reflexivity].
  destruct (format_number env p E164) as [phone_str | e]; cbn; [| reflexivity].
  destruct (requests_get env _ _) as [[status body] | e]; cbn; [| reflexivity].
  destruct (status =? 200); cbn.
  - destruct body as [data | e]; cbn; [| reflexivity].
    destruct data as [| | | | | |data]; cbn; try reflexivity.
    unfold dict_get. destruct (truthy _); reflexivity.
  - destruct body as [[| | | | | |data] | e]; reflexivity.
Qed.

Lemma numverify_answer_some (env : Env) (p : PhoneNumber) (fields : pydict) :
  numverify_answer env p = Some fields <->
  (NUMVERIFY_API_KEY (config env) <> ""
   /\ exists phone_str data,
        format_number env p E164 = Ok phone_str
        /\ requests_get env numverify_url (numverify_params env phone_str)
           = Ok (200, Ok (VDict data))
        /\ truthy (dict_get data "valid" VNone) = true
        /\ fields = numverify_fields data).
Proof.
  unfold numverify_answer, str_truthy. split.
  - destruct (String.eqb (NUMVERIFY_API_KEY (config env)) "") eqn:Hkey; cbn;
      [discriminate |].
    apply String.eqb_neq in Hkey.
    destruct (format_number env p E164) as [phone_str | e]; [| discriminate].
    destruct (requests_get env _ _)
      as [[status [[| | | | | | data] |]] |] eqn:Hreq; try discriminate.
    destruct (status =? 200) eqn:Hstatus; [| discriminate].
    destruct (truthy (dict_get data "valid" VNone)) eqn:Hvalid; [| discriminate].
    apply Z.eqb_eq in Hstatus. subst status.
    intros [= <-]. split; [exact Hkey |].
    exists phone_str, data. repeat split; assumption.
  - intros (Hkey & phone_str & data & -> & -> & -> & ->).
    apply String.eqb_neq in Hkey. rewrite Hkey. reflexivity.
Qed.

(** X9. The Numverify lookup never raises.  It yields data exactly when
    the key is set, the number formats, the request returns status 200 with
    a JSON object whose ['valid'] is truthy; the data are then the entries
    carrier, line_type and location of the object, ['Unknown'] standing for
    a missing one.  Every failure (no key, exception, other status, other
    JSON) gives None. *)
Theorem numverify_lookup_result :
  forall (env : Env) (p : PhoneNumber) (w : World),
    exists answer,
      value (_query_numverify_api env p) w = Ok answer
      /\ forall fields,
           answer = Some fields <->
           (NUMVERIFY_API_KEY (config env) <> ""
            /\ exists phone_str data,
                 format_number env p E164 = Ok phone_str
                 /\ requests_get env numverify_url (numverify_params env phone_str)
                    = Ok (200, Ok (VDict data))
                 /\ truthy (dict_get data "valid" VNone) = true
                 /\ fields = numverify_fields data).
Proof.
  intros env p w. eexists. split; [apply query_numverify_value |].
  apply numverify_answer_some.
Qed.

Lemma numverify_lookup_result_witness :
  value (_query_numverify_api numverify_env sample_number) empty_world
  = Ok (Some [("carrier", VStr "Example Wireless");
              ("line_type", VStr "Unknown");
              ("location", VStr "Unknown")]).
Proof.
  destruct (numverify_lookup_result numverify_env sample_number empty_world)
    as (answer & Hrun & Hiff).
  rewrite Hrun. f_equal. apply Hiff.
  split; [discriminate |].
  exists "+15551234567",
    [("valid", VBool true); ("carrier", VStr "Example Wireless")].
  repeat split; reflexivity.
Defined.

Lemma query_numverify_run (env : Env) (p : PhoneNumber) (w : World) :
  exists w', _query_numverify_api env p w = (Ok (numverify_answer env p), w').
Proof.
  pose proof (query_numverify_value env p w) as Hv. unfold value in Hv.
  destruct (_query_numverify_api env p w) as [r w']. cbn in Hv. subst r.
  exists w'. reflexivity.
Qed.

Lemma get_carrier_info_value (env : Env) (p : PhoneNumber) (w : World) :
  value (_get_carrier_info env p) w = Ok (carrier_record env p).
Proof.
  unfold value, _get_carrier_info, carrier_record, carrier_base.
  rewrite method_run. unfold try_except, library_call.
  destruct (name_for_number env p "en") as [name | e] eqn:Hn;
    cbn -[_query_numverify_api]; rewrite ?Hn; cbn -[_query_numverify_api];
    [| reflexivity].
  destruct (number_type env p) as [t | e] eqn:Ht;
    cbn -[_query_numverify_api]; rewrite ?Ht; cbn -[_query_numverify_api];
    [| reflexivity].
  destruct (description_for_number env p "en") as [country | e] eqn:Hd;
    cbn -[_query_numverify_api]; rewrite ?Hd; cbn -[_query_numverify_api];
    [| reflexivity].
  destruct (str_truthy (NUMVERIFY_API_KEY (config env))) eqn:Hkey;
    cbn -[_query_numverify_api].
  - match goal with
    | |- context [_query_numverify_api env p ?w0] =>
        destruct (query_numverify_run env p w0) as (w' & Hq)
    end.
    rewrite Hq. cbn.
    destruct (numverify_answer env p) as [fields |] eqn:Hanswer; [| reflexivity].
    assert (Hfields : dict_truthy fields = true).
    { apply numverify_answer_some in Hanswer.
      destruct Hanswer as (_ & phone_str & data & _ & _ & _ & ->). reflexivity. }
    rewrite Hfields. reflexivity.
  - unfold numverify_answer. rewrite Hkey. reflexivity.
Qed.

(** X10. The carrier record.  When the three library lookups return, the
    record has the library's name (['Unknown'] when empty), the line type,
    the country as the library gives it (an empty country stays empty
    here), and the country code as text; a successful Numverify lookup adds
    its three entries ([carrier], [line_type], [location]) and changes none
    of these five; when a library lookup raises the record is empty.  Without a Numverify key no HTTP
    request is made. *)
Theorem carrier_info_record :
  forall (env : Env) (p : PhoneNumber) (w : World),
    exists record,
      value (_get_carrier_info env p) w = Ok record
      /\ (forall name t country,
            name_for_number env p "en" = Ok name ->
            number_type env p = Ok t ->
            description_for_number env p "en" = Ok country ->
            dict_lookup "name" record = Some (VStr (or_unknown name))
            /\ dict_lookup "type" record = Some (VStr (type_map t))
            /\ dict_lookup "country" record = Some (VStr country)
            /\ dict_lookup "mobile_country_code" record
               = Some (VStr (py_str_int (country_code p)))
            /\ (numverify_answer env p = None ->
                  record = carrier_base p name country t)
            /\ (forall fields, numverify_answer env p = Some fields ->
                  dict_lookup "line_type" record
                  = dict_lookup "line_type" fields)
            /\ (forall fields, numverify_answer env p = Some fields ->
                  record = dict_update (carrier_base p name country t) fields
                  /\ dict_lookup "carrier" record = dict_lookup "carrier" fields
                  /\ dict_lookup "location" record
                     = dict_lookup "location" fields
                  /\ dict_lookup "mobile_network_code" record
                     = Some (VStr "Unknown")
                  /\ dict_keys record
                     = (dict_keys (carrier_base p name country t)
                        ++ dict_keys fields)%list))
      /\ ((exists e, name_for_number env p "en" = Raise e)
          \/ (exists e, number_type env p = Raise e)
          \/ (exists e, description_for_number env p "en" = Raise e) ->
          record = [])
      /\ (NUMVERIFY_API_KEY (config env) = "" ->
            existsb is_http (w_trace (after (_get_carrier_info env p) w))
            = existsb is_http (w_trace w)).
Proof.
  intros env p w. eexists. split; [apply get_carrier_info_value |].
  unfold carrier_record. split; [| split].
  - intros name t country -> -> ->.
    destruct (numverify_answer env p) as [fields |] eqn:Hanswer.
    + apply numverify_answer_some in Hanswer.
      destruct Hanswer as (_ & phone_str & data & _ & _ & _ & ->).
      do 4 (split; [reflexivity |]). split; [discriminate |]. split.
      * intros fields' [= <-]. reflexivity.
      * intros fields' [= <-]. repeat split; reflexivity.
    + do 5 (split; [reflexivity |]).
      split; intros fields' Hf; discriminate Hf.
  - intros [[e ->] | [[e ->] | [e ->]]].
    + reflexivity.
    + destruct (name_for_number env p "en"); reflexivity.
    + destruct (name_for_number env p "en"); [| reflexivity].
      destruct (number_type env p); reflexivity.
  - intros Hkey. unfold after, _get_carrier_info.
    rewrite method_run. unfold try_except, library_call, str_truthy.
    rewrite Hkey.
    destruct (name_for_number env p "en") as [name | e] eqn:Hn; cbn;
      rewrite ?Hn; cbn; [| reflexivity].
    destruct (number_type env p) as [t | e] eqn:Ht; cbn; rewrite ?Ht; cbn;
      [| reflexivity].
    destruct (description_for_number env p "en") as [country | e] eqn:Hd; cbn;
      rewrite ?Hd; cbn; reflexivity.
Qed.

Lemma carrier_info_record_witness :
  exists record,
    value (_get_carrier_info numverify_env sample_number) empty_world = Ok record
    /\ dict_lookup "type" record = Some (VStr "Mobile")
    /\ dict_lookup "country" record = Some (VStr "")
    /\ dict_lookup "line_type" record = Some (VStr "Unknown").
Proof.
  destruct (carrier_info_record numverify_env sample_number empty_world)
    as (record & Hrun & Hok & _).
  destruct (Hok "" MOBILE "" eq_refl eq_refl eq_refl)
    as (_ & Htype & Hcountry & _ & _ & Hfields & _).
  exists record. split; [exact Hrun |]. split; [exact Htype |].
  split; [exact Hcountry |].
  rewrite (Hfields (numverify_fields [("valid", VBool true);
                                       ("carrier", VStr "Example Wireless")]) eq_refl).
  reflexivity.
Defined.

(** ** Technical details and the line type across the report *)

Lemma extract_technical_details_value (env : Env) (p : PhoneNumber) (w : World) :
  value (_extract_technical_details env p) w = Ok (technical_record env p).
Proof.
  unfold value, _extract_technical_details, technical_record.
  rewrite method_run. unfold try_except, library_call.
  destruct (format_number env p INTERNATIONAL) as [i |] eqn:Hi; cbn;
    rewrite ?Hi; cbn; [| reflexivity].
  destruct (format_number env p NATIONAL) as [n |] eqn:Hn; cbn;
    rewrite ?Hn; cbn; [| reflexivity].
  destruct (format_number env p E164) as [e |] eqn:He; cbn;
    rewrite ?He; cbn; [| reflexivity].
  destruct (number_type env p) as [t |] eqn:Ht; cbn;
    rewrite ?Ht; cbn; reflexivity.
Qed.

(** A run of the entry point on an accepted number, with the records of
    the stages that depend on the library only. *)
Lemma analyze_accepted_sections (env : Env) (src : PresenceSources)
    (text : string) (w : World) (p : PhoneNumber) :
  first_accepted env text regions_to_try = Some p ->
  exists now security osint network,
    value (analyze_phone_number env src text) w
    = Ok (report_of now text
            (match risk_score_body (VDict security) (VDict osint) with
             | Ok n => n
             | Raise _ => 50
             end)
            (basic_info_of env p) (carrier_record env p) security osint
            (technical_record env p) network).
Proof.
  intros Hsome. unfold analyze_phone_number, value.
  rewrite method_run. unfold try_except.
  destruct (parse_phone_number_run env text (enter "analyze_phone_number" w))
    as (w1 & Hp & _).
  rewrite Hsome in Hp.
  erewrite bind_run_ok by exact Hp. cbv beta iota.
  destruct (extract_basic_info_total env p w1) as (basic & w2 & Hb).
  pose proof (extract_basic_info_value env p w1) as Hbv.
  unfold value in Hbv. rewrite Hb in Hbv. injection Hbv as ->.
  erewrite bind_run_ok by exact Hb.
  destruct (get_carrier_info_total env p w2) as (carrier & w3 & Hc).
  pose proof (get_carrier_info_value env p w2) as Hcv.
  unfold value in Hcv. rewrite Hc in Hcv. injection Hcv as ->.
  erewrite bind_run_ok by exact Hc.
  destruct (perform_security_analysis_total env p text w3) as (security & w4 & Hs).
  erewrite bind_run_ok by exact Hs.
  destruct (perform_osint_enrichment_total env src p text w4) as (osint & w5 & Ho).
  erewrite bind_run_ok by exact Ho.
  destruct (extract_technical_details_total env p w5) as (technical & w6 & Ht).
  pose proof (extract_technical_details_value env p w5) as Htv.
  unfold value in Htv. rewrite Ht in Htv. injection Htv as ->.
  erewrite bind_run_ok by exact Ht.
  destruct (get_network_intelligence_total env src p text w6) as (network & w7 & Hn).
  erewrite bind_run_ok by exact Hn.
  destruct (risk_score_full_run (VDict security) (VDict osint) w7) as (w8 & Hr).
  erewrite bind_run_ok by exact Hr.
  exists (isoformat env (w_ticks w8)), security, osint, network.
  reflexivity.
Qed.

(** X11. One classification, three places.  For an accepted number whose
    type lookup returns [t], whatever else the library does: the entries
    [line_type] of the report, [type] of its carrier section and
    [number_type] of its technical section are each either absent (the
    stage failed on another lookup) or the description of [t]; a Numverify
    answer does not change them.  Each of the three is present when the
    other lookups of its own stage return. *)
Theorem line_type_agrees_across_report :
  forall (env : Env) (src : PresenceSources) (text : string) (w : World)
         (p : PhoneNumber) (t : PhoneNumberType),
    first_accepted env text regions_to_try = Some p ->
    number_type env p = Ok t ->
    exists report,
      value (analyze_phone_number env src text) w = Ok report
      /\ (forall v, dict_lookup "line_type" report = Some v -> v = VStr (type_map t))
      /\ (forall v, section_entry "carrier_info" "type" report = Some v ->
                    v = VStr (type_map t))
      /\ (forall v, section_entry "technical_details" "number_type" report = Some v ->
                    v = VStr (type_map t))
      /\ (basic_info_available env p = true ->
            dict_lookup "line_type" report = Some (VStr (type_map t))
            /\ section_entry "carrier_info" "type" report = Some (VStr (type_map t)))
      /\ ((exists i n e, format_number env p INTERNATIONAL = Ok i
                         /\ format_number env p NATIONAL = Ok n
                         /\ format_number env p E164 = Ok e) ->
            section_entry "technical_details" "number_type" report
            = Some (VStr (type_map t)))
      /\ ((exists name country,
              name_for_number env p "en" = Ok name
              /\ description_for_number env p "en" = Ok country) ->
            section_entry "carrier_info" "type" report
            = Some (VStr (type_map t))).
Proof.
  intros env src text w p t Hsome Ht.
  destruct (analyze_accepted_sections env src text w p Hsome)
    as (now & security & osint & network & Hrun).
  eexists. split; [exact Hrun |].
  assert (Hcarrier :
            carrier_record env p = []
            \/ dict_lookup "type" (carrier_record env p) = Some (VStr (type_map t))).
  { unfold carrier_record. rewrite Ht.
    destruct (name_for_number env p "en") as [name |]; [| left; reflexivity].
    destruct (description_for_number env p "en") as [country |];
      [| left; reflexivity].
    right.
    destruct (numverify_answer env p) as [fields |] eqn:Hanswer; [| reflexivity].
    apply numverify_answer_some in Hanswer.
    destruct Hanswer as (_ & phone_str & data & _ & _ & _ & ->). reflexivity. }
  assert (Hcarrier_own :
            (exists name country,
                name_for_number env p "en" = Ok name
                /\ description_for_number env p "en" = Ok country) ->
            dict_lookup "type" (carrier_record env p) = Some (VStr (type_map t))).
  { intros (name & country & Hname & Hcountry).
    unfold carrier_record. rewrite Ht, Hname, Hcountry.
    destruct (numverify_answer env p) as [fields |] eqn:Hanswer; [| reflexivity].
    apply numverify_answer_some in Hanswer.
    destruct Hanswer as (_ & phone_str & data & _ & _ & _ & ->). reflexivity. }
  assert (Hcarrier_ok :
            basic_info_available env p = true ->
            dict_lookup "type" (carrier_record env p) = Some (VStr (type_map t))).
  { unfold basic_info_available. intros Havail. apply Hcarrier_own.
    destruct (description_for_number env p "en") as [country |];
      [| discriminate Havail].
    destruct (name_for_number env p "en") as [name |]; [| discriminate Havail].
    eexists _, _. split; reflexivity. }
  assert (Htech :
            technical_record env p = []
            \/ dict_lookup "number_type" (technical_record env p)
               = Some (VStr (type_map t))).
  { unfold technical_record. rewrite Ht.
    destruct (format_number env p INTERNATIONAL); [| left; reflexivity].
    destruct (format_number env p NATIONAL); [| left; reflexivity].
    destruct (format_number env p E164); [| left; reflexivity].
    right. reflexivity. }
  assert (Htech_ok :
            (exists i n e, format_number env p INTERNATIONAL = Ok i
                           /\ format_number env p NATIONAL = Ok n
                           /\ format_number env p E164 = Ok e) ->
            dict_lookup "number_type" (technical_record env p)
            = Some (VStr (type_map t))).
  { intros (i & n & e & Hi & Hn & He).
    unfold technical_record. rewrite Ht, Hi, Hn, He. reflexivity. }
  generalize dependent (carrier_record env p).
  generalize dependent (technical_record env p).
  intros technical Htech Htech_ok carrier Hrun Hcarrier Hcarrier_own Hcarrier_ok.
  unfold report_of, basic_info_of, basic_info_available, section_entry in *.
  rewrite Ht in *.
  destruct (description_for_number env p "en") as [country |];
    [destruct (name_for_number env p "en") as [name |];
       [destruct (time_zones_for_number env p) as [zones |] |] |];
    cbn;
    (split; [intros v [= <-] || intros v Hv; try discriminate Hv; reflexivity |]);
    (split;
     [intros v Hv; destruct Hcarrier as [-> | Hc];
      [discriminate Hv | rewrite Hc in Hv; injection Hv as <-; reflexivity] |]);
    (split;
     [intros v Hv; destruct Htech as [-> | Hc];
      [discriminate Hv | rewrite Hc in Hv; injection Hv as <-; reflexivity] |]);
    (split; [| split; [exact Htech_ok | exact Hcarrier_own]]);
    try (intros Hfalse; discriminate Hfalse).
  intros _. split; [reflexivity |]. apply Hcarrier_ok. reflexivity.
Qed.

Lemma line_type_agrees_across_report_witness :
  exists report,
    value (analyze_phone_number numverify_env (class_sources numverify_env)
             "+1-555-123-4567") empty_world = Ok report
    /\ dict_lookup "line_type" report = Some (VStr "Mobile")
    /\ section_entry "carrier_info" "type" report = Some (VStr "Mobile")
    /\ section_entry "technical_details" "number_type" report = Some (VStr "Mobile").
Proof.
  destruct (line_type_agrees_across_report numverify_env
              (class_sources numverify_env) "+1-555-123-4567" empty_world
              sample_number MOBILE eq_refl eq_refl)
    as (report & Hrun & _ & _ & _ & Hbasic & Htech & _).
  destruct (Hbasic eq_refl) as (Hline & Hcarrier).
  exists report. repeat split; try assumption.
  apply Htech. exists "+1 555-123-4567", "(555) 123-4567", "+15551234567".
  repeat split; reflexivity.
Defined.

(** ** How the probes combine into a status *)

Ltac probe H :=
  match type of H with
  | returns ?m _ =>
      match goal with
      | |- context [m ?w0] =>
          let w' := fresh "w" in
          let E := fresh "E" in
          destruct (H w0) as (w' & E); rewrite E; clear E;
          cbn -[_determine_overall_status]
      end
  end.

Lemma social_only_body (env : Env) (src : PresenceSources) (phone : string)
    (p : PhoneNumber) (social : pydict) (w : World) :
  returns (src_messaging src phone) [] ->
  returns (src_social src phone) social ->
  returns (src_carrier src p) [] ->
  returns (src_voip src phone) [] ->
  returns (src_business src phone) [] ->
  returns (src_probe src p) [] ->
  truthy (dict_get social "recent_activity" VNone) = true ->
  exists d w',
    detect_online_status_body env src phone p w = (Ok d, w')
    /\ dict_lookup "network_status" d = Some (VStr "Offline")
    /\ dict_lookup "last_seen" d = Some (dict_get social "last_activity_time" VNone)
    /\ section_entry "device_activity" "social_media" d = Some (VDict social).
Proof.
  intros Hm Hs Hc Hv Hb Hp Hrecent.
  assert (Hne : dict_truthy social = true).
  { destruct social; [discriminate Hrecent | reflexivity]. }
  unfold detect_online_status_body. cbn -[_determine_overall_status].
  probe Hm. probe Hs. rewrite Hne. cbn -[_determine_overall_status].
  rewrite Hrecent. cbn -[_determine_overall_status].
  probe Hc. probe Hv. probe Hb. probe Hp.
  rewrite overall_status_run.
  eexists _, _. split; [reflexivity |]. repeat split; reflexivity.
Qed.

Lemma detect_online_status_of_body (env : Env) (src : PresenceSources)
    (phone : string) (p : PhoneNumber) (w w' : World) (d : pydict) :
  detect_online_status_body env src phone p (enter "_detect_online_status" w)
  = (Ok d, w') ->
  value (_detect_online_status env src phone p) w = Ok d.
Proof.
  intros Hbody. rewrite detect_online_status_run. unfold value.
  rewrite Hbody. reflexivity.
Qed.

(** X12. Recent social activity does not reach the status.  When the
    social probe alone reports something, with a truthy [recent_activity],
    the detection stores the activity and its time as [last_seen], but the
    status it returns is ['Offline']: the ['Recently Online'] it had set
    is replaced by the classifier's label, which counts indicators only. *)
Theorem social_activity_leaves_status_offline :
  forall (env : Env) (src : PresenceSources) (phone : string) (p : PhoneNumber)
         (social : pydict) (w : World),
    returns (src_messaging src phone) [] ->
    returns (src_social src phone) social ->
    returns (src_carrier src p) [] ->
    returns (src_voip src phone) [] ->
    returns (src_business src phone) [] ->
    returns (src_probe src p) [] ->
    truthy (dict_get social "recent_activity" VNone) = true ->
    exists d,
      value (_detect_online_status env src phone p) w = Ok d
      /\ dict_lookup "network_status" d = Some (VStr "Offline")
      /\ dict_lookup "last_seen" d
         = Some (dict_get social "last_activity_time" VNone)
      /\ section_entry "device_activity" "social_media" d = Some (VDict social).
Proof.
  intros env src phone p social w Hm Hs Hc Hv Hb Hp Hrecent.
  destruct (social_only_body env src phone p social
              (enter "_detect_online_status" w) Hm Hs Hc Hv Hb Hp Hrecent)
    as (d & w' & Hbody & Hprops).
  exists d. split; [| exact Hprops].
  eapply detect_online_status_of_body. exact Hbody.
Qed.

Lemma constant_returns {A} (a : A) : returns (ret a) a.
Proof. intros w. exists w. reflexivity. Qed.

Lemma social_activity_leaves_status_offline_witness :
  exists d,
    value (_detect_online_status sample_env
             (constant_sources [] [("recent_activity", VBool true);
                                   ("last_activity_time", VStr "2024-01-01T09:30:00")]
                [] [] [] [])
             "+1-555-123-4567" sample_number) empty_world = Ok d
    /\ dict_lookup "network_status" d = Some (VStr "Offline")
    /\ dict_lookup "last_seen" d = Some (VStr "2024-01-01T09:30:00").
Proof.
  destruct (social_activity_leaves_status_offline sample_env
              (constant_sources [] [("recent_activity", VBool true);
                                    ("last_activity_time", VStr "2024-01-01T09:30:00")]
                 [] [] [] [])
              "+1-555-123-4567" sample_number
              [("recent_activity", VBool true);
               ("last_activity_time", VStr "2024-01-01T09:30:00")]
              empty_world)
    as (d & Hrun & Hstatus & Hseen & _);
    try apply constant_returns; try reflexivity.
  exists d. repeat split; assumption.
Defined.

Lemma count_status (n : nat) (otherwise : Result string) :
  (1 <= n)%nat ->
  (if Z.of_nat n >=? 2 then Ok "Online"
   else if Z.of_nat n =? 1 then Ok "Recently Online" else otherwise)
  = Ok (status_for_count n).
Proof.
  intros Hn. destruct n as [| [| n]]; [lia | reflexivity |].
  replace (Z.of_nat (S (S n)) >=? 2) with true; [reflexivity |].
  symmetry. apply Z.geb_le. lia.
Qed.

Lemma indicators_body (env : Env) (src : PresenceSources) (phone : string)
    (p : PhoneNumber) (apps : list string) (ms voip : pydict) (w : World) :
  returns (src_messaging src phone) (messaging_result apps ms) ->
  returns (src_social src phone) [] ->
  returns (src_carrier src p) [] ->
  returns (src_voip src phone) voip ->
  returns (src_business src phone) [] ->
  returns (src_probe src p) [] ->
  (1 <= List.length apps
        + (if truthy (dict_get voip "active" VNone) then 1 else 0))%nat ->
  exists d w',
    detect_online_status_body env src phone p w = (Ok d, w')
    /\ dict_lookup "network_status" d
       = Some (VStr (status_for_count
                       (List.length apps
                        + (if truthy (dict_get voip "active" VNone) then 1 else 0))))
    /\ (apps <> [] ->
          dict_lookup "connection_status" d = Some (VStr "Online via messaging")).
Proof.
  intros Hm Hs Hc Hv Hb Hp Hcount.
  unfold detect_online_status_body. cbn -[_determine_overall_status].
  probe Hm. probe Hs. probe Hc. probe Hv.
  destruct (truthy (dict_get voip "active" VNone)) eqn:Hactive.
  - assert (Hne : dict_truthy voip = true).
    { destruct voip; [discriminate Hactive | reflexivity]. }
    rewrite Hne.
    destruct apps as [| a apps]; cbn -[_determine_overall_status];
      probe Hb; probe Hp; rewrite overall_status_run;
      (erewrite status_of_indicators by reflexivity);
      (rewrite count_status by (rewrite ?length_app; cbn; lia));
      (eexists _, _; split; [reflexivity |]);
      (split; [| intros Hnil; try reflexivity; try (contradiction Hnil; reflexivity)]);
      cbn -[status_for_count Nat.add List.length]; do 3 f_equal;
      rewrite ?length_app, ?length_map; cbn [List.length Nat.add];
      rewrite ?length_app, ?length_map; cbn [List.length Nat.add];
      rewrite ?Nat.add_1_r; reflexivity.
  - rewrite Nat.add_0_r in *.
    destruct apps as [| a apps]; [cbn in Hcount; lia |].
    destruct (dict_truthy voip); cbn -[_determine_overall_status];
      probe Hb; probe Hp; rewrite overall_status_run;
      (erewrite status_of_indicators by reflexivity);
      (rewrite count_status by (cbn; lia));
      (eexists _, _; split; [reflexivity |]);
      (split; [| intros _; reflexivity]);
      cbn -[status_for_count Nat.add List.length]; do 3 f_equal;
      cbn [List.length]; rewrite ?length_map; reflexivity.
Qed.

(** X13. The status counts what messaging and VoIP report.  When the
    messaging probe returns what [_check_messaging_app_status] returns
    for [n] apps online, the VoIP probe returns a dict and the other probes
    nothing, the status is ['Recently Online'] for one indicator and
    ['Online'] for two or more, an active VoIP service counting as one
    more.  So an app seen online never gives the status ['Online via
    messaging']; that label is the connection status. *)
Theorem status_counts_messaging_and_voip :
  forall (env : Env) (src : PresenceSources) (phone : string) (p : PhoneNumber)
         (apps : list string) (ms voip : pydict) (w : World),
    returns (src_messaging src phone) (messaging_result apps ms) ->
    returns (src_social src phone) [] ->
    returns (src_carrier src p) [] ->
    returns (src_voip src phone) voip ->
    returns (src_business src phone) [] ->
    returns (src_probe src p) [] ->
    (1 <= List.length apps
          + (if truthy (dict_get voip "active" VNone) then 1 else 0))%nat ->
    exists d,
      value (_detect_online_status env src phone p) w = Ok d
      /\ dict_lookup "network_status" d
         = Some (VStr (status_for_count
                         (List.length apps
                          + (if truthy (dict_get voip "active" VNone)
                             then 1 else 0))))
      /\ dict_lookup "network_status" d <> Some (VStr "Online via messaging")
      /\ (apps <> [] ->
            dict_lookup "connection_status" d = Some (VStr "Online via messaging")).
Proof.
  intros env src phone p apps ms voip w Hm Hs Hc Hv Hb Hp Hcount.
  destruct (indicators_body env src phone p apps ms voip
              (enter "_detect_online_status" w) Hm Hs Hc Hv Hb Hp Hcount)
    as (d & w' & Hbody & Hstatus & Hconn).
  exists d. split; [eapply detect_online_status_of_body; exact Hbody |].
  split; [exact Hstatus |]. split; [| exact Hconn].
  rewrite Hstatus.
  destruct (List.length apps
            + (if truthy (dict_get voip "active" VNone) then 1 else 0))%nat
    as [| [| n]]; discriminate.
Qed.

Lemma status_counts_messaging_and_voip_witness :
  exists d,
    value (_detect_online_status sample_env
             (constant_sources
                (messaging_result ["whatsapp"]
                   [("whatsapp", VDict [("online", VBool true)])])
                [] [] [("skype", VDict [("online", VBool true)]);
                       ("active", VBool true)] [] [])
             "+1-555-123-4567" sample_number) empty_world = Ok d
    /\ dict_lookup "network_status" d = Some (VStr "Online")
    /\ dict_lookup "connection_status" d = Some (VStr "Online via messaging").
Proof.
  destruct (status_counts_messaging_and_voip sample_env
              (constant_sources
                 (messaging_result ["whatsapp"]
                    [("whatsapp", VDict [("online", VBool true)])])
                 [] [] [("skype", VDict [("online", VBool true)]);
                        ("active", VBool true)] [] [])
              "+1-555-123-4567" sample_number ["whatsapp"]
              [("whatsapp", VDict [("online", VBool true)])]
              [("skype", VDict [("online", VBool true)]); ("active", VBool true)]
              empty_world)
    as (d & Hrun & Hstatus & _ & Hconn);
    try apply constant_returns; [cbn; lia |].
  exists d. split; [exact Hrun |]. split; [exact Hstatus |].
  apply Hconn. discriminate.
Defined.

(** ** The calls of the parser *)

Lemma count_lib_app (fn : string) (t t' : list Event) :
  count_lib fn (t ++ t') = (count_lib fn t + count_lib fn t')%nat.
Proof. unfold count_lib. rewrite filter_app, length_app. reflexivity. Qed.

Lemma try_regions_calls (env : Env) (text : string) (regions : list (option string)) :
  forall w, exists new,
    w_trace (after (try_regions env text regions) w) = (new ++ w_trace w)%list
    /\ count_lib "parse" new = attempts env text regions
    /\ (count_lib "is_valid_number" new <= attempts env text regions)%nat.
Proof.
  induction regions as [| region rest IH]; intros w.
  - exists []. repeat split. cbn. lia.
  - unfold after in *. cbn [try_regions attempts]. unfold accepted.
    unfold try_except, library_call.
    destruct (parse env text region) as [parsed | e] eqn:Hparse; cbn;
      rewrite ?Hparse; cbn.
    + destruct (is_valid_number env parsed) as [[|] | e] eqn:Hvalid; cbn;
        rewrite ?Hvalid; cbn.
      * exists [EvLib "is_valid_number"; EvLib "parse"]. repeat split. cbn. lia.
      * match goal with
        | |- context [try_regions env text rest ?w0] =>
            destruct (IH w0) as (new & Htrace & Hparses & Hvalids)
        end.
        exists (new ++ [EvLib "is_valid_number"; EvLib "parse"])%list.
        rewrite Htrace, <- app_assoc, !count_lib_app. cbn.
        repeat split; lia.
      * match goal with
        | |- context [try_regions env text rest ?w0] =>
            destruct (IH w0) as (new & Htrace & Hparses & Hvalids)
        end.
        exists (new ++ [EvLib "is_valid_number"; EvLib "parse"])%list.
        rewrite Htrace, <- app_assoc, !count_lib_app. cbn.
        repeat split; lia.
    + match goal with
      | |- context [try_regions env text rest ?w0] =>
          destruct (IH w0) as (new & Htrace & Hparses & Hvalids)
      end.
      exists (new ++ [EvLib "parse"])%list.
      rewrite Htrace, <- app_assoc, !count_lib_app. cbn.
      repeat split; lia.
Qed.

Lemma attempts_bound (env : Env) (text : string) (regions : list (option string)) :
  (attempts env text regions <= List.length regions)%nat.
Proof.
  induction regions as [| r rest IH]; cbn; [lia |].
  destruct (accepted env text r); lia.
Qed.

Lemma attempts_first (env : Env) (text : string) (before rest : list (option string))
    (region : option string) (p : PhoneNumber) :
  Forall (fun r => accepted env text r = None) before ->
  accepted env text region = Some p ->
  attempts env text (before ++ region :: rest) = S (List.length before).
Proof.
  intros Hbefore Hacc. induction Hbefore as [| r before Hr _ IH]; cbn.
  - rewrite Hacc. reflexivity.
  - rewrite Hr, IH. reflexivity.
Qed.

Lemma attempts_none (env : Env) (text : string) (regions : list (option string)) :
  Forall (fun r => accepted env text r = None) regions ->
  attempts env text regions = List.length regions.
Proof.
  induction 1 as [| r rest Hr _ IH]; cbn; [reflexivity |].
  rewrite Hr, IH. reflexivity.
Qed.

(** X14. The parser stops at the first hint that accepts.  A run asks the
    library to parse once per hint tried: one more time than the number of
    hints rejecting before the first accepting one, five times when none
    accepts, never more; validity is checked at most once per parse. *)
Theorem parser_stops_at_first_accepted_hint :
  forall (env : Env) (text : string) (w : World),
    exists new,
      w_trace (after (_parse_phone_number env text) w) = (new ++ w_trace w)%list
      /\ (count_lib "parse" new <= 5)%nat
      /\ (count_lib "is_valid_number" new <= count_lib "parse" new)%nat
      /\ (forall before region rest p,
            regions_to_try = (before ++ region :: rest)%list ->
            Forall (fun r => accepted env text r = None) before ->
            accepted env text region = Some p ->
            count_lib "parse" new = S (List.length before))
      /\ (Forall (fun r => accepted env text r = None) regions_to_try ->
            count_lib "parse" new = 5%nat).
Proof.
  intros env text w.
  destruct (try_regions_calls env text regions_to_try
              (enter "_parse_phone_number" w)) as (new & Htrace & Hparses & Hvalids).
  exists (new ++ [EvCall "_parse_phone_number"])%list.
  assert (Hafter : after (_parse_phone_number env text) w
                   = after (try_regions env text regions_to_try)
                       (enter "_parse_phone_number" w)).
  { unfold after, _parse_phone_number. rewrite method_run. unfold try_except.
    destruct (try_regions_run env text regions_to_try
                (enter "_parse_phone_number" w)) as (w' & Hrun & _).
    rewrite Hrun. reflexivity. }
  rewrite Hafter, Htrace, <- app_assoc, !count_lib_app.
  cbn [count_lib filter List.length Nat.add enter w_trace app].
  rewrite !Nat.add_0_r, Hparses.
  split; [reflexivity |].
  split; [apply (attempts_bound env text regions_to_try) |].
  split; [exact Hvalids |]. split.
  - intros before region rest p Heq Hbefore Hacc.
    rewrite Heq. eapply attempts_first; eassumption.
  - intros Hnone. apply (attempts_none env text regions_to_try Hnone).
Qed.

Lemma parser_stops_at_first_accepted_hint_witness :
  (exists new,
      w_trace (after (_parse_phone_number two_region_env "2079460958") empty_world)
      = (new ++ w_trace empty_world)%list
      /\ count_lib "parse" new = 1%nat)
  /\ (exists new,
         w_trace (after (_parse_phone_number two_region_env "not a number") empty_world)
         = (new ++ w_trace empty_world)%list
         /\ count_lib "parse" new = 5%nat).
Proof.
  split.
  - destruct (parser_stops_at_first_accepted_hint two_region_env "2079460958"
                empty_world) as (new & Htrace & _ & _ & Hfirst & _).
    exists new. split; [exact Htrace |].
    apply (Hfirst [] (Some "US") [Some "GB"; Some "CA"; Some "AU"; None]
             (mkPhoneNumber 1 2079460958));
      [reflexivity | constructor | reflexivity].
  - destruct (parser_stops_at_first_accepted_hint two_region_env "not a number"
                empty_world) as (new & Htrace & _ & _ & _ & Hnone).
    exists new. split; [exact Htrace |].
    apply Hnone. repeat constructor.
Defined.

(** ** The probes of the class *)

(** X15. With the probes the class defines, every accepted number is
    reported offline: whatever the library answers or raises, the network
    section of the report has status ['Offline'] and connection status
    ['Unknown'] (so the monitor, which shows green for ['Online'] only,
    shows red). *)
Theorem class_probes_always_offline :
  forall (env : Env) (text : string) (w : World) (p : PhoneNumber),
    first_accepted env text regions_to_try = Some p ->
    exists report,
      value (analyze_phone_number env (class_sources env) text) w = Ok report
      /\ section_entry "network_intelligence" "network_status" report
         = Some (VStr "Offline")
      /\ section_entry "network_intelligence" "connection_status" report
         = Some (VStr "Unknown").
Proof.
  intros env text w p Hsome.
  destruct (analyze_success_run env (class_sources env) text w p Hsome)
    as (now & basic & carrier & security & osint & technical & network
        & w1 & w3 & w4 & w6 & Hrun & Hb & _ & _ & Hn).
  rewrite extract_basic_info_value in Hb. injection Hb as <-.
  destruct (class_network_status env p text w6) as (nd & Hnd & Hstatus & Hconn).
  rewrite Hnd in Hn. injection Hn as ->.
  eexists. split; [exact Hrun |].
  unfold section_entry. rewrite report_of_network. split; assumption.
Qed.

Lemma class_probes_always_offline_witness :
  exists report,
    value (analyze_phone_number voip_env (class_sources voip_env) "+1-555-123-4567")
      empty_world = Ok report
    /\ section_entry "network_intelligence" "network_status" report
       = Some (VStr "Offline").
Proof.
  destruct (class_probes_always_offline voip_env "+1-555-123-4567" empty_world
              sample_number eq_refl) as (report & Hrun & Hstatus & _).
  exists report. split; assumption.
Defined.

(** ** The filter of social accounts *)

Lemma dict_update_app (d o o' : pydict) :
  dict_update d (o ++ o') = dict_update (dict_update d o) o'.
Proof. unfold dict_update. apply fold_left_app. Qed.

Lemma social_accounts_loop_run (env : Env) (phone : string)
    (items : list (string * pydict)) :
  forall (acc : pydict) (w : World),
    exists filtered w',
      social_accounts_loop env phone items acc w = (Ok filtered, w')
      /\ (forall platform,
            (forall results, In (platform, results) items -> found results = false) ->
            dict_lookup platform filtered = dict_lookup platform acc)
      /\ (forall platform results,
            In (platform, results) items -> found results = true ->
            exists entry,
              dict_lookup platform filtered = Some (VDict entry)
              /\ dict_lookup "confidence" entry = Some (VInt 50))
      /\ (forall platform entry,
            dict_lookup platform acc = Some (VDict entry) ->
            dict_lookup "confidence" entry = Some (VInt 50) ->
            exists entry',
              dict_lookup platform filtered = Some (VDict entry')
              /\ dict_lookup "confidence" entry' = Some (VInt 50))
      /\ w_ticks w' = (w_ticks w + List.length (filter (fun kv => found (snd kv)) items))%nat.
Proof.
  induction items as [| [platform results] items IH]; intros acc w.
  - exists acc, w. split; [reflexivity |]. split; [reflexivity |].
    split; [intros ? ? []|]. split; [eauto |]. cbn. lia.
  - cbn [social_accounts_loop]. fold (found results).
    destruct (found results) eqn:Hfound.
    + cbn -[social_accounts_loop dict_of].
      match goal with
      | |- context [social_accounts_loop env phone items ?acc0 ?w0] =>
          destruct (IH acc0 w0) as (filtered & w' & Hrun & Hskip & Hkeep & Hpres & Hticks);
          set (acc' := acc0) in *
      end.
      exists filtered, w'. split; [exact Hrun |].
      assert (Hentry : exists entry,
                 dict_lookup platform acc' = Some (VDict entry)
                 /\ dict_lookup "confidence" entry = Some (VInt 50)).
      { eexists. subst acc'. rewrite dict_lookup_set, String.eqb_refl.
        split; [reflexivity |].
        unfold dict_of. rewrite dict_update_app. cbn [dict_update fold_left fst snd].
        rewrite !dict_lookup_set. reflexivity. }
      split; [| split; [| split]].
      * intros q Hq. rewrite Hskip.
        -- subst acc'. rewrite dict_lookup_set.
           destruct (String.eqb q platform) eqn:E; [| reflexivity].
           apply String.eqb_eq in E. subst q.
           rewrite (Hq results) in Hfound; [discriminate | left; reflexivity].
        -- intros r Hr. apply Hq. right. exact Hr.
      * intros q r [[= <- <-] | Hin] Hf.
        -- destruct Hentry as (entry & He & Hc). eapply Hpres; eassumption.
        -- eapply Hkeep; eassumption.
      * intros q entry Hq Hc.
        destruct (String.eqb q platform) eqn:E.
        -- apply String.eqb_eq in E. subst q.
           destruct Hentry as (entry0 & He & Hc0). eapply Hpres; eassumption.
        -- eapply Hpres; [| exact Hc]. subst acc'.
           rewrite dict_lookup_set, E. exact Hq.
      * rewrite Hticks. cbn [filter snd]. rewrite Hfound. cbn. lia.
    + cbn -[social_accounts_loop].
      destruct (IH acc w) as (filtered & w' & Hrun & Hskip & Hkeep & Hpres & Hticks).
      exists filtered, w'. split; [exact Hrun |].
      split; [| split; [| split]].
      * intros q Hq. apply Hskip. intros r Hr. apply Hq. right. exact Hr.
      * intros q r [[= <- <-] | Hin] Hf; [congruence |]. eapply Hkeep; eassumption.
      * exact Hpres.
      * rewrite Hticks. cbn [filter snd]. rewrite Hfound. reflexivity.
Qed.

(** X16. The loop of [_find_social_media_accounts] keeps the found
    accounts only.  Started on the empty dict, it returns normally; a
    platform none of whose results is found is absent from the outcome; a
    platform with a found result is present, with confidence 50; and the
    clock is read once for each found result. *)
Theorem social_accounts_filter :
  forall (env : Env) (phone : string) (items : list (string * pydict)) (w : World),
    exists filtered w',
      social_accounts_loop env phone items [] w = (Ok filtered, w')
      /\ (forall platform,
            (forall results, In (platform, results) items -> found results = false) ->
            dict_lookup platform filtered = None)
      /\ (forall platform results,
            In (platform, results) items -> found results = true ->
            exists entry,
              dict_lookup platform filtered = Some (VDict entry)
              /\ dict_lookup "confidence" entry = Some (VInt 50))
      /\ w_ticks w'
         = (w_ticks w + List.length (filter (fun kv => found (snd kv)) items))%nat.
Proof.
  intros env phone items w.
  destruct (social_accounts_loop_run env phone items [] w)
    as (filtered & w' & Hrun & Hskip & Hkeep & _ & Hticks).
  exists filtered, w'. split; [exact Hrun |]. split; [| split; assumption].
  intros platform Hnone. rewrite (Hskip platform Hnone). reflexivity.
Qed.

Lemma social_accounts_filter_witness :
  exists filtered w',
    social_accounts_loop sample_env "+1-555-123-4567"
      [("facebook", [("found", VBool false); ("profiles", VList [])]);
       ("reddit", [("found", VBool true); ("profiles", VStrs ["u/example"])])]
      [] empty_world = (Ok filtered, w')
    /\ dict_lookup "facebook" filtered = None
    /\ (exists entry,
          dict_lookup "reddit" filtered = Some (VDict entry)
          /\ dict_lookup "confidence" entry = Some (VInt 50))
    /\ w_ticks w' = 1%nat.
Proof.
  destruct (social_accounts_filter sample_env "+1-555-123-4567"
              [("facebook", [("found", VBool false); ("profiles", VList [])]);
               ("reddit", [("found", VBool true); ("profiles", VStrs ["u/example"])])]
              empty_world) as (filtered & w' & Hrun & Hskip & Hkeep & Hticks).
  exists filtered, w'. split; [exact Hrun |]. split; [| split].
  - apply Hskip. intros results [[= <-] | [[= ] | []]]. reflexivity.
  - apply (Hkeep "reddit" [("found", VBool true); ("profiles", VStrs ["u/example"])]);
      [right; left; reflexivity | reflexivity].
  - exact Hticks.
Defined.

(** ** The OSINT section *)

Lemma osint_placeholders_run (env : Env) (src : PresenceSources)
    (p : PhoneNumber) (text : string) (w : World) :
  exists network footprint,
    value (_perform_osint_enrichment env src p text) w
    = Ok [("breach_data", VList []);
          ("social_media_presence", VDict []);
          ("additional_intel", VDict []);
          ("network_intelligence", VDict network);
          ("digital_footprint", VDict footprint);
          ("associated_emails",
           VDict [("found_emails", VList []); ("confidence_scores", VDict []);
                  ("sources", VDict []); ("verification_status", VDict [])]);
          ("websites",
           VDict [("business_websites", VList []); ("personal_websites", VList []);
                  ("social_profiles", VList []); ("e_commerce_profiles", VList []);
                  ("professional_profiles", VList []);
                  ("confidence_scores", VDict [])]);
          ("social_accounts", VDict [])].
Proof.
  unfold value, _perform_osint_enrichment.
  rewrite method_run. unfold try_except.
  destruct (get_network_intelligence_total env src p text
              (enter "_perform_osint_enrichment" w)) as (network & w1 & Hn).
  erewrite bind_run_ok by exact Hn.
  unfold _check_hibp_breaches.
  destruct (str_truthy (HIBP_API_KEY (config env)));
    eexists network, _; vm_compute; reflexivity.
Qed.

(** X17. With the placeholders of the class the OSINT section carries no
    finding: whatever the library, the HIBP key and the probes, the stage
    returns its eight entries with an empty breach list, no social media
    presence, no associated e-mail, no website and no social account. *)
Theorem osint_section_has_no_findings :
  forall (env : Env) (src : PresenceSources) (p : PhoneNumber) (text : string)
         (w : World),
    exists osint,
      value (_perform_osint_enrichment env src p text) w = Ok osint
      /\ dict_keys osint
         = ["breach_data"; "social_media_presence"; "additional_intel";
            "network_intelligence"; "digital_footprint"; "associated_emails";
            "websites"; "social_accounts"]
      /\ dict_lookup "breach_data" osint = Some (VList [])
      /\ dict_lookup "social_media_presence" osint = Some (VDict [])
      /\ section_entry "associated_emails" "found_emails" osint = Some (VList [])
      /\ section_entry "websites" "business_websites" osint = Some (VList [])
      /\ section_entry "websites" "personal_websites" osint = Some (VList [])
      /\ dict_lookup "social_accounts" osint = Some (VDict []).
Proof.
  intros env src p text w.
  destruct (osint_placeholders_run env src p text w) as (network & footprint & Hrun).
  eexists. split; [exact Hrun |]. repeat split; reflexivity.
Qed.

(** ** A failing probe *)

Lemma source_failure_raised (env : Env) (src : PresenceSources)
    (phone : string) (p : PhoneNumber) (w : World) :
  some_source_fails src phone p ->
  exists e,
    value (detect_online_status_body env src phone p)
      (enter "_detect_online_status" w) = Raise e
    /\ value (_detect_online_status env src phone p) w =
       Ok [("network_status", VStr "Error");
           ("connection_status", VStr "Unknown");
           ("error", VStr (e_str e))].
Proof.
  intros Hfail.
  destruct (source_failure_gives_error env src phone p w Hfail) as (e & Herr).
  rewrite detect_online_status_run in Herr.
  destruct (value (detect_online_status_body env src phone p)
              (enter "_detect_online_status" w)) as [d | e'] eqn:Hbody.
  - exfalso. injection Herr as ->.
    unfold value in Hbody.
    destruct (detect_online_status_body env src phone p _) as [r w'] eqn:Hb.
    cbn in Hbody. subst r.
    apply detect_body_ok_inv in Hb.
    destruct Hb as (_ & _ & _ & _ & _ & _ & s & _ & Hne & Hs).
    cbn in Hs. injection Hs as <-. contradiction Hne. reflexivity.
  - exists e'. split; [reflexivity |].
    rewrite detect_online_status_run, Hbody. reflexivity.
Qed.

Lemma failing_probe_network (env : Env) (src : PresenceSources)
    (p : PhoneNumber) (text : string) (w : World) :
  some_source_fails src text p ->
  exists nd msg,
    value (_get_network_intelligence env src p text) w = Ok nd
    /\ dict_lookup "network_status" nd = Some (VStr "Error")
    /\ dict_lookup "connection_status" nd = Some (VStr "Unknown")
    /\ dict_lookup "error" nd = Some (VStr msg)
    /\ exists e w0,
         value (detect_online_status_body env src text p) w0 = Raise e
         /\ msg = e_str e.
Proof.
  intros Hfail.
  unfold value, _get_network_intelligence.
  rewrite method_run. unfold try_except.
  destruct (get_carrier_network_info_total env p
              (enter "_get_network_intelligence" w)) as (cn & w1 & Hcn).
  erewrite bind_run_ok by exact Hcn.
  destruct (get_carrier_ip_ranges_total env p w1) as (ip & w2 & Hip).
  erewrite bind_run_ok by exact Hip.
  destruct (source_failure_raised env src text p w2 Hfail) as (e & Hbody & Herr).
  unfold value in Herr.
  destruct (_detect_online_status env src text p w2) as [r w3] eqn:Hos.
  cbn in Herr. subst r.
  erewrite bind_run_ok by exact Hos.
  destruct (assess_network_security_total env p w3) as (ns & w4 & Hns).
  erewrite bind_run_ok by exact Hns.
  cbn [dict_truthy].
  eexists _, (e_str e). split; [reflexivity |].
  assert (Hraised : exists e0 w0,
             value (detect_online_status_body env src text p) w0 = Raise e0
             /\ e_str e = e_str e0).
  { exists e, (enter "_detect_online_status" w2). split; [exact Hbody | reflexivity]. }
  destruct (dict_truthy ns); rewrite ?dict_lookup_set;
    cbn [String.eqb Ascii.eqb Bool.eqb];
    (split; [apply dict_lookup_update_some; reflexivity |]);
    (split; [apply dict_lookup_update_some; reflexivity |]);
    (split; [apply dict_lookup_update_some; reflexivity | exact Hraised]).
Qed.

Lemma report_of_sections (now text : string) (score : Z)
    (env : Env) (p : PhoneNumber)
    (carrier security osint technical network : pydict) :
  let report :=
    report_of now text score (basic_info_of env p) carrier security osint
      technical network in
  dict_lookup "carrier_info" report = Some (VDict carrier)
  /\ dict_lookup "security_analysis" report = Some (VDict security)
  /\ dict_lookup "osint_data" report = Some (VDict osint)
  /\ dict_lookup "technical_details" report = Some (VDict technical)
  /\ dict_lookup "network_intelligence" report = Some (VDict network).
Proof.
  unfold report_of, basic_info_of.
  destruct (description_for_number env p "en");
    [destruct (name_for_number env p "en");
       [destruct (time_zones_for_number env p);
          [destruct (number_type env p) |] |] |];
    repeat split; reflexivity.
Qed.

(** A run of the entry point on an accepted number: the report in terms
    of the records of the stages. *)
Lemma analyze_accepted_full (env : Env) (src : PresenceSources) (text : string)
    (w : World) (p : PhoneNumber) :
  first_accepted env text regions_to_try = Some p ->
  exists now osint network (w4 w6 : World),
    value (analyze_phone_number env src text) w
    = Ok (report_of now text (pipeline_score env p) (basic_info_of env p)
            (carrier_record env p) (security_record env p) osint
            (technical_record env p) network)
    /\ value (_perform_osint_enrichment env src p text) w4 = Ok osint
    /\ value (_get_network_intelligence env src p text) w6 = Ok network.
Proof.
  intros Hsome. unfold analyze_phone_number, value.
  rewrite method_run. unfold try_except.
  destruct (parse_phone_number_run env text (enter "analyze_phone_number" w))
    as (w1 & Hp & _).
  rewrite Hsome in Hp.
  erewrite bind_run_ok by exact Hp. cbv beta iota.
  destruct (extract_basic_info_total env p w1) as (basic & w2 & Hb).
  pose proof (extract_basic_info_value env p w1) as Hbv.
  unfold value in Hbv. rewrite Hb in Hbv. injection Hbv as ->.
  erewrite bind_run_ok by exact Hb.
  destruct (get_carrier_info_total env p w2) as (carrier & w3 & Hc).
  pose proof (get_carrier_info_value env p w2) as Hcv.
  unfold value in Hcv. rewrite Hc in Hcv. injection Hcv as ->.
  erewrite bind_run_ok by exact Hc.
  destruct (perform_security_analysis_total env p text w3) as (security & w4 & Hs).
  pose proof (security_analysis_value env p text w3) as Hsv.
  unfold value in Hsv. rewrite Hs in Hsv. injection Hsv as ->.
  erewrite bind_run_ok by exact Hs.
  destruct (perform_osint_enrichment_total env src p text w4) as (osint & w5 & Ho).
  destruct (osint_without_breaches env src p text w4) as (od & Hod & Hbreach).
  unfold value in Hod. rewrite Ho in Hod. injection Hod as <-.
  erewrite bind_run_ok by exact Ho.
  destruct (extract_technical_details_total env p w5) as (technical & w6 & Ht).
  pose proof (extract_technical_details_value env p w5) as Htv.
  unfold value in Htv. rewrite Ht in Htv. injection Htv as ->.
  erewrite bind_run_ok by exact Ht.
  destruct (get_network_intelligence_total env src p text w6) as (network & w7 & Hn).
  erewrite bind_run_ok by exact Hn.
  destruct (risk_score_full_run (VDict (security_record env p)) (VDict osint) w7)
    as (w8 & Hr).
  rewrite (pipeline_score_body env p osint Hbreach) in Hr.
  erewrite bind_run_ok by exact Hr.
  exists (isoformat env (w_ticks w8)), osint, network, w4, w6.
  rewrite Ho, Hn. repeat split; reflexivity.
Qed.

(** ** The shape of the report *)

(** C8, as stated, fails: with the geocoder raising the analysis still
    succeeds, and its report has neither ['country'] nor ['line_type'] nor
    the other basic entries, which the report of the same number has when
    the geocoder answers. *)
Lemma report_keys_not_stable :
  top_level_keys
    (value (analyze_phone_number sample_env (class_sources sample_env)
              "+1-555-123-4567") empty_world)
  = (head_keys ++ basic_keys ++ section_keys)%list
  /\ top_level_keys
       (value (analyze_phone_number geocoder_down_env
                 (class_sources geocoder_down_env) "+1-555-123-4567") empty_world)
     = (head_keys ++ section_keys)%list
  /\ report_lookup "error"
       (value (analyze_phone_number geocoder_down_env
                 (class_sources geocoder_down_env) "+1-555-123-4567") empty_world)
     = None
  /\ report_lookup "line_type"
       (value (analyze_phone_number geocoder_down_env
                 (class_sources geocoder_down_env) "+1-555-123-4567") empty_world)
     = None
  /\ report_lookup "country"
       (value (analyze_phone_number geocoder_down_env
                 (class_sources geocoder_down_env) "+1-555-123-4567") empty_world)
     = None
  /\ top_level_keys
       (value (analyze_phone_number sample_env (class_sources sample_env)
                 "+1-555-123-4567") empty_world)
     <> top_level_keys
          (value (analyze_phone_number geocoder_down_env
                    (class_sources geocoder_down_env) "+1-555-123-4567")
             empty_world).
Proof.
  repeat split; try (vm_compute; reflexivity).
  vm_compute. discriminate.
Qed.

Lemma report_of_shape (now text : string) (score : Z) (env : Env)
    (p : PhoneNumber) (carrier security osint technical network : pydict) :
  let report :=
    report_of now text score (basic_info_of env p) carrier security osint
      technical network in
  dict_lookup "error" report = None
  /\ (exists now score,
        dict_lookup "timestamp" report = Some (VStr now)
        /\ dict_lookup "input_number" report = Some (VStr text)
        /\ dict_lookup "risk_score" report = Some (VInt score))
  /\ (forall k, In k section_keys ->
        exists section, dict_lookup k report = Some (VDict section))
  /\ (basic_info_available env p = true ->
        dict_keys report = (head_keys ++ basic_keys ++ section_keys)%list
        /\ forall country carrier_name,
             description_for_number env p "en" = Ok country ->
             name_for_number env p "en" = Ok carrier_name ->
             dict_lookup "country" report = Some (VStr (or_unknown country))
             /\ dict_lookup "region" report = Some (VStr (or_unknown country))
             /\ dict_lookup "carrier" report
                = Some (VStr (or_unknown carrier_name))
             /\ or_unknown country <> "" /\ or_unknown carrier_name <> "")
  /\ (basic_info_available env p = false ->
        dict_keys report = (head_keys ++ section_keys)%list).
Proof.
  unfold basic_info_of, basic_info_available, report_of.
  destruct (description_for_number env p "en") as [country |];
    [destruct (name_for_number env p "en") as [name |];
       [destruct (time_zones_for_number env p) as [zones |];
          [destruct (number_type env p) as [t |] |] |] |];
    cbn;
    (split; [reflexivity |]);
    (split; [eexists _, _; repeat split; reflexivity |]);
    (split;
     [intros k [<- | [<- | [<- | [<- | [<- | []]]]]]; eexists; reflexivity |]);
    (split; [| intros Hfalse; try discriminate Hfalse; reflexivity]);
    try (intros Hfalse; discriminate Hfalse).
  intros _. split; [reflexivity |].
  intros country' name' [= <-] [= <-].
  repeat split; try reflexivity; apply or_unknown_not_empty.
Qed.

(** C8, amended.  A successful analysis always has the eight entries
    timestamp, input_number, risk_score, carrier_info, security_analysis,
    osint_data, technical_details and network_intelligence, the five
    sections being dicts, and no ['error'].  The carrier, security and
    technical sections are the records of their stages, and a stage one of
    whose library lookups raised appears as the empty dict.  The six basic
    entries are there, between risk_score and carrier_info, when the four
    library lookups of [_extract_basic_info] return, with ['Unknown'] for
    an empty country, region or carrier; when one of the lookups raises the
    six entries are left out. *)
Theorem report_top_level_keys :
  forall (env : Env) (src : PresenceSources) (text : string) (w : World)
         (p : PhoneNumber),
    first_accepted env text regions_to_try = Some p ->
    exists report,
      value (analyze_phone_number env src text) w = Ok report
      /\ dict_lookup "error" report = None
      /\ (exists now score,
            dict_lookup "timestamp" report = Some (VStr now)
            /\ dict_lookup "input_number" report = Some (VStr text)
            /\ dict_lookup "risk_score" report = Some (VInt score))
      /\ (forall k, In k section_keys ->
            exists section, dict_lookup k report = Some (VDict section))
      /\ (basic_info_available env p = true ->
            dict_keys report = (head_keys ++ basic_keys ++ section_keys)%list
            /\ forall country carrier_name,
                 description_for_number env p "en" = Ok country ->
                 name_for_number env p "en" = Ok carrier_name ->
                 dict_lookup "country" report = Some (VStr (or_unknown country))
                 /\ dict_lookup "region" report = Some (VStr (or_unknown country))
                 /\ dict_lookup "carrier" report
                    = Some (VStr (or_unknown carrier_name))
                 /\ or_unknown country <> "" /\ or_unknown carrier_name <> "")
      /\ (basic_info_available env p = false ->
            dict_keys report = (head_keys ++ section_keys)%list)
      /\ dict_lookup "carrier_info" report = Some (VDict (carrier_record env p))
      /\ dict_lookup "security_analysis" report
         = Some (VDict (security_record env p))
      /\ dict_lookup "technical_details" report
         = Some (VDict (technical_record env p))
      /\ ((exists e, name_for_number env p "en" = Raise e)
          \/ (exists e, number_type env p = Raise e)
          \/ (exists e, description_for_number env p "en" = Raise e) ->
          dict_lookup "carrier_info" report = Some (VDict []))
      /\ ((exists e, number_type env p = Raise e) ->
          dict_lookup "security_analysis" report = Some (VDict []))
      /\ ((exists e, format_number env p INTERNATIONAL = Raise e)
          \/ (exists e, format_number env p NATIONAL = Raise e)
          \/ (exists e, format_number env p E164 = Raise e)
          \/ (exists e, number_type env p = Raise e) ->
          dict_lookup "technical_details" report = Some (VDict [])).
Proof.
  intros env src text w p Hsome.
  destruct (analyze_accepted_full env src text w p Hsome)
    as (now & osint & network & w4 & w6 & Hrun & _).
  eexists. split; [exact Hrun |].
  pose proof (report_of_shape now text (pipeline_score env p) env p
                (carrier_record env p) (security_record env p) osint
                (technical_record env p) network) as Hshape.
  cbv zeta in Hshape.
  destruct Hshape as (Herr & Hhead & Hsections & Hbasic & Hnone).
  pose proof (report_of_sections now text (pipeline_score env p) env p
                (carrier_record env p) (security_record env p) osint
                (technical_record env p) network) as Hsec.
  cbv zeta in Hsec. destruct Hsec as (Hc & Hs & _ & Ht & _).
  do 5 (split; [assumption |]).
  do 3 (split; [assumption |]).
  rewrite Hc, Hs, Ht. split; [| split].
  - unfold carrier_record. intros [[e ->] | [[e ->] | [e ->]]].
    + reflexivity.
    + destruct (name_for_number env p "en"); reflexivity.
    + destruct (name_for_number env p "en"); [| reflexivity].
      destruct (number_type env p); reflexivity.
  - unfold security_record. intros [e ->]. reflexivity.
  - unfold technical_record. intros [[e ->] | [[e ->] | [[e ->] | [e ->]]]].
    + reflexivity.
    + destruct (format_number env p INTERNATIONAL); reflexivity.
    + destruct (format_number env p INTERNATIONAL); [| reflexivity].
      destruct (format_number env p NATIONAL); reflexivity.
    + destruct (format_number env p INTERNATIONAL); [| reflexivity].
      destruct (format_number env p NATIONAL); [| reflexivity].
      destruct (format_number env p E164); reflexivity.
Qed.

Lemma report_top_level_keys_witness :
  (exists report,
      value (analyze_phone_number sample_env (class_sources sample_env)
               "+1-555-123-4567") empty_world = Ok report
      /\ dict_lookup "error" report = None
      /\ dict_keys report = (head_keys ++ basic_keys ++ section_keys)%list
      /\ dict_lookup "country" report = Some (VStr "Unknown"))
  /\ (exists report,
         value (analyze_phone_number geocoder_down_env
                  (class_sources geocoder_down_env) "+1-555-123-4567")
           empty_world = Ok report
         /\ dict_lookup "error" report = None
         /\ dict_keys report = (head_keys ++ section_keys)%list
         /\ dict_lookup "carrier_info" report = Some (VDict [])).
Proof.
  split.
  - destruct (report_top_level_keys sample_env (class_sources sample_env)
                "+1-555-123-4567" empty_world sample_number eq_refl)
      as (report & Hrun & Herr & _ & _ & Hbasic & _).
    destruct (Hbasic eq_refl) as (Hkeys & Hsent).
    destruct (Hsent "" "" eq_refl eq_refl) as (Hcountry & _).
    exists report. repeat split; assumption.
  - destruct (report_top_level_keys geocoder_down_env
                (class_sources geocoder_down_env)
                "+1-555-123-4567" empty_world sample_number eq_refl)
      as (report & Hrun & Herr & _ & _ & _ & Hnone & _ & _ & _ & Hcarrier & _).
    exists report. split; [exact Hrun |]. split; [exact Herr |]. split.
    + apply Hnone. reflexivity.
    + apply Hcarrier. right. right.
      exists (Exn LibraryError "geocoding data unavailable"). reflexivity.
Defined.

(** X18. A failing probe stays in its section.  When one of the six
    presence probes raises, the analysis of an accepted number still
    succeeds: the report has no ['error'] entry, its network section has
    status ['Error'] and the message of the exception that ended the
    collection of [_detect_online_status], and the risk score and the
    carrier, security and technical sections are what the library alone
    determines. *)
Theorem failing_probe_is_isolated :
  forall (env : Env) (src : PresenceSources) (text : string) (w : World)
         (p : PhoneNumber),
    first_accepted env text regions_to_try = Some p ->
    some_source_fails src text p ->
    exists report msg,
      value (analyze_phone_number env src text) w = Ok report
      /\ dict_lookup "error" report = None
      /\ section_entry "network_intelligence" "network_status" report
         = Some (VStr "Error")
      /\ section_entry "network_intelligence" "error" report = Some (VStr msg)
      /\ dict_lookup "risk_score" report = Some (VInt (pipeline_score env p))
      /\ dict_lookup "carrier_info" report = Some (VDict (carrier_record env p))
      /\ dict_lookup "security_analysis" report
         = Some (VDict (security_record env p))
      /\ dict_lookup "technical_details" report
         = Some (VDict (technical_record env p))
      /\ (exists e w0,
            value (detect_online_status_body env src text p) w0 = Raise e
            /\ msg = e_str e).
Proof.
  intros env src text w p Hsome Hfail.
  destruct (analyze_accepted_full env src text w p Hsome)
    as (now & osint & network & w4 & w6 & Hrun & _ & Hn).
  destruct (failing_probe_network env src p text w6 Hfail)
    as (nd & msg & Hnd & Hstatus & _ & Hmsg & Hraised).
  rewrite Hnd in Hn. injection Hn as ->.
  eexists _, msg. split; [exact Hrun |].
  pose proof (report_of_sections now text (pipeline_score env p) env p
                (carrier_record env p) (security_record env p) osint
                (technical_record env p) network) as Hsec.
  cbv zeta in Hsec. destruct Hsec as (Hc & Hs & _ & Ht & Hnet).
  unfold section_entry. rewrite Hnet.
  split; [apply report_of_risk_score |].
  split; [exact Hstatus |]. split; [exact Hmsg |].
  split; [apply report_of_risk_score |].
  repeat split; assumption.
Qed.

Lemma failing_probe_is_isolated_witness :
  exists report msg,
    value (analyze_phone_number sample_env (sources_with_failing_voip sample_env)
             "+1-555-123-4567") empty_world = Ok report
    /\ dict_lookup "error" report = None
    /\ section_entry "network_intelligence" "network_status" report
       = Some (VStr "Error")
    /\ section_entry "network_intelligence" "error" report = Some (VStr msg)
    /\ dict_lookup "risk_score" report = Some (VInt 20).
Proof.
  destruct (failing_probe_is_isolated sample_env
              (sources_with_failing_voip sample_env) "+1-555-123-4567"
              empty_world sample_number eq_refl)
    as (report & msg & Hrun & Herr & Hstatus & Hmsg & Hscore & _).
  - right. right. right. left. intros w. eexists _, _. reflexivity.
  - exists report, msg. repeat split; assumption.
Defined.
